(** * Payment orchestration backend: gateway adapters and reconciliation

    A shallow embedding of the gateway adapters
    ([services/paymentGateways/easebuzz.js], the UPI adapter), of the
    orchestrator ([services/paymentService.js]), of the redirect handlers of
    the application entry point and of the reconciling routes of
    [routes/payments.js], followed by the properties of the specification
    they decide.

    Conventions of the embedding.
    - A JavaScript string is the sequence of its UTF-8 bytes ([string]).
    - Webhook bodies and redirect queries are flat objects whose values are
      strings ([gmap string string]); an absent key reads as [undefined].
    - Values stored in [paymentResponse] and values decoded from upstream
      JSON are [jsval]s.
    - [paymentRequest] and [paymentResponse] are paths of type [Map]:
      spreading what such a path holds copies the properties of the map
      object, not its entries, and an object with a key a map refuses does
      not cast, so that [save()] rejects.
    - A reading of the clock is a [Date], written in its ISO-8601 form; a
      handler run takes one reading.
    - An operation that can throw returns an [Outcome]. *)

From Stdlib Require Import ZArith String Ascii List.
From Stdlib Require Uint63.
From stdpp Require Import gmap strings pretty list fin_maps.

Set Warnings "-register-all,-clear-no-such-hyp".

(** ** JavaScript values *)

Inductive jsval :=
  | VUndef
  | VNull
  | VBool (b : bool)
  | VNum (n : Z)
  | VStr (s : string)
  | VArr (l : list jsval)
  | VObj (o : gmap string jsval).

(** An object literal or a parsed JSON object. *)
Abbreviation Obj := (gmap string jsval).
(** A flat, string-valued object: a form-encoded body or a query string. *)
Abbreviation Form := (gmap string string).

(** [ToBoolean]. *)
Definition truthy (v : jsval) : bool :=
  match v with
  | VUndef | VNull => false
  | VBool b => b
  | VNum n => negb (Z.eqb n 0)
  | VStr s => negb (String.eqb s "")
  | VArr _ | VObj _ => true
  end.

(** [a || b] on values. *)
Definition js_or (a b : jsval) : jsval := if truthy a then a else b.

(** [o?.k] on a value: [undefined] unless [o] is an object holding [k]. *)
Definition get (v : jsval) (k : string) : jsval :=
  match v with
  | VObj o => default VUndef (o !! k)
  | _ => VUndef
  end.

(** [v === 'lit']. *)
Definition is_str (v : jsval) (lit : string) : bool :=
  match v with
  | VStr s => String.eqb s lit
  | _ => false
  end.

(** A property of a flat object that may be [undefined]. *)
Definition truthy_s (v : option string) : bool :=
  match v with
  | Some s => negb (String.eqb s "")
  | None => false
  end.

(** [a || b] on properties of a flat object. *)
Definition or_s (a b : option string) : option string :=
  if truthy_s a then a else b.

(** [o.k || ''] on a flat object. *)
Definition field (o : Form) (k : string) : string := default "" (o !! k).

(** The flat object seen as an object of values. *)
Definition obj_of_form (f : Form) : Obj := VStr <$> f.

(** ** Strings *)

Definition is_upper (c : ascii) : bool :=
  let n := nat_of_ascii c in (65 <=? n)%nat && (n <=? 90)%nat.

Definition lower_char (c : ascii) : ascii :=
  if is_upper c then ascii_of_nat (nat_of_ascii c + 32) else c.

(** [String.prototype.toLowerCase], on the ASCII letters. *)
Fixpoint toLowerCase (s : string) : string :=
  match s with
  | EmptyString => EmptyString
  | String c s' => String (lower_char c) (toLowerCase s')
  end.

Definition is_lower (c : ascii) : bool :=
  let n := nat_of_ascii c in (97 <=? n)%nat && (n <=? 122)%nat.

Definition upper_char (c : ascii) : ascii :=
  if is_lower c then ascii_of_nat (nat_of_ascii c - 32) else c.

(** [String.prototype.toUpperCase], on the ASCII letters. *)
Fixpoint toUpperCase (s : string) : string :=
  match s with
  | EmptyString => EmptyString
  | String c s' => String (upper_char c) (toUpperCase s')
  end.

Definition is_space (c : ascii) : bool :=
  let n := nat_of_ascii c in ((9 <=? n)%nat && (n <=? 13)%nat) || (n =? 32)%nat.

Fixpoint trimStart (s : string) : string :=
  match s with
  | String c s' => if is_space c then trimStart s' else s
  | EmptyString => EmptyString
  end.

Fixpoint trimEnd (s : string) : string :=
  match s with
  | String c s' =>
    match trimEnd s' with
    | EmptyString => if is_space c then EmptyString else String c EmptyString
    | t => String c t
    end
  | EmptyString => EmptyString
  end.

(** [String.prototype.trim], on the ASCII white space. *)
Definition trim (s : string) : string := trimEnd (trimStart s).

Definition is_digit (c : ascii) : bool :=
  let n := nat_of_ascii c in (48 <=? n)%nat && (n <=? 57)%nat.

(** [s.replace(/\D/g, '')]: the digits of [s], in order. *)
Fixpoint stripNonDigits (s : string) : string :=
  match s with
  | EmptyString => EmptyString
  | String c s' =>
    if is_digit c then String c (stripNonDigits s') else stripNonDigits s'
  end.

Fixpoint prefixb (p s : string) : bool :=
  match p, s with
  | EmptyString, _ => true
  | String a p', String b s' => Ascii.eqb a b && prefixb p' s'
  | String _ _, EmptyString => false
  end.

(** [s.includes(p)]. *)
Fixpoint includes (s p : string) : bool :=
  prefixb p s ||
  match s with
  | EmptyString => false
  | String _ s' => includes s' p
  end.

(** A template literal whose holes are separated by ['|']. *)
Definition pipe (parts : list string) : string := String.concat "|" parts.

(** ** The digest function

    [sha512.sha512] of the [js-sha512] package: SHA-512 (FIPS 180-4) of the
    UTF-8 bytes of the argument, as 128 lower-case hexadecimal digits.
    As in the package, a 64-bit word is kept as two 32-bit halves, here in
    machine integers, with the carry and the wrap-around written out. *)

Module Sha512.
Import Uint63.
Local Open Scope uint63_scope.

(** A 64-bit word, as its high and low 32-bit halves. *)
Definition word : Type := int * int.

Definition mask32 : int := 0xffffffff.

Definition add64 (x y : word) : word :=
  let l := x.2 + y.2 in
  let h := x.1 + y.1 + (l >> 32) in
  (h land mask32, l land mask32).
Definition xor64 (x y : word) : word := (x.1 lxor y.1, x.2 lxor y.2).
Definition and64 (x y : word) : word := (x.1 land y.1, x.2 land y.2).
Definition not64 (x : word) : word := (x.1 lxor mask32, x.2 lxor mask32).

(** Rotation and shift to the right by [n] bits, [0 < n < 32]. *)
Definition rotr32 (n : int) (x : word) : word :=
  (((x.1 >> n) lor (x.2 << (32 - n))) land mask32,
   ((x.2 >> n) lor (x.1 << (32 - n))) land mask32).
Definition shr (n : int) (x : word) : word :=
  (x.1 >> n, ((x.2 >> n) lor (x.1 << (32 - n))) land mask32).

(** Rotation to the right by [n] bits, [0 < n < 64], [n] not 32. *)
Definition rotr (n : int) (x : word) : word :=
  if n <? 32 then rotr32 n x else rotr32 (n - 32) (x.2, x.1).

Definition Ch (x y z : word) : word := xor64 (and64 x y) (and64 (not64 x) z).
Definition Maj (x y z : word) : word :=
  xor64 (xor64 (and64 x y) (and64 x z)) (and64 y z).
Definition Sigma0 (x : word) : word := xor64 (xor64 (rotr 28 x) (rotr 34 x)) (rotr 39 x).
Definition Sigma1 (x : word) : word := xor64 (xor64 (rotr 14 x) (rotr 18 x)) (rotr 41 x).
Definition sigma0 (x : word) : word := xor64 (xor64 (rotr 1 x) (rotr 8 x)) (shr 7 x).
Definition sigma1 (x : word) : word := xor64 (xor64 (rotr 19 x) (rotr 61 x)) (shr 6 x).

Definition K : list word := [
    (0x428a2f98, 0xd728ae22); (0x71374491, 0x23ef65cd); (0xb5c0fbcf, 0xec4d3b2f);
    (0xe9b5dba5, 0x8189dbbc); (0x3956c25b, 0xf348b538); (0x59f111f1, 0xb605d019);
    (0x923f82a4, 0xaf194f9b); (0xab1c5ed5, 0xda6d8118); (0xd807aa98, 0xa3030242);
    (0x12835b01, 0x45706fbe); (0x243185be, 0x4ee4b28c); (0x550c7dc3, 0xd5ffb4e2);
    (0x72be5d74, 0xf27b896f); (0x80deb1fe, 0x3b1696b1); (0x9bdc06a7, 0x25c71235);
    (0xc19bf174, 0xcf692694); (0xe49b69c1, 0x9ef14ad2); (0xefbe4786, 0x384f25e3);
    (0x0fc19dc6, 0x8b8cd5b5); (0x240ca1cc, 0x77ac9c65); (0x2de92c6f, 0x592b0275);
    (0x4a7484aa, 0x6ea6e483); (0x5cb0a9dc, 0xbd41fbd4); (0x76f988da, 0x831153b5);
    (0x983e5152, 0xee66dfab); (0xa831c66d, 0x2db43210); (0xb00327c8, 0x98fb213f);
    (0xbf597fc7, 0xbeef0ee4); (0xc6e00bf3, 0x3da88fc2); (0xd5a79147, 0x930aa725);
    (0x06ca6351, 0xe003826f); (0x14292967, 0x0a0e6e70); (0x27b70a85, 0x46d22ffc);
    (0x2e1b2138, 0x5c26c926); (0x4d2c6dfc, 0x5ac42aed); (0x53380d13, 0x9d95b3df);
    (0x650a7354, 0x8baf63de); (0x766a0abb, 0x3c77b2a8); (0x81c2c92e, 0x47edaee6);
    (0x92722c85, 0x1482353b); (0xa2bfe8a1, 0x4cf10364); (0xa81a664b, 0xbc423001);
    (0xc24b8b70, 0xd0f89791); (0xc76c51a3, 0x0654be30); (0xd192e819, 0xd6ef5218);
    (0xd6990624, 0x5565a910); (0xf40e3585, 0x5771202a); (0x106aa070, 0x32bbd1b8);
    (0x19a4c116, 0xb8d2d0c8); (0x1e376c08, 0x5141ab53); (0x2748774c, 0xdf8eeb99);
    (0x34b0bcb5, 0xe19b48a8); (0x391c0cb3, 0xc5c95a63); (0x4ed8aa4a, 0xe3418acb);
    (0x5b9cca4f, 0x7763e373); (0x682e6ff3, 0xd6b2b8a3); (0x748f82ee, 0x5defb2fc);
    (0x78a5636f, 0x43172f60); (0x84c87814, 0xa1f0ab72); (0x8cc70208, 0x1a6439ec);
    (0x90befffa, 0x23631e28); (0xa4506ceb, 0xde82bde9); (0xbef9a3f7, 0xb2c67915);
    (0xc67178f2, 0xe372532b); (0xca273ece, 0xea26619c); (0xd186b8c7, 0x21c0c207);
    (0xeada7dd6, 0xcde0eb1e); (0xf57d4f7f, 0xee6ed178); (0x06f067aa, 0x72176fba);
    (0x0a637dc5, 0xa2c898a6); (0x113f9804, 0xbef90dae); (0x1b710b35, 0x131c471b);
    (0x28db77f5, 0x23047d84); (0x32caab7b, 0x40c72493); (0x3c9ebe0a, 0x15c9bebc);
    (0x431d67c4, 0x9c100d4c); (0x4cc5d4be, 0xcb3e42b6); (0x597f299c, 0xfc657e2a);
    (0x5fcb6fab, 0x3ad6faec); (0x6c44198c, 0x4a475817)
  ].

Definition H0 : list word := [
    (0x6a09e667, 0xf3bcc908); (0xbb67ae85, 0x84caa73b); (0x3c6ef372, 0xfe94f82b);
    (0xa54ff53a, 0x5f1d36f1); (0x510e527f, 0xade682d1); (0x9b05688c, 0x2b3e6c1f);
    (0x1f83d9ab, 0xfb41bd6b); (0x5be0cd19, 0x137e2179)
  ].

Definition zero : word := (0, 0).

Definition byte_of_ascii (c : ascii) : int := Uint63.of_Z (Z.of_N (N_of_ascii c)).

Definition bytes_of_string (s : string) : list int :=
  byte_of_ascii <$> list_ascii_of_string s.

Definition be_bytes (n : nat) (v : int) : list int :=
  (λ i, (v >> (8 * Uint63.of_Z (Z.of_nat i))) land 0xff) <$> rev (seq 0 n).

(** The message, the byte [0x80], zero bytes and the bit length on 128
    bits, to a multiple of 128 bytes. *)
Definition pad (msg : list int) : list int :=
  let len := length msg in
  let zeros := ((128 - (len + 17) mod 128) mod 128)%nat in
  msg ++ [0x80] ++ replicate zeros 0 ++ be_bytes 16 (8 * Uint63.of_Z (Z.of_nat len)).

Definition half_of_bytes (bs : list int) : int :=
  fold_left (λ acc b, (acc << 8) lor b) bs 0.

Definition word_of_bytes (bs : list int) : word :=
  (half_of_bytes (take 4 bs), half_of_bytes (drop 4 bs)).

Fixpoint chunks {A} (fuel size : nat) (l : list A) : list (list A) :=
  match fuel, l with
  | O, _ | _, [] => []
  | S fuel', _ => take size l :: chunks fuel' size (drop size l)
  end.

(** The message schedule; [win] holds the 16 latest words, newest first. *)
Fixpoint schedule (n : nat) (win acc : list word) : list word :=
  match n with
  | O => rev acc
  | S n' =>
    let w := add64 (add64 (sigma1 (nth 1 win zero)) (nth 6 win zero))
                   (add64 (sigma0 (nth 14 win zero)) (nth 15 win zero)) in
    schedule n' (w :: take 15 win) (w :: acc)
  end.

Definition expand (block : list word) : list word :=
  schedule 64 (rev block) (rev block).

Record state :=
  St { sa : word; sb : word; sc : word; sd : word;
       se : word; sf : word; sg : word; sh : word }.

Definition round (s : state) (kw : word * word) : state :=
  let '(St a b c d e f g h) := s in
  let T1 := add64 (add64 (add64 h (Sigma1 e)) (add64 (Ch e f g) kw.1)) kw.2 in
  let T2 := add64 (Sigma0 a) (Maj a b c) in
  St (add64 T1 T2) a b c (add64 d T1) e f g.

Definition compress (s : state) (block : list word) : state :=
  let '(St a b c d e f g h) := fold_left round (zip K (expand block)) s in
  St (add64 (sa s) a) (add64 (sb s) b) (add64 (sc s) c) (add64 (sd s) d)
     (add64 (se s) e) (add64 (sf s) f) (add64 (sg s) g) (add64 (sh s) h).

Definition init : state :=
  St (nth 0 H0 zero) (nth 1 H0 zero) (nth 2 H0 zero) (nth 3 H0 zero)
     (nth 4 H0 zero) (nth 5 H0 zero) (nth 6 H0 zero) (nth 7 H0 zero).

Definition digest (msg : list int) : state :=
  let p := pad msg in
  let blocks :=
    (λ b, word_of_bytes <$> chunks 16 8 b) <$> chunks (length p) 128 p in
  fold_left compress blocks init.

Definition hexdigit (n : int) : ascii :=
  nth (Z.to_nat (Uint63.to_Z n)) (list_ascii_of_string "0123456789abcdef") "0"%char.

Definition hex_of_half (w : int) : list ascii :=
  (λ i, hexdigit ((w >> (4 * Uint63.of_Z (Z.of_nat i))) land 0xf)) <$> rev (seq 0 8).

Definition hex_of_word (w : word) : list ascii := hex_of_half w.1 ++ hex_of_half w.2.

Definition sha512 (s : string) : string :=
  let '(St a b c d e f g h) := digest (bytes_of_string s) in
  string_of_list_ascii (concat (hex_of_word <$> [a; b; c; d; e; f; g; h])).

End Sha512.

Arguments Sha512.sha512 : simpl never.

(** ** Results of operations *)

(** An exception value: [name], [message] and, for a failed HTTP exchange
    that got an answer, [response] with its [status] and [data]. *)
Record JsError := {
  err_name : string;
  err_message : string;
  err_response : option (Z * jsval)
}.

(** What running a function body gives: a returned value, or an exception
    that leaves the function. *)
Inductive Outcome (A : Type) :=
  | Returned (a : A)
  | Thrown (e : JsError).
Arguments Returned {A} a.
Arguments Thrown {A} e.

Global Instance Outcome_ret : MRet Outcome := λ A a, Returned a.
Global Instance Outcome_bind : MBind Outcome := λ A B k m,
  match m with
  | Returned a => k a
  | Thrown e => Thrown e
  end.

(** [throw new Error(message)]. *)
Definition throw {A} (message : string) : Outcome A :=
  Thrown {| err_name := "Error"; err_message := message; err_response := None |}.

(** A [TypeError] raised by the engine, as when a method is called on a
    value that has none of that name. *)
Definition typeError {A} (message : string) : Outcome A :=
  Thrown {| err_name := "TypeError"; err_message := message; err_response := None |}.

(** [try { body } catch (error) { handler }]. *)
Definition try_catch {A} (body : Outcome A) (handler : JsError → Outcome A) : Outcome A :=
  match body with
  | Returned a => Returned a
  | Thrown e => handler e
  end.

(** The variables in scope at a program point, innermost first. *)
Abbreviation Scope := (list (string * jsval)).

(** Reading the identifier [x]: its value, or a [ReferenceError] when no
    enclosing scope declares it. *)
Definition resolve (scope : Scope) (x : string) : Outcome jsval :=
  match list_find (λ b, b.1 = x) scope with
  | Some (_, (_, v)) => Returned v
  | None =>
    Thrown {| err_name := "ReferenceError";
              err_message := x ++ " is not defined";
              err_response := None |}
  end.

(** The answer of [axios.post]: the promise resolves with the decoded
    body, or rejects with an error (a time-out or a network failure has no
    [response]; a status outside 2xx has one). *)
Inductive AxiosResult :=
  | Resolved (data : jsval)
  | Rejected (e : JsError).

(** The upstream gateway: what a POST of [body] to [url] is answered. *)
Abbreviation Upstream := (string → Form → AxiosResult).

Definition post (up : Upstream) (url : string) (body : Form) : Outcome jsval :=
  match up url body with
  | Resolved d => Returned d
  | Rejected e => Thrown e
  end.

(** [process.env], as far as the adapters read it. *)
Record ProcessEnv := {
  NODE_ENV : option string;
  EASEBUZZ_ENV : option string
}.

(** [process.env.X === 'lit']. *)
Definition env_is (v : option string) (lit : string) : bool :=
  match v with
  | Some s => String.eqb s lit
  | None => false
  end.

(** The four states of a transaction (the [enum] of the [status] path). *)
Inductive TxStatus := pending | success | failed | cancelled.

Global Instance TxStatus_eq_dec : EqDecision TxStatus.
Proof. solve_decision. Defined.

(** The object [handleCallback] of an adapter returns: [{success: true,
    transactionId, status, data}] or [{success: false, error}].  The
    [amount] it also carries is read by no caller. *)
Inductive CallbackResult :=
  | CallbackOk (transactionId : option string) (status : TxStatus) (data : Form)
  | CallbackFail (error : string).

Definition cb_success (r : CallbackResult) : bool :=
  match r with
  | CallbackOk _ _ _ => true
  | CallbackFail _ => false
  end.

(** ** The stored transaction ([models/Transaction.js]) *)

(** A clock reading, in ISO-8601 form. *)
Abbreviation Date := string.

(** A path of schema type [Map] ([paymentRequest] and [paymentResponse]
    are declared [type: Map] in the schema): the document holds a map
    object, whose entries live inside the map and are not properties of the
    object.  The orchestrator reads such a path with [Object.fromEntries]. *)
Record MongooseMap := MkMap { entries : Obj }.

(** [Object.fromEntries(m)]: the object that has the entries of [m] as its
    properties. *)
Definition fromEntries (m : MongooseMap) : Obj := entries m.

(** [{...m}] for what the path [path] of a document read from the
    collection holds: object spread copies the own enumerable properties of
    its operand.  The entries of a map are none of them; the properties
    Mongoose sets on the map object are: [$__parent] (the document),
    [$__path] and [$__schemaType], the first and the last held opaque here.
    Spreading [undefined] copies nothing. *)
Definition spreadMap (path : string) (m : option MongooseMap) : Obj :=
  match m with
  | Some _ =>
    list_to_map [("$__parent", VObj ∅); ("$__path", VStr path); ("$__schemaType", VObj ∅)]
  | None => ∅
  end.

(** The keys a path of type [Map] takes: Mongoose refuses a key that
    starts with [$], a key that contains a dot, and the reserved names. *)
Definition validKey (k : string) : bool :=
  negb (prefixb "$" k) && negb (includes k ".")
  && negb (String.eqb k "__proto__" || String.eqb k "constructor"
           || String.eqb k "prototype").

Definition validKeys {A} (o : gmap string A) : Prop :=
  map_Forall (λ k _, validKey k = true) o.

Global Instance validKeys_dec {A} (o : gmap string A) : Decision (validKeys o).
Proof. unfold validKeys. apply _. Defined.

(** Assigning an object to a path of type [Map] casts it: its properties
    become the entries.  The cast fails when a key is refused. *)
Definition castMap (o : Obj) : option MongooseMap :=
  if decide (validKeys o) then Some (MkMap o) else None.

(** The cast of an object whose property names are known to be keys a map
    takes: the fixed names the orchestrator writes and the field names of
    an answer of the gateway, with what the document already holds. *)
Definition castKnown (o : Obj) : option MongooseMap := Some (MkMap o).

(** [{...a, ...b}]: the properties of [b] win. *)
Definition spread (a b : Obj) : Obj := b ∪ a.

(** [{...o, k: v}]. *)
Definition with_prop (k : string) (v : jsval) (o : Obj) : Obj := <[k := v]> o.

(** [String(v)], as a template literal or [toString()] gives it; numbers
    are integers in plain decimal notation. *)
Fixpoint toString (v : jsval) : string :=
  match v with
  | VUndef => "undefined"
  | VNull => "null"
  | VBool b => if b then "true" else "false"
  | VNum n => pretty n
  | VStr s => s
  | VArr l =>
    String.concat ","
      ((fix items (l : list jsval) : list string :=
          match l with
          | [] => []
          | x :: r =>
            match x with
            | VUndef | VNull => ""
            | _ => toString x
            end :: items r
          end) l)
  | VObj _ => "[object Object]"
  end.

Definition two_digits (n : Z) : string :=
  if (n <? 10)%Z then "0" ++ pretty n else pretty n.

(** [parseFloat(amount).toFixed(2)] of an amount held in hundredths. *)
Definition toFixed2 (hundredths : Z) : string :=
  pretty (hundredths / 100)%Z ++ "." ++ two_digits (hundredths mod 100)%Z.

Module Transaction.

Record t := Mk {
  userId : jsval;
  paymentMethodId : jsval;
  gateway : string;
  amount : Z;   (* in hundredths of the currency unit *)
  currency : string;
  status : TxStatus;
  transactionId : option string;
  gatewayTransactionId : option string;
  paymentRequest : option MongooseMap;
  paymentResponse : option MongooseMap;
  callbackUrl : option string;
  returnUrl : option string;
  createdAt : Date;
  updatedAt : Date
}.

(** [transaction.status = s] and the other assignments to paths. *)
Definition set_status (s : TxStatus) (x : t) : t :=
  Mk (userId x) (paymentMethodId x) (gateway x) (amount x) (currency x) s
     (transactionId x) (gatewayTransactionId x) (paymentRequest x)
     (paymentResponse x) (callbackUrl x) (returnUrl x) (createdAt x) (updatedAt x).

Definition set_transactionId (i : option string) (x : t) : t :=
  Mk (userId x) (paymentMethodId x) (gateway x) (amount x) (currency x) (status x)
     i (gatewayTransactionId x) (paymentRequest x)
     (paymentResponse x) (callbackUrl x) (returnUrl x) (createdAt x) (updatedAt x).

Definition set_gatewayTransactionId (i : option string) (x : t) : t :=
  Mk (userId x) (paymentMethodId x) (gateway x) (amount x) (currency x) (status x)
     (transactionId x) i (paymentRequest x)
     (paymentResponse x) (callbackUrl x) (returnUrl x) (createdAt x) (updatedAt x).

Definition set_paymentResponse (r : option MongooseMap) (x : t) : t :=
  Mk (userId x) (paymentMethodId x) (gateway x) (amount x) (currency x) (status x)
     (transactionId x) (gatewayTransactionId x) (paymentRequest x)
     r (callbackUrl x) (returnUrl x) (createdAt x) (updatedAt x).

Definition set_updatedAt (d : Date) (x : t) : t :=
  Mk (userId x) (paymentMethodId x) (gateway x) (amount x) (currency x) (status x)
     (transactionId x) (gatewayTransactionId x) (paymentRequest x)
     (paymentResponse x) (callbackUrl x) (returnUrl x) (createdAt x) d.

(** [if (id) transaction.gatewayTransactionId = id]. *)
Definition set_gatewayTransactionId_if (i : option string) (x : t) : t :=
  if truthy_s i then set_gatewayTransactionId i x else x.

(** The same for a value: a truthy value assigned to a path of type
    [String] is stored as a string. *)
Definition set_gatewayTransactionId_val (v : jsval) (x : t) : t :=
  if truthy v then set_gatewayTransactionId (Some (toString v)) x else x.

(** [if (transaction.status !== newStatus) transaction.status = newStatus]. *)
Definition set_status_if_changed (newStatus : TxStatus) (x : t) : t :=
  if decide (status x ≠ newStatus) then set_status newStatus x else x.

(** The keys of the stored [paymentResponse]. *)
Definition responseKeys (x : t) : gset string :=
  from_option (λ m, dom (entries m)) ∅ (paymentResponse x).

End Transaction.

(** The collection: documents in insertion order. *)
Abbreviation Store := (list Transaction.t).

(** [Transaction.findOne(filter)]: the first document that matches, with
    its place in the collection. *)
Definition findOne (P : Transaction.t → Prop) `{∀ x, Decision (P x)}
    (db : Store) : option (nat * Transaction.t) := list_find P db.


(** [transaction.save()] of a document found at place [i]. *)
Definition save (i : nat) (x : Transaction.t) (db : Store) : Store := <[i := x]> db.

(** The error [save()] rejects with when the value assigned to [path] did
    not cast: the assignment leaves the path as it was and marks the
    document invalid, and the validation that precedes the write fails.
    Mongoose's message goes on to quote the value that was refused. *)
Definition validationError (path : string) : JsError :=
  {| err_name := "ValidationError";
     err_message := "Transaction validation failed: " ++ path ++ ": Cast to Map failed";
     err_response := None |}.

(** [transaction.paymentResponse = o], as [save()] then finds the
    document: with the cast map, or invalid. *)
Definition assignResponse (o : Obj) (transaction : Transaction.t) : Outcome Transaction.t :=
  match castMap o with
  | Some m => mret (Transaction.set_paymentResponse (Some m) transaction)
  | None => Thrown (validationError "paymentResponse")
  end.

(** What [checkPaymentStatus] and [retrieveTransactionDetails] of an
    adapter return; a property the object lacks is [undefined]. *)
Record StatusResponse := {
  sr_success : bool;
  sr_data : jsval;
  sr_transactionDetails : jsval;
  sr_error : jsval;
  sr_errorDetails : jsval
}.

(** [error.response?.data]. *)
Definition response_data (e : JsError) : jsval :=
  match err_response e with
  | Some (_, d) => d
  | None => VUndef
  end.

(** [error.response?.status]. *)
Definition response_status (e : JsError) : jsval :=
  match err_response e with
  | Some (c, _) => VNum c
  | None => VUndef
  end.

(** ** Creating a payment: what the adapters share *)

(** The JSON endpoints of a gateway: what a POST of the object [body] to
    [url] is answered. *)
Abbreviation UpstreamJson := (string → Obj → AxiosResult).

Definition postJson (up : UpstreamJson) (url : string) (body : Obj) : Outcome jsval :=
  match up url body with
  | Resolved d => Returned d
  | Rejected e => Thrown e
  end.

(** [throw new Error(v)]: the message is [String(v)], and the empty string
    for [undefined]. *)
Definition throwVal {A} (v : jsval) : Outcome A :=
  match v with
  | VUndef => throw ""
  | _ => throw (toString v)
  end.

(** [`TXN${Date.now()}${Math.random().toString(36).substr(2, 9).toUpperCase()}`],
    from the reading of the clock and the random suffix. *)
Definition generatedId (clock suffix : string) : string := ("TXN" ++ clock ++ suffix)%string.

(** [Array.isArray(v)]. *)
Definition isArray (v : jsval) : bool :=
  match v with
  | VArr _ => true
  | _ => false
  end.

(** [v === 1]. *)
Definition is_one (v : jsval) : bool :=
  match v with
  | VNum n => (n =? 1)%Z
  | _ => false
  end.

(** [s.endsWith('/') ? s.slice(0, -1) : s]. *)
Fixpoint dropTrailingSlash (s : string) : string :=
  match s with
  | EmptyString => EmptyString
  | String c EmptyString => if Ascii.eqb c "/" then EmptyString else s
  | String c s' => String c (dropTrailingSlash s')
  end.

(** The object [createPayment] of an adapter returns when it succeeds
    ([success] and [status] are [true]); the UPI adapter sets no
    [gatewayTransactionId]. *)
Record PaymentCreated := {
  pc_data : Obj;
  pc_msg : string;
  pc_paymentLink : jsval;
  pc_orderId : jsval;
  pc_transactionId : jsval;
  pc_gatewayTransactionId : jsval;
  pc_rawResponse : jsval
}.

(** What [createPayment] of an adapter returns: the object above, or
    [{success: false, status: false, error, msg}]. *)
Inductive CreateResult :=
  | Created (r : PaymentCreated)
  | NotCreated (error msg : jsval).

(** What the retrievals by date return: [{success: true, data,
    transactions, count, pagination, rawResponse}] or [{success: false,
    error, transactions: null, errorDetails}]; a property the object lacks
    is [undefined]. *)
Inductive ReportResult :=
  | Report (data transactions : jsval) (count : nat) (pagination rawResponse : jsval)
  | NoReport (error : jsval) (errorDetails : Obj).

Definition is_hyphen (c : ascii) : bool := Ascii.eqb c "-".

(** [/^(\d{2})-(\d{2})-(\d{4})$/.test(s)]. *)
Definition datePattern (s : string) : bool :=
  match list_ascii_of_string s with
  | [d1; d2; h1; m1; m2; h2; y1; y2; y3; y4] =>
    is_digit d1 && is_digit d2 && is_hyphen h1
    && is_digit m1 && is_digit m2 && is_hyphen h2
    && is_digit y1 && is_digit y2 && is_digit y3 && is_digit y4
  | _ => false
  end.

(** [`${parts[2]}-${parts[1]}-${parts[0]}`] for [parts = s.split('-')],
    on a string the pattern accepts: [dd-mm-yyyy] turned into
    [yyyy-mm-dd]. *)
Definition isoOfDate (s : string) : string :=
  (substring 6 4 s ++ "-" ++ substring 3 2 s ++ "-" ++ substring 0 2 s)%string.

(** The characters [encodeURIComponent] leaves as they are. *)
Definition is_unreserved (c : ascii) : bool :=
  is_upper c || is_lower c || is_digit c
  || existsb (Ascii.eqb c) ["-"; "_"; "."; "!"; "~"; "*"; "'"; "("; ")"]%char.

Definition hex_upper (n : nat) : ascii :=
  if (n <? 10)%nat then ascii_of_nat (48 + n) else ascii_of_nat (55 + n).

(** [encodeURIComponent]: every byte of the UTF-8 form that is not
    unreserved becomes [%XX]. *)
Fixpoint encodeURIComponent (s : string) : string :=
  match s with
  | EmptyString => EmptyString
  | String c s' =>
    if is_unreserved c then String c (encodeURIComponent s')
    else
      let n := nat_of_ascii c in
      String "%" (String (hex_upper (n / 16)) (String (hex_upper (n mod 16))
        (encodeURIComponent s')))
  end.


(** ** The hosted-checkout adapter ([services/paymentGateways/easebuzz.js]) *)

Module EasebuzzGateway.

Record config := { cfg_key : option string; cfg_salt : option string; cfg_baseUrl : option string }.

Record instance := { key : string; salt : string; baseUrl : string }.

(** The constructor: key and salt are trimmed. *)
Definition new (c : config) : instance :=
  {| key := trim (default "" (or_s (cfg_key c) (Some "")));
     salt := trim (default "" (or_s (cfg_salt c) (Some "")));
     baseUrl := default "https://testpay.easebuzz.in" (or_s (cfg_baseUrl c) (Some "https://testpay.easebuzz.in")) |}.

(** A hole [${data.k}] of a template literal. *)
Definition hole (data : Form) (k : string) : string := default "undefined" (data !! k).

(** [key|txnid|amount|productinfo|firstname|email|udf1|...|udf10|salt]. *)
Definition generateHash (data : Form) (key salt : string) : string :=
  let hashstring :=
    pipe [key; hole data "txnid"; hole data "amount"; hole data "productinfo";
          hole data "firstname"; hole data "email";
          field data "udf1"; field data "udf2"; field data "udf3";
          field data "udf4"; field data "udf5"; field data "udf6";
          field data "udf7"; field data "udf8"; field data "udf9";
          field data "udf10"; salt] in
  Sha512.sha512 hashstring.

(** The string the reverse hash is taken of:
    [salt|status|udf10|...|udf1|email|firstname|productinfo|amount|txnid|key]. *)
Definition reverseHashString (gw : instance) (response : Form) : string :=
  let trimmedKey := trim (key gw) in
  let trimmedSalt := trim (salt gw) in
  pipe [trimmedSalt; field response "status";
        field response "udf10"; field response "udf9"; field response "udf8";
        field response "udf7"; field response "udf6"; field response "udf5";
        field response "udf4"; field response "udf3"; field response "udf2";
        field response "udf1"; field response "email";
        field response "firstname"; field response "productinfo";
        field response "amount"; field response "txnid"; trimmedKey].

Definition verifyHash (gw : instance) (response : Form) (receivedHash : option string) : bool :=
  match receivedHash with
  | Some h =>
    if negb (truthy_s receivedHash) then false
    else
      let generatedHash := Sha512.sha512 (reverseHashString gw response) in
      String.eqb (toLowerCase generatedHash) (toLowerCase h)
  | None => false
  end.

(** The fields [handleCallback] hands to [verifyHash], each defaulted to
    the empty string. *)
Definition hashedFields : list string :=
  ["status"; "udf1"; "udf2"; "udf3"; "udf4"; "udf5"; "udf6"; "udf7"; "udf8";
   "udf9"; "udf10"; "email"; "firstname"; "productinfo"; "amount"; "txnid"].

Definition responseData (callbackData : Form) : Form :=
  list_to_map ((λ k, (k, field callbackData k)) <$> hashedFields).

(** [status === 'success' ? 'success' : (status === 'failure' ? 'failed' : 'pending')]. *)
Definition callbackStatus (status : option string) : TxStatus :=
  if env_is status "success" then success
  else if env_is status "failure" then failed
  else pending.

Definition handleCallback (gw : instance) (env : ProcessEnv) (callbackData : Form)
    : CallbackResult :=
  let txnid := callbackData !! "txnid" in
  let status := callbackData !! "status" in
  let hash := callbackData !! "hash" in
  let proceed := CallbackOk txnid (callbackStatus status) callbackData in
  if truthy_s hash then
    if verifyHash gw (responseData callbackData) hash then proceed
    else if env_is (NODE_ENV env) "development" || env_is (EASEBUZZ_ENV env) "test"
    then proceed
    else CallbackFail "Invalid hash verification"
  else
    if env_is (NODE_ENV env) "production" && env_is (EASEBUZZ_ENV env) "prod"
    then CallbackFail "Hash is required for callback verification"
    else proceed.

(** [dashboardUrl]: both arms of the conditional are the same address. *)
Definition dashboardUrl (env : ProcessEnv) : string :=
  let e := toLowerCase (default "test" (or_s (EASEBUZZ_ENV env) (Some "test"))) in
  if String.eqb e "prod" || String.eqb e "production"
  then "https://dashboard.easebuzz.in"
  else "https://dashboard.easebuzz.in".

(** [s.trim()] on a value: a [TypeError] unless it is a string. *)
Definition trim_method (what : string) (v : jsval) : Outcome string :=
  match v with
  | VStr s => Returned (trim s)
  | _ => typeError (what ++ ".trim is not a function")
  end.

(** [Array.isArray(v) && v.length > 0]. *)
Definition nonEmptyArray (v : jsval) : bool :=
  match v with
  | VArr (_ :: _) => true
  | _ => false
  end.

(** [v[0]]. *)
Definition first (v : jsval) : jsval :=
  match v with
  | VArr (d :: _) => d
  | _ => VUndef
  end.

(** [typeof v === 'object']. *)
Definition isObject (v : jsval) : bool :=
  match v with
  | VNull | VArr _ | VObj _ => true
  | _ => false
  end.

(** The envelope of a retrieval answer as [checkPaymentStatus] reads it:
    the first element of a non-empty [msg] array, else the body itself,
    else [null]. *)
Definition detailsOfStatus (data : jsval) : jsval :=
  if truthy data && truthy (get data "msg") && nonEmptyArray (get data "msg")
  then first (get data "msg")
  else if truthy data then data
  else VNull.

(** The same as [retrieveTransactionDetails] reads it: a [msg] that is an
    object is taken too. *)
Definition detailsOfRetrieve (data : jsval) : jsval :=
  if truthy data && truthy (get data "msg") && nonEmptyArray (get data "msg")
  then first (get data "msg")
  else if truthy data && truthy (get data "msg") && isObject (get data "msg")
  then get data "msg"
  else if truthy data then data
  else VNull.

(** [paymentRequest.email || transaction.userId?.email || ''], or [null]
    when no transaction is handed over. *)
Definition contactEmail (transactionData : option Transaction.t) : jsval :=
  match transactionData with
  | Some x =>
    let paymentRequest := from_option fromEntries ∅ (Transaction.paymentRequest x) in
    js_or (js_or (get (VObj paymentRequest) "email") (get (Transaction.userId x) "email"))
          (VStr "")
  | None => VNull
  end.

(** [paymentRequest.phone || ''], or [null]. *)
Definition contactPhone (transactionData : option Transaction.t) : jsval :=
  match transactionData with
  | Some x =>
    let paymentRequest := from_option fromEntries ∅ (Transaction.paymentRequest x) in
    js_or (get (VObj paymentRequest) "phone") (VStr "")
  | None => VNull
  end.

(** [phone.toString().trim().replace(/\D/g, '')]. *)
Definition phoneDigits (phone : jsval) : string := stripNonDigits (trim (toString phone)).

Definition checkPaymentStatus (gw : instance) (env : ProcessEnv) (up : Upstream)
    (transactionId : string) (transactionData : option Transaction.t)
    : Outcome StatusResponse :=
  try_catch
    (let email := contactEmail transactionData in
     let phone := contactPhone transactionData in
     let amount := Transaction.amount <$> transactionData in
     if negb (truthy email) || negb (truthy phone) then
       throw "Email and phone are required for Easebuzz transaction retrieval. Please ensure transaction data is provided."
     else
     let phoneStr := phoneDigits phone in
     if negb (String.length phoneStr =? 10) then
       throw "Phone number must be exactly 10 digits"
     else
     let amountStr :=
       match amount with
       | Some a => if (a =? 0)%Z then "0.00" else toFixed2 a
       | None => "0.00"
       end in
     let trimmedKey := trim (key gw) in
     let trimmedSalt := trim (salt gw) in
     let trimmedTxnId := trim transactionId in
     e ← trim_method "email" email;
     let trimmedEmail := toLowerCase e in
     let hash := Sha512.sha512 (pipe [trimmedKey; trimmedTxnId; trimmedSalt]) in
     let formData : Form :=
       list_to_map [("key", trimmedKey); ("txnid", trimmedTxnId); ("amount", amountStr);
                    ("email", trimmedEmail); ("phone", phoneStr); ("hash", hash)] in
     transactionDetails ←
       try_catch
         (d ← post up (dashboardUrl env ++ "/transaction/v1/retrieve") formData;
          mret (detailsOfStatus d))
         (λ v1Error,
          try_catch
            (d ← post up (dashboardUrl env ++ "/transaction/v2.1/retrieve") formData;
             mret (detailsOfStatus d))
            (λ v2Error,
             throw ("Both v1 and v2.1 endpoints failed. v1: " ++ err_message v1Error
                    ++ ", v2.1: " ++ err_message v2Error)));
     if negb (truthy transactionDetails) then
       throw "No transaction details received from Easebuzz API"
     else
       mret {| sr_success := true; sr_data := transactionDetails;
               sr_transactionDetails := transactionDetails;
               sr_error := VUndef; sr_errorDetails := VUndef |})
    (λ error,
     mret {| sr_success := false; sr_data := VUndef; sr_transactionDetails := VNull;
             sr_error := js_or (response_data error) (VStr (err_message error));
             sr_errorDetails := VUndef |}).

(** [v.includes(p)] on a value: strings search a substring, arrays an
    element; other values have no such method. *)
Definition includes_method (v : jsval) (p : string) : Outcome bool :=
  match v with
  | VStr s => Returned (includes s p)
  | VArr l => Returned (existsb (λ x, is_str x p) l)
  | _ => typeError "errorMessage.includes is not a function"
  end.

(** [v += s]. *)
Definition append_str (v : jsval) (s : string) : jsval := VStr (toString v ++ s).

(** [JSON.stringify] is taken as given. *)
Section Retrieve.
Variable JSON_stringify : jsval → string.

(** The names the [catch] block of [retrieveTransactionDetails] can read:
    its own constants, the caught [error], the parameter [txnid] and the
    bindings of the module.  The constants of the [try] block
    ([trimmedKey], [trimmedSalt], [trimmedTxnId], ...) are declared with
    [const] inside that block and end with it. *)
Definition catchScope (txnid : jsval) (error : JsError) (errorResponse errorMessage : jsval)
    : Scope :=
  [("errorMessage", errorMessage); ("errorResponse", errorResponse);
   ("error", VObj {[ "message" := VStr (err_message error) ]});
   ("txnid", txnid);
   ("axios", VObj ∅); ("sha512", VObj ∅); ("EasebuzzGateway", VObj ∅)].

Definition retrieveTransactionDetails (gw : instance) (env : ProcessEnv) (up : Upstream)
    (txnid : jsval) : Outcome StatusResponse :=
  try_catch
    (if negb (truthy txnid) then throw "Transaction ID (txnid) is required" else
     let dashboardUrl := dashboardUrl env in
     let trimmedKey := trim (key gw) in
     let trimmedSalt := trim (salt gw) in
     trimmedTxnId ← trim_method "txnid" txnid;
     if String.eqb trimmedKey "" || String.eqb trimmedSalt "" then
       throw "Easebuzz key and salt must be configured"
     else
     let hash := Sha512.sha512 (pipe [trimmedKey; trimmedTxnId; trimmedSalt]) in
     let formData : Form :=
       list_to_map [("key", trimmedKey); ("txnid", trimmedTxnId); ("hash", hash)] in
     let requestUrl := (dashboardUrl ++ "/transaction/v2.1/retrieve")%string in
     data ← post up requestUrl formData;
     let transactionDetails := detailsOfRetrieve data in
     if negb (truthy transactionDetails) then
       throw "No transaction details received from Easebuzz API"
     else
       mret {| sr_success := true; sr_data := transactionDetails;
               sr_transactionDetails := transactionDetails;
               sr_error := VUndef; sr_errorDetails := VUndef |})
    (λ error,
     let errorResponse := response_data error in
     let errorMessage :=
       if truthy errorResponse then
         if truthy (get errorResponse "error_desc") then get errorResponse "error_desc"
         else if truthy (get errorResponse "message") then get errorResponse "message"
         else if isObject errorResponse then VStr (JSON_stringify errorResponse)
         else VStr (err_message error)
       else VStr (err_message error) in
     errorMessage ←
       (if truthy errorMessage then
          a ← includes_method errorMessage "Invalid key";
          b ← (if a : bool then mret true
               else includes_method errorMessage "cannot find associated transaction");
          mret (if b : bool then
                  append_str errorMessage
                    " Please verify: 1) The transaction ID (txnid) matches the one sent to Easebuzz during payment creation, 2) The EASEBUZZ_KEY and EASEBUZZ_SALT are correct, 3) The transaction exists in Easebuzz dashboard, 4) You are using the correct environment (test/prod)."
                else errorMessage)
        else mret errorMessage) : Outcome jsval;
     let scope := catchScope txnid error errorResponse errorMessage in
     (* the object literal of the [return], property by property *)
     let error_prop := js_or errorResponse errorMessage in
     message ← resolve scope "errorMessage";
     response ← resolve scope "errorResponse";
     txnid_prop ← resolve scope "trimmedTxnId";
     trimmedKey ← resolve scope "trimmedKey";
     mret {| sr_success := false; sr_data := VUndef; sr_transactionDetails := VNull;
             sr_error := error_prop;
             sr_errorDetails :=
               VObj (list_to_map
                  [("message", message); ("status", response_status error);
                   ("response", response); ("txnid", txnid_prop);
                   ("key", if truthy trimmedKey
                           then VStr (substring 0 4 (toString trimmedKey) ++ "...")
                           else VStr "MISSING")]) |}).

End Retrieve.

(** [!v || v.trim() === '']; a truthy value without a [trim] method
    raises. *)
Definition blank (what : string) (v : jsval) : Outcome bool :=
  if negb (truthy v) then mret true
  else t ← trim_method what v; mret (String.eqb t "").

(** [url + (url.includes('?') ? '&' : '?') + query]. *)
Definition appendQuery (url query : string) : string :=
  (url ++ (if includes url "?" then "&" else "?") ++ query)%string.

(** [if (v) o.k = v]. *)
Definition optional (k : string) (v : jsval) (o : Obj) : Obj :=
  if truthy v then <[k := v]> o else o.

(** [if (v !== undefined) o.k = v]. *)
Definition defined (k : string) (v : jsval) (o : Obj) : Obj :=
  match v with
  | VUndef => o
  | _ => <[k := v]> o
  end.

(** [a || b || c || d], read from an answer of the gateway. *)
Definition refusalOf (data : jsval) : jsval :=
  js_or (js_or (js_or (get data "error_desc") (get data "msg")) (get data "message"))
        (VStr "Payment link not received").

(** The WHATWG URL parser, the formatting of amounts and [JSON.stringify]
    are taken as given. *)
Section Create.

(** [u = new URL(url)], then [u.searchParams.set(k, v)] for the pairs of
    [params] in turn, then [u.toString()]; [None] when [new URL] throws. *)
Variable URL_set : string → list (string * string) → option string.
(** [parseFloat(amount).toFixed(2)]. *)
Variable toFixed2_of : jsval → string.
Variable JSON_stringify : jsval → string.

(** [try { ...new URL(url), params set... } catch { url + ?query }]. *)
Definition withParams (url : string) (params : list (string * string)) (query : string)
    : string :=
  default (appendQuery url query) (URL_set url params).

(** The parameters of the payment, before the key and the hash are
    added. *)
Definition paymentParams (paymentData : Obj) (finalTxnId : jsval) (finalSurl finalFurl : string)
    : Obj :=
  let p k := default VUndef (paymentData !! k) in
  let required : Obj :=
    list_to_map
      [("txnid", finalTxnId);
       ("amount", VStr (toFixed2_of (p "amount")));
       ("productinfo", js_or (js_or (p "productinfo") (p "productInfo")) (VStr "Payment"));
       ("firstname", js_or (js_or (p "firstname") (p "firstName")) (VStr "Customer"));
       ("phone", js_or (p "phone") (VStr ""));
       ("email", js_or (p "email") (VStr ""));
       ("surl", VStr finalSurl);
       ("furl", VStr finalFurl);
       ("udf1", js_or (p "udf1") (VStr "")); ("udf2", js_or (p "udf2") (VStr ""));
       ("udf3", js_or (p "udf3") (VStr "")); ("udf4", js_or (p "udf4") (VStr ""));
       ("udf5", js_or (p "udf5") (VStr "")); ("udf6", js_or (p "udf6") (VStr ""));
       ("udf7", js_or (p "udf7") (VStr "")); ("udf8", js_or (p "udf8") (VStr ""));
       ("udf9", js_or (p "udf9") (VStr "")); ("udf10", js_or (p "udf10") (VStr ""))] in
  optional "unique_id" (p "unique_id")
    (optional "ifsc" (p "ifsc")
      (optional "account_no" (p "account_no")
        (optional "payment_category" (p "payment_category")
          (optional "sub_merchant_id" (p "sub_merchant_id")
            (optional "request_flow" (p "request_flow")
              (optional "split_payments" (p "split_payments")
                (defined "show_payment_mode" (p "show_payment_mode")
                  (optional "zipcode" (p "zipcode")
                    (optional "country" (p "country")
                      (optional "state" (p "state")
                        (optional "city" (p "city")
                          (optional "address2" (p "address2")
                            (optional "address1" (p "address1") required))))))))))))).

(** The form that is posted: [{key, ...paymentParams, hash}], each value
    as [URLSearchParams] writes it. *)
Definition paymentForm (params : Obj) (trimmedKey trimmedSalt : string) : Form :=
  let written : Form := toString <$> params in
  <["hash" := generateHash written trimmedKey trimmedSalt]>
    (written ∪ {[ "key" := trimmedKey ]}).

Definition createPayment (gw : instance) (up : Upstream) (clock suffix : string)
    (paymentData : Obj) : Outcome CreateResult :=
  let p k := default VUndef (paymentData !! k) in
  try_catch
    (if negb (truthy (p "amount")) then throw "Missing required field: amount" else
     if String.eqb (key gw) "" || String.eqb (trim (key gw)) "" then
       throw "Easebuzz key is not configured"
     else
     if String.eqb (salt gw) "" || String.eqb (trim (salt gw)) "" then
       throw "Easebuzz salt is not configured"
     else
     let finalTxnId :=
       js_or (js_or (p "txnid") (p "transactionId")) (VStr (generatedId clock suffix)) in
     if negb (truthy (p "email")) then throw "Email is required for Easebuzz payment" else
     let successUrl :=
       js_or (js_or (js_or (js_or (p "surl") (p "successUrl")) (p "returnUrl"))
                    (p "redirect_url"))
             (VStr "") in
     noSurl ← blank "finalSurl" successUrl;
     if noSurl : bool then
       throw "Success URL (surl/redirect_url/successUrl/returnUrl) is required for Easebuzz payment"
     else
     let txn := toString finalTxnId in
     let finalSurl :=
       withParams (toString successUrl) [("txnid", txn)] ("txnid=" ++ txn) in
     let failureUrl :=
       js_or (js_or (js_or (p "furl") (p "failureUrl")) (p "failure_redirect_url"))
             (VStr "") in
     noFurl ← blank "finalFurl" failureUrl;
     let finalFurl :=
       if noFurl : bool then
         withParams (toString successUrl) [("status", "failure"); ("txnid", txn)]
           ("status=failure&txnid=" ++ txn)
       else
         withParams (toString failureUrl) [("txnid", txn)] ("txnid=" ++ txn) in
     if negb (bool_decide (is_Some (URL_set finalSurl [])))
        || negb (bool_decide (is_Some (URL_set finalFurl []))) then
       throw "Invalid URL format for success or failure URL"
     else
     let params := paymentParams paymentData finalTxnId finalSurl finalFurl in
     let trimmedKey := trim (key gw) in
     let trimmedSalt := trim (salt gw) in
     if String.eqb trimmedKey "" then throw "Easebuzz key is empty or not configured" else
     if String.eqb trimmedSalt "" then throw "Easebuzz salt is empty or not configured" else
     let form := paymentForm params trimmedKey trimmedSalt in
     data ←
       try_catch
         (post up (baseUrl gw ++ "/payment/initiateLink") form)
         (λ apiError,
          let errorData := response_data apiError in
          throwVal
            (js_or (js_or (js_or (js_or (js_or (get errorData "error_desc")
                                               (get errorData "msg"))
                                        (get errorData "message"))
                                 (get errorData "error"))
                          match errorData with
                          | VStr _ => errorData
                          | VUndef => VUndef
                          | _ => VStr (JSON_stringify errorData)
                          end)
                   (VStr (err_message apiError))));
     let paymentId := get data "data" in
     if truthy data && is_one (get data "status") then
       let paymentUrl :=
         (dropTrailingSlash (baseUrl gw) ++ "/pay/" ++ toString paymentId)%string in
       mret (Created
         {| pc_data :=
              list_to_map [("order_id", finalTxnId); ("payment_url", VStr paymentUrl);
                           ("client_txn_id", finalTxnId); ("payment_id", paymentId)];
            pc_msg := "Payment initiated successfully";
            pc_paymentLink := VStr paymentUrl;
            pc_orderId := finalTxnId;
            pc_transactionId := finalTxnId;
            pc_gatewayTransactionId := paymentId;
            pc_rawResponse := data |})
     else if truthy data then throwVal (refusalOf data)
     else throw "Payment link not received from gateway")
    (λ error,
     let answered := response_data error in
     let errorMsg :=
       js_or (js_or (js_or (get answered "msg") (get answered "message")) answered)
             (VStr (err_message error)) in
     mret (NotCreated errorMsg errorMsg)).

End Create.

(** [process.env.EASEBUZZ_MERCHANT_EMAIL] is the parameter
    [merchantEmailVar] of the two retrievals by date. *)

(** The error branch the two retrievals by date share: the message of the
    gateway when it answered with one, and what it answered. *)
Definition reportFailure (JSON_stringify : jsval → string) (error : JsError) : ReportResult :=
  let errorResponse := response_data error in
  let errorMessage :=
    if truthy errorResponse then
      if truthy (get errorResponse "error_desc") then get errorResponse "error_desc"
      else if truthy (get errorResponse "message") then get errorResponse "message"
      else if isObject errorResponse then VStr (JSON_stringify errorResponse)
      else VStr (err_message error)
    else VStr (err_message error) in
  NoReport (js_or errorResponse errorMessage)
    (list_to_map [("message", errorMessage); ("status", response_status error);
                  ("response", errorResponse)]).

(** [Array.isArray(t) ? t : [t]] and [Array.isArray(t) ? t.length : 1]. *)
Definition asArray (transactions : jsval) : jsval :=
  match transactions with
  | VArr _ => transactions
  | _ => VArr [transactions]
  end.

Definition countOf (transactions : jsval) : nat :=
  match transactions with
  | VArr l => length l
  | _ => 1%nat
  end.

Section Reports.
Variable JSON_stringify : jsval → string.
(** The time value of [new Date(s)] for a date [s] in ISO form; [None]
    for an invalid date. *)
Variable Date_time : string → option Z.

(** [new Date(a) < new Date(b)]: false when either date is invalid. *)
Definition dateBefore (a b : string) : bool :=
  match Date_time a, Date_time b with
  | Some x, Some y => (x <? y)%Z
  | _, _ => false
  end.

Definition retrieveTransactionsByDateRange (gw : instance) (merchantEmailVar : option string)
    (up : UpstreamJson) (startDate endDate : jsval) : Outcome ReportResult :=
  try_catch
    (if negb (truthy startDate) then throw "Start date is required" else
     if negb (truthy endDate) then throw "End date is required" else
     let merchantEmail := trim (default "" (or_s merchantEmailVar (Some ""))) in
     if String.eqb merchantEmail "" then
       throw "EASEBUZZ_MERCHANT_EMAIL environment variable is required"
     else
     let dashboardUrl := "https://dashboard.easebuzz.in" in
     let trimmedKey := trim (key gw) in
     let trimmedSalt := trim (salt gw) in
     trimmedStartDate ← trim_method "startDate" startDate;
     trimmedEndDate ← trim_method "endDate" endDate;
     let trimmedEmail := toLowerCase merchantEmail in
     if negb (datePattern trimmedStartDate) then
       throw "Start date must be in dd-mm-yyyy format (e.g., 10-05-2024)"
     else
     if negb (datePattern trimmedEndDate) then
       throw "End date must be in dd-mm-yyyy format (e.g., 23-08-2024)"
     else
     if dateBefore (isoOfDate trimmedEndDate) (isoOfDate trimmedStartDate) then
       throw "End date must be greater than or equal to start date"
     else
     if String.eqb trimmedKey "" || String.eqb trimmedSalt "" then
       throw "Easebuzz key and salt must be configured"
     else
     let hash :=
       Sha512.sha512
         (pipe [trimmedKey; trimmedEmail; trimmedStartDate; trimmedEndDate; trimmedSalt]) in
     let requestPayload : Obj :=
       list_to_map
         [("key", VStr trimmedKey); ("merchant_email", VStr trimmedEmail);
          ("date_range",
           VObj (list_to_map [("start_date", VStr trimmedStartDate);
                              ("end_date", VStr trimmedEndDate)]));
          ("hash", VStr hash)] in
     data ← postJson up (dashboardUrl ++ "/transaction/v2/retrieve/date") requestPayload;
     let transactions :=
       if truthy data && truthy (get data "data") && isArray (get data "data")
       then get data "data"
       else if truthy data && truthy (get data "msg") && isArray (get data "msg")
       then get data "msg"
       else if truthy data then data
       else VNull in
     mret (Report
       (js_or transactions (VArr []))
       (if isArray transactions then transactions
        else if truthy transactions then VArr [transactions] else VArr [])
       (if isArray transactions then countOf transactions
        else if truthy transactions then 1%nat else 0%nat)
       (js_or (js_or (get data "pagination") (get data "next")) VNull)
       data))
    (λ error, mret (reportFailure JSON_stringify error)).

Definition retrieveTransactionsByDate (gw : instance) (merchantEmailVar : option string)
    (up : Upstream) (transactionDate : jsval) : Outcome ReportResult :=
  try_catch
    (if negb (truthy transactionDate) then throw "Transaction date is required" else
     let merchantEmail := trim (default "" (or_s merchantEmailVar (Some ""))) in
     if String.eqb merchantEmail "" then
       throw "EASEBUZZ_MERCHANT_EMAIL environment variable is required"
     else
     let dashboardUrl := "https://dashboard.easebuzz.in/" in
     let trimmedKey := trim (key gw) in
     let trimmedSalt := trim (salt gw) in
     trimmedDate ← trim_method "transactionDate" transactionDate;
     let trimmedEmail := toLowerCase merchantEmail in
     if negb (datePattern trimmedDate) then
       throw "Transaction date must be in dd-mm-yyyy format (e.g., 15-01-2024)"
     else
     if String.eqb trimmedKey "" || String.eqb trimmedSalt "" then
       throw "Easebuzz key and salt must be configured"
     else
     let encodedDate := encodeURIComponent trimmedDate in
     let hash :=
       Sha512.sha512 (pipe [trimmedKey; trimmedEmail; encodedDate; trimmedSalt]) in
     let formData : Form :=
       list_to_map [("merchant_key", trimmedKey); ("transaction_date", encodedDate);
                    ("merchant_email", trimmedEmail); ("hash", hash)] in
     data ← post up (dashboardUrl ++ "/transaction/v1/retrieve/date") formData;
     let transactions :=
       if truthy data && truthy (get data "msg") && isArray (get data "msg")
       then get data "msg"
       else if truthy data && truthy (get data "msg") && isObject (get data "msg")
       then VArr [get data "msg"]
       else if truthy data then data
       else VNull in
     if negb (truthy transactions) then
       throw "No transaction data received from Easebuzz API"
     else
       mret (Report transactions (asArray transactions) (countOf transactions)
                    VUndef VUndef))
    (λ error, mret (reportFailure JSON_stringify error)).

End Reports.

End EasebuzzGateway.

(** ** The UPI adapter *)

Module UPIGateway.

Record instance := { key : option string; baseUrl : string }.

(** [status === 'success' || status === 'completed' || status === 'paid'
    ? 'success' : 'failed']. *)
Definition callbackStatus (status : option string) : TxStatus :=
  if env_is status "success" || env_is status "completed" || env_is status "paid"
  then success
  else failed.

Definition handleCallback (callbackData : Form) : CallbackResult :=
  let client_txn_id := callbackData !! "client_txn_id" in
  let order_id := callbackData !! "order_id" in
  let status := callbackData !! "status" in
  let transactionId := or_s client_txn_id order_id in
  CallbackOk transactionId (callbackStatus status) callbackData.

Section Status.
Variable JSON_stringify : jsval → string.

Definition checkPaymentStatus (gw : instance) (up : Upstream)
    (transactionId : string) (txn_date : option string) : Outcome StatusResponse :=
  try_catch
    (let client_txn_id := transactionId in
     k ← match key gw with
         | Some k => Returned (trim k)
         | None => typeError "Cannot read properties of undefined (reading 'trim')"
         end;
     let payload : Form :=
       list_to_map [("key", k); ("client_txn_id", client_txn_id)] in
     let payload : Form :=
       match txn_date with
       | Some d => if truthy_s txn_date then <["txn_date" := d]> payload else payload
       | None => payload
       end in
     data ← post up (baseUrl gw ++ "/check_order_status") payload;
     match data with
     | VUndef | VNull =>
       typeError "Cannot read properties of undefined (reading 'status')"
     | _ =>
       if negb (truthy (get data "status")) then
         throw (toString (js_or (get data "msg") (VStr "Failed to check order status")))
       else
         mret {| sr_success := true; sr_data := data; sr_transactionDetails := VUndef;
                 sr_error := VUndef; sr_errorDetails := VUndef |}
     end)
    (λ error,
     let errorMessage :=
       match err_response error with
       | Some (c, d) => ("Status: " ++ pretty c ++ " - " ++ JSON_stringify d)%string
       | None => err_message error
       end in
     mret {| sr_success := false; sr_data := VUndef; sr_transactionDetails := VUndef;
             sr_error := VStr ("Failed to check UPI order status: " ++ errorMessage);
             sr_errorDetails := VUndef |}).

End Status.


(** [UPI_API_URL]. *)
Definition UPI_API_URL : string := "https://api.ekqr.in/api".

(** The constructor: the key of the configuration, else
    [process.env.EKQR_KEY]. *)
Definition new (config : EasebuzzGateway.config) (EKQR_KEY : option string) : instance :=
  {| key := or_s (EasebuzzGateway.cfg_key config) EKQR_KEY;
     baseUrl := default UPI_API_URL
                  (or_s (EasebuzzGateway.cfg_baseUrl config) (Some UPI_API_URL)) |}.

(** [response.data.data?.payment_url || response.data.payment_url ||
    response.data.data?.upi_url || response.data.upi_url || null]. *)
Definition paymentUrlOf (data : jsval) : jsval :=
  js_or (js_or (js_or (js_or (get (get data "data") "payment_url") (get data "payment_url"))
                      (get (get data "data") "upi_url"))
               (get data "upi_url"))
        VNull.

(** The order that is sent to [create_order]. *)
Definition createPayload (trimmedKey : string) (finalClientTxnId : jsval) (paymentData : Obj)
    : Obj :=
  let p k := default VUndef (paymentData !! k) in
  list_to_map
    [("key", VStr trimmedKey);
     ("client_txn_id", finalClientTxnId);
     ("amount", VStr (toString (p "amount")));
     ("p_info", js_or (js_or (js_or (p "p_info") (p "productinfo")) (p "productInfo"))
                      (VStr "Payment"));
     ("customer_name",
      js_or (js_or (js_or (js_or (p "customer_name") (p "customerName")) (p "firstname"))
                   (p "firstName"))
            (VStr "Customer"));
     ("customer_email",
      js_or (js_or (js_or (p "customer_email") (p "customerEmail")) (p "email")) (VStr ""));
     ("customer_mobile",
      js_or (js_or (js_or (p "customer_mobile") (p "customerPhone")) (p "phone")) (VStr ""));
     ("redirect_url",
      js_or (js_or (js_or (js_or (p "redirect_url") (p "returnUrl")) (p "successUrl"))
                   (p "surl"))
            (VStr "/payment/status"));
     ("udf1", js_or (p "udf1") (VStr "")); ("udf2", js_or (p "udf2") (VStr ""));
     ("udf3", js_or (p "udf3") (VStr ""))].

Section Create.
Variable JSON_stringify : jsval → string.

Definition createPayment (gw : instance) (up : UpstreamJson) (clock suffix : string)
    (paymentData : Obj) : Outcome CreateResult :=
  let p k := default VUndef (paymentData !! k) in
  try_catch
    (if negb (truthy (p "amount")) then throw "Amount is required for UPI payment" else
     if negb (truthy_s (key gw)) then throw "EKQR_KEY is not configured" else
     let finalClientTxnId :=
       js_or (js_or (js_or (p "client_txn_id") (p "transactionId")) (p "txnid"))
             (VStr (generatedId clock suffix)) in
     let payload := createPayload (trim (default "" (key gw))) finalClientTxnId paymentData in
     if negb (truthy (get (VObj payload) "customer_email")) then
       throw "Email (customer_email/email) is required for UPI payment"
     else
     data ← postJson up (baseUrl gw ++ "/create_order") payload;
     match data with
     | VUndef => typeError "Cannot read properties of undefined (reading 'status')"
     | VNull => typeError "Cannot read properties of null (reading 'status')"
     | _ =>
       if negb (truthy (get data "status")) then
         throwVal (js_or (get data "msg") (VStr "Failed to create UPI order"))
       else
       let paymentUrl := paymentUrlOf data in
       if negb (truthy paymentUrl) then throw "Payment URL not received from UPI gateway" else
       let orderId := finalClientTxnId in
       mret (Created
         {| pc_data :=
              list_to_map [("order_id", orderId); ("payment_url", paymentUrl);
                           ("client_txn_id", orderId)];
            pc_msg := "Payment initiated successfully";
            pc_paymentLink := paymentUrl;
            pc_orderId := orderId;
            pc_transactionId := finalClientTxnId;
            pc_gatewayTransactionId := VUndef;
            pc_rawResponse := data |})
     end)
    (λ error,
     let errorMessage :=
       match err_response error with
       | Some (c, d) => ("Status: " ++ pretty c ++ " - " ++ JSON_stringify d)%string
       | None => err_message error
       end in
     mret (NotCreated (VStr errorMessage) (VStr ("UPI payment failed: " ++ errorMessage)))).

End Create.

End UPIGateway.

(** ** The orchestrator ([services/paymentService.js]) *)

(** The own enumerable properties a spread copies from a value: those of an
    object, the elements of an array and the characters of a string under
    their indices, and none of the other values. *)
Definition ownProps (v : jsval) : Obj :=
  match v with
  | VObj o => o
  | VArr l => list_to_map (imap (λ i x, (pretty i, x)) l)
  | VStr s =>
    list_to_map (imap (λ i c, (pretty i, VStr (String c EmptyString)))
                      (list_ascii_of_string s))
  | _ => ∅
  end.

(** The table of the poll and retrieval paths. *)
Definition mapGatewayStatus (gatewayStatus : jsval) : TxStatus :=
  if is_str gatewayStatus "success" || is_str gatewayStatus "completed"
     || is_str gatewayStatus "paid" then success
  else if is_str gatewayStatus "failed" || is_str gatewayStatus "failure" then failed
  else if is_str gatewayStatus "cancelled" || is_str gatewayStatus "canceled" then cancelled
  else pending.

Module PaymentService.

Inductive GatewayInstance :=
  | Easebuzz (g : EasebuzzGateway.instance)
  | Upi (g : UPIGateway.instance).

(** [this.gateways]. *)
Record t := {
  easebuzz : option EasebuzzGateway.instance;
  upigateway : option UPIGateway.instance
}.

Definition getGateway (svc : t) (gatewayName : string) : Outcome GatewayInstance :=
  let name := toLowerCase gatewayName in
  let gateway :=
    if String.eqb name "easebuzz" then Easebuzz <$> easebuzz svc
    else if String.eqb name "upigateway" then Upi <$> upigateway svc
    else None in
  match gateway with
  | Some g => Returned g
  | None => throw ("Gateway " ++ gatewayName ++ " not initialized")
  end.

(** The transaction a creation stores, from the generated reference and
    what the adapter returned (the paths arrive cast: the amount as a
    number, the gateway as one of the two names); [transactionId] is then
    moved to the order identifier when that differs. *)
Definition createTransaction (userId paymentMethodId : jsval) (gateway : string)
    (amount : Z) (currency : option string) (transactionId : string)
    (gatewayPaymentData : Obj) (gatewayResponse : PaymentCreated)
    (callbackUrl returnUrl : option string) (now : Date) : Transaction.t :=
  let tx :=
    {| Transaction.userId := userId; Transaction.paymentMethodId := paymentMethodId;
       Transaction.gateway := gateway;
       Transaction.amount := amount;
       (* the path is declared [uppercase: true] *)
       Transaction.currency := toUpperCase (default "INR" (or_s currency (Some "INR")));
       Transaction.status := pending;
       Transaction.transactionId := Some transactionId;
       Transaction.gatewayTransactionId :=
         Some (toString
           (js_or (js_or (pc_gatewayTransactionId gatewayResponse)
                         (get (VObj (pc_data gatewayResponse)) "payment_id"))
                  (VStr transactionId)));
       Transaction.paymentRequest := castKnown gatewayPaymentData;
       Transaction.paymentResponse :=
         castKnown (ownProps (js_or (pc_rawResponse gatewayResponse)
                                    (VObj (pc_data gatewayResponse))));
       Transaction.callbackUrl := callbackUrl; Transaction.returnUrl := returnUrl;
       Transaction.createdAt := now; Transaction.updatedAt := now |} in
  let orderId :=
    toString
      (js_or (js_or (get (VObj (pc_data gatewayResponse)) "order_id")
                    (pc_orderId gatewayResponse))
             (VStr transactionId)) in
  if String.eqb orderId transactionId then tx
  else Transaction.set_transactionId (Some orderId) tx.

(** What [handleCallback] resolves with, and where the document sits. *)
Record CallbackOutcome := {
  co_index : nat;
  co_transaction : Transaction.t;
  co_statusChanged : bool
}.

(** [a || b || c || d] over the identifying fields of a callback. *)
Definition callbackTxnId (callbackData : Form) : option string :=
  or_s (or_s (or_s (callbackData !! "gateway_transaction_id") (callbackData !! "txnid"))
             (callbackData !! "order_id"))
       (callbackData !! "client_txn_id").

(** The lookup of [handleCallback]: by transaction reference, then by
    either identifier. *)
Definition findCallbackTransaction (db : Store) (transactionId : option string)
    (callbackData : Form) : option (nat * Transaction.t) :=
  match findOne (λ x, Transaction.transactionId x = transactionId) db with
  | Some r => Some r
  | None =>
    let gatewayTxnId := callbackTxnId callbackData in
    if truthy_s gatewayTxnId then
      findOne (λ x, Transaction.transactionId x = gatewayTxnId
                    ∨ Transaction.gatewayTransactionId x = gatewayTxnId) db
    else None
  end.

(** [gatewayInstance.handleCallback(callbackData)]. *)
Definition adapterCallback (g : GatewayInstance) (env : ProcessEnv) (callbackData : Form)
    : CallbackResult :=
  match g with
  | Easebuzz g => EasebuzzGateway.handleCallback g env callbackData
  | Upi _ => UPIGateway.handleCallback callbackData
  end.

(** The object [handleCallback] assigns to [paymentResponse]:
    [{...existingResponse, ...callbackResult.data, callback_received_at,
    callback_data}]. *)
Definition callbackResponse (callbackData data : Form) (now : Date)
    (transaction : Transaction.t) : Obj :=
  let existingResponse :=
    from_option fromEntries ∅ (Transaction.paymentResponse transaction) in
  with_prop "callback_data" (VObj (obj_of_form callbackData))
    (with_prop "callback_received_at" (VStr now)
      (spread existingResponse (obj_of_form data))).

(** The document [handleCallback] writes back, from the one it found; the
    write is rejected when the merged object does not cast. *)
Definition applyCallback (callbackData : Form) (transactionId : option string)
    (status : TxStatus) (data : Form) (now : Date) (transaction : Transaction.t)
    : Outcome Transaction.t :=
  let transaction := Transaction.set_status status transaction in
  let gatewayTxnId := or_s (callbackTxnId callbackData) transactionId in
  let transaction := Transaction.set_gatewayTransactionId_if gatewayTxnId transaction in
  transaction ← assignResponse (callbackResponse callbackData data now transaction) transaction;
  mret (Transaction.set_updatedAt now transaction).

Definition handleCallback (svc : t) (env : ProcessEnv) (gatewayName : string)
    (callbackData : Form) (now : Date) (db : Store) : Outcome (Store * CallbackOutcome) :=
  gatewayInstance ← getGateway svc gatewayName;
  match adapterCallback gatewayInstance env callbackData with
  | CallbackFail error => throw error
  | CallbackOk transactionId status data =>
    match findCallbackTransaction db transactionId callbackData with
    | None =>
      throw ("Transaction not found for ID: " ++ default "undefined" transactionId)
    | Some (i, transaction) =>
      let oldStatus := Transaction.status transaction in
      transaction ← applyCallback callbackData transactionId status data now transaction;
      mret (save i transaction db,
            {| co_index := i; co_transaction := transaction;
               co_statusChanged :=
                 bool_decide (oldStatus ≠ Transaction.status transaction) |})
    end
  end.

(** [statusResponse.transactionDetails || statusResponse.data]. *)
Definition transactionDetailsOf (statusResponse : StatusResponse) : jsval :=
  js_or (sr_transactionDetails statusResponse) (sr_data statusResponse).

(** [transactionDetails?.status || transactionDetails?.payment_status ||
    statusResponse.data?.status || statusResponse.data?.payment_status]. *)
Definition gatewayStatusOf (statusResponse : StatusResponse) : jsval :=
  let transactionDetails := transactionDetailsOf statusResponse in
  js_or (js_or (js_or (get transactionDetails "status")
                      (get transactionDetails "payment_status"))
               (get (sr_data statusResponse) "status"))
        (get (sr_data statusResponse) "payment_status").

(** The part of [checkPaymentStatus] that updates the document from what
    the adapter answered; [None] when nothing is saved. *)
Definition applyStatusResponse (statusResponse : StatusResponse) (now : Date)
    (transaction : Transaction.t) : option Transaction.t :=
  if sr_success statusResponse then
    let transactionDetails := transactionDetailsOf statusResponse in
    let gatewayStatus := gatewayStatusOf statusResponse in
    if truthy gatewayStatus then
      let newStatus := mapGatewayStatus gatewayStatus in
      let shouldUpdate :=
        bool_decide (Transaction.status transaction ≠ newStatus) || truthy transactionDetails in
      if shouldUpdate then
        let transaction := Transaction.set_status_if_changed newStatus transaction in
        let gatewayTxnId :=
          js_or (js_or (js_or (get transactionDetails "txnid")
                              (get transactionDetails "transaction_id"))
                       (get (sr_data statusResponse) "gateway_transaction_id"))
                (get (sr_data statusResponse) "txnid") in
        let transaction := Transaction.set_gatewayTransactionId_val gatewayTxnId transaction in
        let existingResponse :=
          from_option fromEntries ∅ (Transaction.paymentResponse transaction) in
        let transaction :=
          Transaction.set_paymentResponse
            (castKnown
               (with_prop "status_check_response" (sr_data statusResponse)
                 (with_prop "status_check_date" (VStr now)
                   (spread existingResponse (ownProps transactionDetails)))))
            transaction in
        Some (Transaction.set_updatedAt now transaction)
      else None
    else None
  else None.

Section Poll.
Variable JSON_stringify : jsval → string.

Definition checkPaymentStatus (svc : t) (env : ProcessEnv) (up : Upstream)
    (transactionId : string) (txn_date : option string) (now : Date) (db : Store)
    : Outcome (Store * Transaction.t) :=
  match findOne (λ x, Transaction.transactionId x = Some transactionId) db with
  | None => throw "Transaction not found"
  | Some (i, transaction) =>
    gatewayInstance ← getGateway svc (Transaction.gateway transaction);
    statusResponse ←
      match gatewayInstance with
      | Easebuzz g =>
        EasebuzzGateway.checkPaymentStatus g env up transactionId
          (if String.eqb (Transaction.gateway transaction) "easebuzz"
           then Some transaction else None)
      | Upi g => UPIGateway.checkPaymentStatus JSON_stringify g up transactionId txn_date
      end;
    match applyStatusResponse statusResponse now transaction with
    | Some transaction => mret (save i transaction db, transaction)
    | None => mret (db, transaction)
    end
  end.

End Poll.


(** [new PaymentService()]: no gateway is registered. *)
Definition empty : t := {| easebuzz := None; upigateway := None |}.

(** [initializeGateway]; [EKQR_KEY] is the variable of the environment
    the constructor of the UPI adapter falls back on. *)
Definition initializeGateway (svc : t) (EKQR_KEY : option string) (gatewayName : string)
    (config : EasebuzzGateway.config) : Outcome t :=
  let name := toLowerCase gatewayName in
  if String.eqb name "easebuzz" then
    mret {| easebuzz := Some (EasebuzzGateway.new config); upigateway := upigateway svc |}
  else if String.eqb name "upigateway" then
    mret {| easebuzz := easebuzz svc; upigateway := Some (UPIGateway.new config EKQR_KEY) |}
  else throw ("Unsupported gateway: " ++ gatewayName).

(** The variables of [process.env] that configure the gateways. *)
Record Credentials := {
  EASEBUZZ_KEY : option string;
  EASEBUZZ_SALT : option string;
  EASEBUZZ_BASE_URL : option string;
  EKQR_KEY : option string;
  UPIGATEWAY_BASE_URL : option string
}.

(** The singleton of the module and its initialisation from the
    environment. *)
Definition paymentService (env : ProcessEnv) (vars : Credentials) : Outcome t :=
  svc ←
    (if truthy_s (EASEBUZZ_KEY vars) && truthy_s (EASEBUZZ_SALT vars) then
       let easebuzzBaseUrl :=
         if truthy_s (EASEBUZZ_BASE_URL vars) then EASEBUZZ_BASE_URL vars
         else if env_is (EASEBUZZ_ENV env) "prod" || env_is (EASEBUZZ_ENV env) "production"
         then Some "https://pay.easebuzz.in"
         else Some "https://testpay.easebuzz.in" in
       let key := trim (default "" (EASEBUZZ_KEY vars)) in
       let salt := trim (default "" (EASEBUZZ_SALT vars)) in
       initializeGateway empty (EKQR_KEY vars) "easebuzz"
         {| EasebuzzGateway.cfg_key := Some key; EasebuzzGateway.cfg_salt := Some salt;
            EasebuzzGateway.cfg_baseUrl := easebuzzBaseUrl |}
     else mret empty);
  if truthy_s (EKQR_KEY vars) then
    initializeGateway svc (EKQR_KEY vars) "upigateway"
      {| EasebuzzGateway.cfg_key := Some (trim (default "" (EKQR_KEY vars)));
         EasebuzzGateway.cfg_salt := None;
         EasebuzzGateway.cfg_baseUrl :=
           or_s (UPIGATEWAY_BASE_URL vars) (Some "https://api.ekqr.in/api") |}
  else mret svc.

(** The paths of a user and of a payment method that [createPayment]
    reads. *)
Record User := { user_id : string; paymentGateway : option string }.

Record PaymentMethod := { method_id : string; method_gateway : string; isActive : bool }.

(** [a || b || ... || d]. *)
Definition ors (alternatives : list jsval) (d : jsval) : jsval := foldr js_or d alternatives.

(** The gateway of a payment: the one the request names, else the one the
    user prefers, else that of the first active payment method. *)
Definition gatewayFor (users : list User) (methods : list PaymentMethod) (userId : string)
    (paymentData : Obj) : Outcome jsval :=
  match list_find (λ u, user_id u = userId) users with
  | None => throw "User not found"
  | Some (_, user) =>
    let gateway :=
      js_or (default VUndef (paymentData !! "gateway"))
            (from_option VStr VNull (paymentGateway user)) in
    if truthy gateway then mret gateway
    else
      match list_find (λ m, isActive m = true) methods with
      | None => throw "No active payment method available"
      | Some (_, activeMethod) => mret (VStr (method_gateway activeMethod))
      end
  end.

(** [gatewayPaymentData]: the request under the field names of both
    gateways. *)
Definition gatewayPaymentData (transactionId : string) (paymentData : Obj) : Obj :=
  let p k := default VUndef (paymentData !! k) in
  let e := VStr "" in
  list_to_map
    [("amount", p "amount");
     ("transactionId", VStr transactionId);
     ("txnid", VStr transactionId);
     ("client_txn_id", ors [p "client_txn_id"] (VStr transactionId));
     ("productInfo",
      ors [p "productInfo"; p "productinfo"; p "p_info"; p "description"] (VStr "Payment"));
     ("productinfo",
      ors [p "productinfo"; p "productInfo"; p "p_info"; p "description"] (VStr "Payment"));
     ("p_info",
      ors [p "p_info"; p "productinfo"; p "productInfo"; p "description"] (VStr "Payment"));
     ("firstName",
      ors [p "firstName"; p "firstname"; p "customerName"; p "customer_name"] (VStr "Customer"));
     ("firstname",
      ors [p "firstname"; p "firstName"; p "customerName"; p "customer_name"] (VStr "Customer"));
     ("customerName",
      ors [p "customerName"; p "customer_name"; p "firstname"; p "firstName"] (VStr "Customer"));
     ("customer_name",
      ors [p "customer_name"; p "customerName"; p "firstname"; p "firstName"] (VStr "Customer"));
     ("email", ors [p "email"; p "customerEmail"; p "customer_email"] e);
     ("customerEmail", ors [p "customerEmail"; p "customer_email"; p "email"] e);
     ("customer_email", ors [p "customer_email"; p "customerEmail"; p "email"] e);
     ("phone", ors [p "phone"; p "customerPhone"; p "customer_mobile"] e);
     ("customerPhone", ors [p "customerPhone"; p "customer_mobile"; p "phone"] e);
     ("customer_mobile", ors [p "customer_mobile"; p "customerPhone"; p "phone"] e);
     ("successUrl", ors [p "successUrl"; p "surl"; p "returnUrl"; p "redirect_url"] e);
     ("surl", ors [p "surl"; p "successUrl"; p "returnUrl"; p "redirect_url"] e);
     ("returnUrl", ors [p "returnUrl"; p "successUrl"; p "redirect_url"] e);
     ("redirect_url", ors [p "redirect_url"; p "returnUrl"; p "successUrl"; p "surl"] e);
     ("failureUrl", ors [p "failureUrl"; p "furl"; p "failure_redirect_url"] e);
     ("furl", ors [p "furl"; p "failureUrl"; p "failure_redirect_url"] e);
     ("failure_redirect_url", ors [p "failure_redirect_url"; p "furl"; p "failureUrl"] e);
     ("udf1", ors [p "udf1"] e); ("udf2", ors [p "udf2"] e); ("udf3", ors [p "udf3"] e);
     ("udf4", ors [p "udf4"] e); ("udf5", ors [p "udf5"] e); ("udf6", ors [p "udf6"] e);
     ("udf7", ors [p "udf7"] e); ("udf8", ors [p "udf8"] e); ("udf9", ors [p "udf9"] e);
     ("udf10", ors [p "udf10"] e);
     ("address1", ors [p "address1"] e); ("address2", ors [p "address2"] e);
     ("city", ors [p "city"] e); ("state", ors [p "state"] e);
     ("country", ors [p "country"] e); ("zipcode", ors [p "zipcode"] e);
     ("show_payment_mode", p "show_payment_mode");
     ("split_payments", p "split_payments");
     ("request_flow", p "request_flow");
     ("sub_merchant_id", p "sub_merchant_id");
     ("payment_category", p "payment_category");
     ("account_no", p "account_no");
     ("ifsc", p "ifsc");
     ("unique_id", p "unique_id");
     ("currency", ors [p "currency"] (VStr "INR"))].

(** What [createPayment] holds once the gateway has created the payment,
    before it builds the transaction. *)
Record Initiated := {
  in_gateway : jsval;
  in_transactionId : string;
  in_request : Obj;
  in_response : PaymentCreated
}.

Section CreatePayment.
Variable URL_set : string → list (string * string) → option string.
Variable toFixed2_of : jsval → string.
Variable JSON_stringify : jsval → string.

(** [createPayment], up to the point where the transaction is built:
    the gateway is chosen, the reference is generated from the reading
    [clock] of the clock and the random [suffix], and the adapter is
    asked to create the payment ([clock'] and [suffix'] are what the
    adapter would read).  A refusal of the adapter is thrown on. *)
Definition initiatePayment (svc : t) (users : list User) (methods : list PaymentMethod)
    (up : Upstream) (upJson : UpstreamJson) (clock suffix clock' suffix' : string)
    (userId : string) (paymentData : Obj) : Outcome Initiated :=
  gateway ← gatewayFor users methods userId paymentData;
  gatewayInstance ←
    match gateway with
    | VStr name => getGateway svc name
    | _ => typeError "gatewayName.toLowerCase is not a function"
    end;
  let transactionId := generatedId clock suffix in
  let request := gatewayPaymentData transactionId paymentData in
  gatewayResponse ←
    match gatewayInstance with
    | Easebuzz g =>
      EasebuzzGateway.createPayment URL_set toFixed2_of JSON_stringify g up clock' suffix' request
    | Upi g => UPIGateway.createPayment JSON_stringify g upJson clock' suffix' request
    end;
  match gatewayResponse with
  | NotCreated error msg =>
    throwVal (js_or (js_or error msg) (VStr "Payment creation failed"))
  | Created response =>
    mret {| in_gateway := gateway; in_transactionId := transactionId;
            in_request := request; in_response := response |}
  end.

End CreatePayment.

End PaymentService.

(** ** The redirect handlers and the reconciling routes *)

Module Routes.

(** The answer of a handler: the HTTP status and, of the JSON body,
    [success], [message] and the [gateway] some refusals name.  The other
    properties of a body are left out: [data], a view of the document the
    handler holds, and [error], which repeats the message of a refusal or
    carries its trace in development. *)
Record Response := {
  res_code : nat;
  res_success : bool;
  res_message : string;
  res_gateway : option string
}.

(** A body without [gateway]. *)
Definition answer (code : nat) (success : bool) (message : string) : Response :=
  {| res_code := code; res_success := success; res_message := message;
     res_gateway := None |}.

(** What a [catch] block answers: 500 with [error.message || fallback]. *)
Definition serverError (fallback : string) (error : JsError) : Response :=
  answer 500 false (default fallback (or_s (Some (err_message error)) (Some fallback))).

(** [status || 'success']. *)
Definition paymentStatusOf (status : option string) : string :=
  default "success" (or_s status (Some "success")).

(** The status table of the hosted-checkout branch of [/success]. *)
Definition easebuzzRedirectStatus (paymentStatus : string) : TxStatus :=
  if String.eqb paymentStatus "success" then success
  else if String.eqb paymentStatus "failed" || String.eqb paymentStatus "failure" then failed
  else pending.

(** The status table of the UPI branch of [/success]. *)
Definition upiRedirectStatus (paymentStatus : string) : TxStatus :=
  if String.eqb paymentStatus "success" || String.eqb paymentStatus "completed"
     || String.eqb paymentStatus "paid" then success
  else if String.eqb paymentStatus "failed" || String.eqb paymentStatus "failure" then failed
  else pending.

(** A property written from a variable that may be [undefined]. *)
Definition prop_of (v : option string) : jsval := from_option VStr VUndef v.

(** The update of the hosted-checkout branch of [/success] and of
    [/failure]: [paymentResponse] becomes
    [{...transaction.paymentResponse, ...query, redirect_date}], the stored
    map itself being spread. *)
Definition redirectMerge (query : Form) (now : Date) (transaction : Transaction.t)
    : Outcome Transaction.t :=
  transaction ←
    assignResponse
      (with_prop "redirect_date" (VStr now)
        (spread (spreadMap "paymentResponse" (Transaction.paymentResponse transaction))
                (obj_of_form query)))
      transaction;
  mret (Transaction.set_updatedAt now transaction).

(** The update of the UPI branch of [/success]: [paymentResponse] becomes
    [{...transaction.paymentResponse, client_txn_id, txn_id, status,
    redirect_date}]. *)
Definition upiRedirectMerge (client_txn_id txn_id : option string) (paymentStatus : string)
    (now : Date) (transaction : Transaction.t) : Outcome Transaction.t :=
  let transaction := Transaction.set_gatewayTransactionId_if txn_id transaction in
  transaction ←
    assignResponse
      (with_prop "redirect_date" (VStr now)
        (with_prop "status" (VStr paymentStatus)
          (with_prop "txn_id" (prop_of txn_id)
            (with_prop "client_txn_id" (prop_of client_txn_id)
              (spreadMap "paymentResponse" (Transaction.paymentResponse transaction))))))
      transaction;
  mret (Transaction.set_updatedAt now transaction).

Definition ok : Response := answer 200 true "Payment processed successfully".

Definition notFound : Response := answer 404 false "Transaction not found".

(** The refusals that name the gateway. *)
Definition notFoundAt (gateway : string) : Response :=
  {| res_code := 404; res_success := false; res_message := "Transaction not found";
     res_gateway := Some gateway |}.

(** [await transaction.save()] at the end of an update, and the answer
    of the handler: [reply] once the document is written, the answer of
    the [catch] block when the write is rejected. *)
Definition saved (i : nat) (update : Outcome Transaction.t) (reply : Response)
    (fallback : string) (db : Store) : Response * Store :=
  match update with
  | Returned transaction => (reply, save i transaction db)
  | Thrown error => (serverError fallback error, db)
  end.

(** The hash check of [/success]: the message of the rejection, if the
    adapter rejects the query.  It runs when the query carries a hash and
    the transaction is a hosted-checkout one; an exception in it is
    swallowed. *)
Definition redirectHashCheck (svc : PaymentService.t) (env : ProcessEnv) (query : Form)
    (transaction : Transaction.t) : option string :=
  if truthy_s (query !! "hash") && String.eqb (Transaction.gateway transaction) "easebuzz" then
    match PaymentService.getGateway svc "easebuzz" with
    | Returned g =>
      match PaymentService.adapterCallback g env query with
      | CallbackFail error =>
        Some (default "Hash verification failed"
                (or_s (Some error) (Some "Hash verification failed")))
      | CallbackOk _ _ _ => None
      end
    | Thrown _ => None
    end
  else None.

(** [app.get('/success')]. *)
Definition appSuccess (svc : PaymentService.t) (env : ProcessEnv) (query : Form)
    (now : Date) (db : Store) : Response * Store :=
  let client_txn_id := query !! "client_txn_id" in
  let txn_id := query !! "txn_id" in
  let status := query !! "status" in
  let txnid := query !! "txnid" in
  let fallback := "Failed to process payment success" in
  if truthy_s txnid then
    match findOne (λ x, Transaction.transactionId x = txnid) db with
    | None => (notFoundAt "easebuzz", db)
    | Some (i, transaction) =>
      match redirectHashCheck svc env query transaction with
      | Some m =>
        ({| res_code := 400; res_success := false; res_message := m;
            res_gateway := Some "easebuzz" |}, db)
      | None =>
        let paymentStatus := paymentStatusOf status in
        let newStatus := easebuzzRedirectStatus paymentStatus in
        if decide (Transaction.status transaction ≠ newStatus) then
          let transaction := Transaction.set_status newStatus transaction in
          saved i (redirectMerge query now transaction) ok fallback db
        else (ok, db)
      end
    end
  else if truthy_s client_txn_id then
    match findOne (λ x, Transaction.transactionId x = client_txn_id) db with
    | None => (notFoundAt "upigateway", db)
    | Some (i, transaction) =>
      let paymentStatus := paymentStatusOf status in
      let newStatus := upiRedirectStatus paymentStatus in
      if decide (Transaction.status transaction ≠ newStatus) then
        let transaction := Transaction.set_status newStatus transaction in
        saved i (upiRedirectMerge client_txn_id txn_id paymentStatus now transaction)
          ok fallback db
      else (ok, db)
    end
  else
    (answer 400 false
       "Missing required parameter: client_txn_id (UPI Gateway) or txnid (Easebuzz)",
     db).

(** The lookup of [/failure]: by [txnid], else by [client_txn_id]. *)
Definition failureLookup (query : Form) (db : Store) : option (nat * Transaction.t) :=
  let client_txn_id := query !! "client_txn_id" in
  let txnid := query !! "txnid" in
  if truthy_s txnid then
    findOne (λ x, Transaction.transactionId x = txnid) db
  else if truthy_s client_txn_id then
    findOne (λ x, Transaction.transactionId x = client_txn_id) db
  else None.

(** [gateway || 'unknown'] in [/failure]. *)
Definition failureGateway (query : Form) : string :=
  if truthy_s (query !! "txnid") then "easebuzz"
  else if truthy_s (query !! "client_txn_id") then "upigateway"
  else "unknown".

(** What [/failure] answers for a transaction it found. *)
Definition paymentFailed : Response := answer 200 false "Payment failed".

(** [app.get('/failure')]. *)
Definition appFailure (query : Form) (now : Date) (db : Store) : Response * Store :=
  let txn_id := query !! "txn_id" in
  let txnid := query !! "txnid" in
  match failureLookup query db with
  | None => (notFoundAt (failureGateway query), db)
  | Some (i, transaction) =>
    if decide (Transaction.status transaction ≠ failed) then
      let transaction := Transaction.set_status failed transaction in
      let transaction :=
        Transaction.set_gatewayTransactionId_if (or_s txn_id txnid) transaction in
      saved i (redirectMerge query now transaction) paymentFailed
        "Failed to process payment failure" db
    else (paymentFailed, db)
  end.

(** [router.get('/success')] of [routes/payments.js], the UPI redirect. *)
Definition paymentsSuccess (query : Form) (now : Date) (db : Store) : Response * Store :=
  let client_txn_id := query !! "client_txn_id" in
  let txn_id := query !! "txn_id" in
  let status := query !! "status" in
  if negb (truthy_s client_txn_id) then
    (answer 400 false "client_txn_id is required", db)
  else
    match findOne (λ x, Transaction.transactionId x = client_txn_id) db with
    | None => (notFound, db)
    | Some (i, transaction) =>
      let paymentStatus := paymentStatusOf status in
      let newStatus := upiRedirectStatus paymentStatus in
      if decide (Transaction.status transaction ≠ newStatus) then
        let transaction := Transaction.set_status newStatus transaction in
        saved i (upiRedirectMerge client_txn_id txn_id paymentStatus now transaction)
          ok "Failed to process payment success" db
      else (ok, db)
    end.

(** The update [router.post('/easebuzz/retrieve-transaction')] makes to
    the document it found, from the details the adapter returned. *)
Definition applyRetrieved (transactionDetails : jsval) (now : Date)
    (transaction : Transaction.t) : Transaction.t :=
  let gatewayStatus :=
    js_or (get transactionDetails "status") (get transactionDetails "payment_status") in
  let transaction :=
    if truthy gatewayStatus
    then Transaction.set_status_if_changed (mapGatewayStatus gatewayStatus) transaction
    else transaction in
  let existingResponse :=
    from_option fromEntries ∅ (Transaction.paymentResponse transaction) in
  let transaction :=
    Transaction.set_paymentResponse
      (castKnown
         (with_prop "retrieved_at" (VStr now)
           (spread existingResponse (ownProps transactionDetails))))
      transaction in
  Transaction.set_updatedAt now transaction.

Section Retrieve.
Variable JSON_stringify : jsval → string.

(** [router.post('/easebuzz/retrieve-transaction')], after validation of
    the body. *)
Definition retrieveTransaction (svc : PaymentService.t) (env : ProcessEnv) (up : Upstream)
    (txnid : string) (now : Date) (db : Store) : Response * Store :=
  let byEither (a : string) (x : Transaction.t) : Prop :=
    (Transaction.transactionId x = Some a ∨ Transaction.gatewayTransactionId x = Some a)
    ∧ Transaction.gateway x = "easebuzz" in
  let found := findOne (byEither txnid) db in
  let easebuzzTxnId :=
    default txnid (or_s (found ≫= λ r, Transaction.gatewayTransactionId r.2) (Some txnid)) in
  let run : Outcome (Response * Store) :=
    gatewayInstance ← PaymentService.getGateway svc "easebuzz";
    result ←
      match gatewayInstance with
      | PaymentService.Easebuzz g =>
        EasebuzzGateway.retrieveTransactionDetails JSON_stringify g env up (VStr easebuzzTxnId)
      | PaymentService.Upi _ => typeError "gatewayInstance.retrieveTransactionDetails is not a function"
      end;
    if negb (sr_success result) then
      mret (answer 400 false
              (toString (js_or (sr_error result)
                               (VStr "Failed to retrieve transaction details"))), db)
    else
      let found :=
        match found with
        | Some r => Some r
        | None =>
          findOne (λ x, (Transaction.transactionId x = Some txnid
                         ∨ Transaction.transactionId x = Some easebuzzTxnId
                         ∨ Transaction.gatewayTransactionId x = Some txnid
                         ∨ Transaction.gatewayTransactionId x = Some easebuzzTxnId)
                        ∧ Transaction.gateway x = "easebuzz") db
        end in
      let reply := answer 200 true "Transaction details retrieved successfully" in
      match found with
      | Some (i, transaction) =>
        mret (reply, save i (applyRetrieved (sr_transactionDetails result) now transaction) db)
      | None => mret (reply, db)
      end in
  match run with
  | Returned r => r
  | Thrown error => (serverError "Failed to retrieve transaction details" error, db)
  end.

End Retrieve.


(** [router.post('/easebuzz-response')] and
    [router.post('/upigateway-response')]: the webhook of the gateway
    [gatewayName]. *)
Definition webhook (gatewayName : string) (svc : PaymentService.t) (env : ProcessEnv)
    (body : Form) (now : Date) (db : Store) : Response * Store :=
  match PaymentService.handleCallback svc env gatewayName body now db with
  | Returned (db', _) => (answer 200 true "Webhook processed successfully", db')
  | Thrown error => (serverError "Failed to process webhook" error, db)
  end.

Definition easebuzzResponse := webhook "easebuzz".

Definition upigatewayResponse := webhook "upigateway".

End Routes.

(** * Fixtures and statements *)

Local Open Scope string_scope.

Definition gw_fixture : EasebuzzGateway.instance :=
  EasebuzzGateway.new
    {| EasebuzzGateway.cfg_key := Some " KEY1 ";
       EasebuzzGateway.cfg_salt := Some "SALT1";
       EasebuzzGateway.cfg_baseUrl := None |}.

Definition svc_fixture : PaymentService.t :=
  {| PaymentService.easebuzz := Some gw_fixture;
     PaymentService.upigateway :=
       Some {| UPIGateway.key := Some "EKQR1"; UPIGateway.baseUrl := "https://api.ekqr.in/api" |} |}.

(** No variable of the environment is set. *)
Definition env_unset : ProcessEnv := {| NODE_ENV := None; EASEBUZZ_ENV := None |}.

Definition env_prod : ProcessEnv :=
  {| NODE_ENV := Some "production"; EASEBUZZ_ENV := Some "prod" |}.

(** The table as the specification words it: completion words to
    [success], failure words to [failed], cancellation words to
    [cancelled], anything else to [pending]. *)
Definition spec_statusTable (s : string) : TxStatus :=
  if decide (s ∈ ["success"; "completed"; "paid"]) then success
  else if decide (s ∈ ["failed"; "failure"]) then failed
  else if decide (s ∈ ["cancelled"; "canceled"]) then cancelled
  else pending.

(** The claim as stated: both adapters follow the table on every status
    string of a callback they accept. *)
Definition status_table_claim : Prop :=
  ∀ (gw : EasebuzzGateway.instance) (env : ProcessEnv) (cb : Form) (s : string),
    cb !! "status" = Some s →
    (∀ i st d, UPIGateway.handleCallback cb = CallbackOk i st d → st = spec_statusTable s)
    ∧ (∀ i st d, EasebuzzGateway.handleCallback gw env cb = CallbackOk i st d →
                 st = spec_statusTable s).

(** What the hosted-checkout adapter returns when it lets a callback
    through. *)
Definition proceeds (cb : Form) : CallbackResult :=
  CallbackOk (cb !! "txnid") (EasebuzzGateway.callbackStatus (cb !! "status")) cb.

(** What the adapter answers a status check with, for a transaction the
    payer cancelled. *)
Definition sr_cancelled : StatusResponse :=
  {| sr_success := true;
     sr_data := VObj (list_to_map [("txnid", VStr "TXN1"); ("status", VStr "cancelled")]);
     sr_transactionDetails :=
       VObj (list_to_map [("txnid", VStr "TXN1"); ("status", VStr "cancelled")]);
     sr_error := VUndef;
     sr_errorDetails := VUndef |}.

Definition cb_cancelled : Form := list_to_map [("order_id", "TXN1"); ("status", "cancelled")].

(** Verification of a callback as [handleCallback] runs it. *)
Definition verifies (gw : EasebuzzGateway.instance) (cb : Form) : bool :=
  EasebuzzGateway.verifyHash gw (EasebuzzGateway.responseData cb) (cb !! "hash").

(** The claim as stated, for a given reading [production] of which
    environments count as production: outside production a callback whose
    verification fails or is absent is let through with its normalized
    status, in production it is rejected. *)
Definition permissive_mode_claim (production : ProcessEnv → bool) : Prop :=
  ∀ gw env cb,
    verifies gw cb = false →
    (production env = false → EasebuzzGateway.handleCallback gw env cb = proceeds cb)
    ∧ (production env = true → cb_success (EasebuzzGateway.handleCallback gw env cb) = false).

(** A callback without a hash, and one whose hash is wrong. *)
Definition cb_no_hash : Form :=
  list_to_map [("txnid", "TXN1"); ("status", "success"); ("amount", "100.00")].

Definition cb_bad_hash : Form := <["hash" := "00"]> cb_no_hash.

(** A transaction as a creation against the hosted-checkout gateway leaves
    it, and one against the UPI gateway that a webhook has settled. *)
Definition tx_fixture : Transaction.t :=
  {| Transaction.userId := VObj {[ "email" := VStr "a@b.co" ]};
     Transaction.paymentMethodId := VUndef;
     Transaction.gateway := "easebuzz";
     Transaction.amount := 10000;
     Transaction.currency := "INR";
     Transaction.status := pending;
     Transaction.transactionId := Some "TXN1";
     Transaction.gatewayTransactionId := Some "PAY1";
     Transaction.paymentRequest :=
       Some (MkMap (list_to_map [("email", VStr "a@b.co");
                                 ("phone", VStr "+91 98765-43210")]));
     Transaction.paymentResponse :=
       Some (MkMap (list_to_map [("status", VNum 1); ("data", VStr "PAY1")]));
     Transaction.callbackUrl := None;
     Transaction.returnUrl := Some "https://shop.example/done";
     Transaction.createdAt := "2024-01-15T10:00:00.000Z";
     Transaction.updatedAt := "2024-01-15T10:00:00.000Z" |}.

Definition tx_settled : Transaction.t :=
  {| Transaction.userId := VStr "u2";
     Transaction.paymentMethodId := VUndef;
     Transaction.gateway := "upigateway";
     Transaction.amount := 5000;
     Transaction.currency := "INR";
     Transaction.status := success;
     Transaction.transactionId := Some "TXN2";
     Transaction.gatewayTransactionId := Some "TXN2";
     Transaction.paymentRequest := None;
     Transaction.paymentResponse :=
       Some (MkMap (list_to_map [("payment_url", VStr "https://pay/x")]));
     Transaction.callbackUrl := None;
     Transaction.returnUrl := None;
     Transaction.createdAt := "2024-01-15T10:00:00.000Z";
     Transaction.updatedAt := "2024-01-15T10:05:00.000Z" |}.

(** The first fixture as a document that holds no [paymentResponse]. *)
Definition tx_bare : Transaction.t := Transaction.set_paymentResponse None tx_fixture.

(** The entry [k] of the stored [paymentResponse]. *)
Definition responseEntry (x : Transaction.t) (k : string) : option jsval :=
  Transaction.paymentResponse x ≫= λ m, entries m !! k.

(** The query of a hosted-checkout redirect for the fixture. *)
Definition query_txn1 : Form := list_to_map [("txnid", "TXN1")].

(** [paymentResponse] carries the time stamp [now] under the key [tag]. *)
Definition tagged (tag : string) (now : Date) (x : Transaction.t) : Prop :=
  responseEntry x tag = Some (VStr now).






(** The webhook of the fixture. *)
Definition cb_webhook : Form :=
  list_to_map [("txnid", "TXN1"); ("status", "success"); ("amount", "100.00");
               ("email", "a@b.co"); ("phone", "9876543210")].

(** What the gateway answers a creation with, and the callback keyed by
    the identifier it minted. *)
Definition rd_created : jsval :=
  VObj (list_to_map [("status", VNum 1); ("data", VStr "PAY1")]).

Definition cb_minted : Form := list_to_map [("txnid", "PAY1"); ("status", "success")].

(** A time-out of the HTTP client: a rejection without a response. *)
Definition timeout_error : JsError :=
  {| err_name := "AxiosError"; err_message := "timeout of 15000ms exceeded";
     err_response := None |}.

(** The names an exception that leaves [retrieveTransactionDetails] can
    have. *)
Definition escapes (o : Outcome StatusResponse) : Prop :=
  ∃ err, o = Thrown err ∧ (err_name err = "ReferenceError" ∨ err_name err = "TypeError").

(** An upstream that answers every retrieval with a paid transaction. *)
Definition up_paid : Upstream :=
  λ _ _, Resolved (VObj (list_to_map [("txnid", VStr "TXN1"); ("status", VStr "success")])).

(** The result of a status check that the validation of the phone number
    stops. *)
Definition phoneRejected : StatusResponse :=
  {| sr_success := false; sr_data := VUndef; sr_transactionDetails := VNull;
     sr_error := VStr "Phone number must be exactly 10 digits";
     sr_errorDetails := VUndef |}.

(** The fixture with a phone number written without a country code. *)
Definition tx_local : Transaction.t :=
  {| Transaction.userId := VObj {[ "email" := VStr "a@b.co" ]};
     Transaction.paymentMethodId := VUndef;
     Transaction.gateway := "easebuzz";
     Transaction.amount := 10000;
     Transaction.currency := "INR";
     Transaction.status := pending;
     Transaction.transactionId := Some "TXN1";
     Transaction.gatewayTransactionId := Some "PAY1";
     Transaction.paymentRequest :=
       Some (MkMap (list_to_map [("email", VStr "a@b.co"); ("phone", VStr "98765-43210")]));
     Transaction.paymentResponse :=
       Some (MkMap (list_to_map [("status", VNum 1); ("data", VStr "PAY1")]));
     Transaction.callbackUrl := None;
     Transaction.returnUrl := Some "https://shop.example/done";
     Transaction.createdAt := "2024-01-15T10:00:00.000Z";
     Transaction.updatedAt := "2024-01-15T10:00:00.000Z" |}.

Definition details_paid : jsval :=
  VObj (list_to_map [("txnid", VStr "TXN1"); ("status", VStr "success")]).

(** The string [s] with the character at place [i] replaced by [c]; [s]
    itself when it has no such place. *)
Fixpoint mutate (i : nat) (c : ascii) (s : string) : string :=
  match s, i with
  | EmptyString, _ => EmptyString
  | String _ s', O => String c s'
  | String a s', S i' => String a (mutate i' c s')
  end.

(** The payload [cb] with one character of its field [k] replaced. *)
Definition mutateField (k : string) (i : nat) (c : ascii) (cb : Form) : Form :=
  alter (mutate i c) k cb.

(** [cb'] is [cb] but for one character of one field. *)
Definition single_character_mutation (cb cb' : Form) : Prop :=
  ∃ k i c, cb' = mutateField k i c cb ∧ cb' ≠ cb.

(** The known-good fixture: the webhook of the fixture, signed with the
    reverse hash for the key and salt of [gw_fixture]. *)
Definition digest_fixture : string :=
  "eb679628ca9ecdbb813370120726bc0a913cf6958368eced7eb0759d5e93b382dc69aec8264848282facae1a7e9ad920c3e1519c431e2ef07ccb245c39403aa6".

Definition cb_signed : Form := <["hash" := digest_fixture]> cb_webhook.

(** The claim as stated: the fixture verifies and no single-character
    mutation of it does. *)
Definition mutation_claim : Prop :=
  verifies gw_fixture cb_signed = true
  ∧ ∀ cb', single_character_mutation cb_signed cb' → verifies gw_fixture cb' = false.

(** Every character, as a list. *)
Definition all_ascii : list ascii := ascii_of_nat <$> seq 0 256.

(** Every replacement of one character of one hashed field of the
    fixture, by any of the 256 characters, checked one by one. *)
Definition hashed_mutations_rejected : bool :=
  forallb (λ k,
    match cb_signed !! k with
    | None => true
    | Some v =>
      forallb (λ i,
        forallb (λ c,
          String.eqb v (mutate i c v)
          || negb (verifies gw_fixture (<[k := mutate i c v]> cb_signed)))
          all_ascii)
        (seq 0 (String.length v))
    end) EasebuzzGateway.hashedFields.

(** The result of a creation that is refused with [message]. *)
Definition refused (message : string) : Outcome CreateResult :=
  Returned (NotCreated (VStr message) (VStr message)).


(** Stand-ins for the parts of the runtime that are taken as given, for
    the examples: absolute [https] addresses without a query of their
    own, whole amounts, and an opaque rendering of objects. *)
Definition url_fixture (url : string) (params : list (string * string)) : option string :=
  if prefixb "https://" url then
    match params with
    | [] => Some url
    | _ => Some (url ++ "?" ++ String.concat "&" ((λ kv, kv.1 ++ "=" ++ kv.2) <$> params))
    end
  else None.

Definition toFixed2_fixture (v : jsval) : string :=
  match v with
  | VNum n => toFixed2 (100 * n)
  | _ => "NaN"
  end.

Definition json_fixture (v : jsval) : string := "[json]".

(** A payment request, a gateway that answers every creation with
    [rd_created], and what [createPayment] then returns. *)
Definition pay_request : Obj :=
  list_to_map [("amount", VNum 100); ("txnid", VStr "TXN1"); ("email", VStr "a@b.co");
               ("phone", VStr "9876543210"); ("surl", VStr "https://shop.example/done")].

Definition up_created : Upstream := λ _ _, Resolved rd_created.

Definition created_fixture : PaymentCreated :=
  {| pc_data :=
       list_to_map [("order_id", VStr "TXN1");
                    ("payment_url", VStr "https://testpay.easebuzz.in/pay/PAY1");
                    ("client_txn_id", VStr "TXN1"); ("payment_id", VStr "PAY1")];
     pc_msg := "Payment initiated successfully";
     pc_paymentLink := VStr "https://testpay.easebuzz.in/pay/PAY1";
     pc_orderId := VStr "TXN1";
     pc_transactionId := VStr "TXN1";
     pc_gatewayTransactionId := VStr "PAY1";
     pc_rawResponse := rd_created |}.

(** The document the creation of the fixture stores, under the reference
    [TXN1]. *)
Definition tx_created : Transaction.t :=
  PaymentService.createTransaction (VStr "u1") VUndef "easebuzz" 10000 None "TXN1"
    (PaymentService.gatewayPaymentData "TXN1" pay_request) created_fixture
    None (Some "https://shop.example/done") "2024-01-15T10:00:00.000Z".

(** The environment of a deployment that names its mode [production], and
    the variables that configure the gateways. *)
Definition env_production : ProcessEnv :=
  {| NODE_ENV := Some "production"; EASEBUZZ_ENV := Some "production" |}.

Definition vars_fixture : PaymentService.Credentials :=
  {| PaymentService.EASEBUZZ_KEY := Some " KEY1 ";
     PaymentService.EASEBUZZ_SALT := Some "SALT1";
     PaymentService.EASEBUZZ_BASE_URL := None;
     PaymentService.EKQR_KEY := Some "EKQR1";
     PaymentService.UPIGATEWAY_BASE_URL := None |}.


(** A request through the UPI gateway, a gateway that answers with a
    payment page, and what [createPayment] then returns. *)
Definition upi_request : Obj :=
  list_to_map [("amount", VNum 50); ("client_txn_id", VStr "ORD7");
               ("transactionId", VStr "TXN2"); ("customerEmail", VStr "c@d.in")].

Definition upi_answer : jsval :=
  VObj (list_to_map
    [("status", VBool true);
     ("data", VObj (list_to_map [("payment_url", VStr "https://qr.example/ORD7")]))]).

Definition upJson_created : UpstreamJson := λ _ _, Resolved upi_answer.

Definition upi_fixture : UPIGateway.instance :=
  {| UPIGateway.key := Some "EKQR1"; UPIGateway.baseUrl := "https://api.ekqr.in/api" |}.

Definition upi_created_fixture : PaymentCreated :=
  {| pc_data :=
       list_to_map [("order_id", VStr "ORD7");
                    ("payment_url", VStr "https://qr.example/ORD7");
                    ("client_txn_id", VStr "ORD7")];
     pc_msg := "Payment initiated successfully";
     pc_paymentLink := VStr "https://qr.example/ORD7";
     pc_orderId := VStr "ORD7";
     pc_transactionId := VStr "ORD7";
     pc_gatewayTransactionId := VUndef;
     pc_rawResponse := upi_answer |}.

(** The result of a retrieval by date that fails with [message] before
    the gateway has answered. *)
Definition noReport (message : string) : Outcome ReportResult :=
  Returned (NoReport (VStr message)
              (list_to_map [("message", VStr message); ("status", VUndef);
                            ("response", VUndef)])).


(** The merchant of the examples, a date, and a dashboard that lists two
    transactions for every day. *)
Definition merchant_fixture : option string := Some " Shop@Example.IN ".

Definition day_fixture : jsval := VStr " 15-01-2024 ".

Definition up_listing : Upstream :=
  λ _ _, Resolved (VObj {[ "msg" := VArr [VObj {[ "txnid" := VStr "TXN1" ]};
                                          VObj {[ "txnid" := VStr "TXN2" ]}] ]}).


(** The user and the payment method of the examples, and what
    [createPayment] holds for [pay_request] once the gateway has answered:
    the request named a reference of its own, [TXN1]. *)
Definition users_fixture : list PaymentService.User :=
  [{| PaymentService.user_id := "u1"; PaymentService.paymentGateway := Some "easebuzz" |}].

Definition methods_fixture : list PaymentService.PaymentMethod :=
  [{| PaymentService.method_id := "m1"; PaymentService.method_gateway := "upigateway";
      PaymentService.isActive := true |}].

Definition initiated_fixture : PaymentService.Initiated :=
  {| PaymentService.in_gateway := VStr "easebuzz";
     PaymentService.in_transactionId := "TXN1705312800000K3J9X0Q2A";
     PaymentService.in_request :=
       PaymentService.gatewayPaymentData "TXN1705312800000K3J9X0Q2A" pay_request;
     PaymentService.in_response :=
       {| pc_data :=
            list_to_map [("order_id", VStr "TXN1705312800000K3J9X0Q2A");
                         ("payment_url", VStr "https://testpay.easebuzz.in/pay/PAY1");
                         ("client_txn_id", VStr "TXN1705312800000K3J9X0Q2A");
                         ("payment_id", VStr "PAY1")];
          pc_msg := "Payment initiated successfully";
          pc_paymentLink := VStr "https://testpay.easebuzz.in/pay/PAY1";
          pc_orderId := VStr "TXN1705312800000K3J9X0Q2A";
          pc_transactionId := VStr "TXN1705312800000K3J9X0Q2A";
          pc_gatewayTransactionId := VStr "PAY1";
          pc_rawResponse := rd_created |} |}.



(** What a stored document holds in [paymentResponse], as an object. *)
Definition storedResponse (x : Transaction.t) : Obj :=
  from_option fromEntries ∅ (Transaction.paymentResponse x).

(** The document a webhook stores when the merged object casts: the
    status of the callback, the identifier it carries, the merged
    [paymentResponse] and the time of the call. *)
Definition callbackDocument (cb : Form) (tid : option string) (st : TxStatus) (data : Form)
    (now : Date) (x : Transaction.t) : Transaction.t :=
  Transaction.set_updatedAt now
    (Transaction.set_paymentResponse
       (Some (MkMap (PaymentService.callbackResponse cb data now x)))
       (Transaction.set_gatewayTransactionId_if (or_s (PaymentService.callbackTxnId cb) tid)
          (Transaction.set_status st x))).

(** The claim as stated, on a replayed webhook: the second processing
    leaves the status as the first made it and appends an entry, so that
    [paymentResponse] then holds a key it did not hold before. *)
Definition replay_appends_claim : Prop :=
  ∀ svc env gatewayName cb t1 t2 db db1 o1 db2 o2,
    PaymentService.handleCallback svc env gatewayName cb t1 db = Returned (db1, o1) →
    PaymentService.handleCallback svc env gatewayName cb t2 db1 = Returned (db2, o2) →
    Transaction.status (PaymentService.co_transaction o2)
    = Transaction.status (PaymentService.co_transaction o1)
    ∧ ∃ k, (k ∉ Transaction.responseKeys (PaymentService.co_transaction o1))
           ∧ k ∈ Transaction.responseKeys (PaymentService.co_transaction o2).


(** No document of [db] other than the one at place [i] bears [p], and
    none bears it as its reference. *)
Definition onlyAt (i : nat) (p : string) (db : Store) : Prop :=
  ∀ j y, db !! j = Some y →
         Transaction.transactionId y ≠ Some p
         ∧ (j ≠ i → Transaction.gatewayTransactionId y ≠ Some p).


(** The paths that say which payment a transaction is: its reference, its
    gateway, its amount and currency, its owner, the request it was
    created from and the time of its creation. *)
Definition sameIdentity (x x' : Transaction.t) : Prop :=
  Transaction.transactionId x' = Transaction.transactionId x
  ∧ Transaction.gateway x' = Transaction.gateway x
  ∧ Transaction.amount x' = Transaction.amount x
  ∧ Transaction.currency x' = Transaction.currency x
  ∧ Transaction.userId x' = Transaction.userId x
  ∧ Transaction.paymentRequest x' = Transaction.paymentRequest x
  ∧ Transaction.createdAt x' = Transaction.createdAt x.

(** [db'] holds the same payments as [db], place by place. *)
Definition samePayments (db db' : Store) : Prop := Forall2 sameIdentity db db'.


(** What a webhook route answers when it has processed the webhook, and
    when it refuses it with [message]. *)
Definition webhookProcessed : Routes.Response :=
  Routes.answer 200 true "Webhook processed successfully".

Definition webhookRefused (message : string) : Routes.Response :=
  Routes.answer 500 false message.

(** A webhook of the hosted-checkout gateway that names the settled UPI
    transaction and reports it as pending. *)
Definition cb_late : Form := list_to_map [("txnid", "TXN2"); ("status", "pending")].

(** A dashboard whose first retrieval endpoint is out of order. *)
Definition up_v1_down : Upstream :=
  λ url _,
    if String.eqb url "https://dashboard.easebuzz.in/transaction/v1/retrieve"
    then Rejected timeout_error
    else Resolved details_paid.

(** The query of a UPI redirect for the first fixture, and a webhook of
    the UPI gateway that reports the settled fixture as refunded. *)
Definition query_upi1 : Form := list_to_map [("client_txn_id", "TXN1"); ("status", "paid")].

Definition cb_upi : Form := list_to_map [("client_txn_id", "TXN2"); ("status", "refunded")].




(** * Properties *)

(** ** The digest function on known vectors *)

Example sha512_abc :
  Sha512.sha512 "abc"
  = "ddaf35a193617abacc417349ae20413112e6fa4e89a97ea20a9eeee64b55d39a2192992a274fc1a836ba3c23a3feebbd454d4423643ce80e2a9ac94fa54ca49f".
Proof. vm_compute. reflexivity. Qed.

Example sha512_empty :
  Sha512.sha512 ""
  = "cf83e1357eefb8bdf1542850d66d8007d620e4050b5715dc83f4a921d36ce9ce47d0d13c5d85f2b0ff8318d2877eec2f63b931bd47417a81a538327af927da3e".
Proof. vm_compute. reflexivity. Qed.

(** A message of 112 bytes, which takes two blocks. *)
Example sha512_two_blocks :
  Sha512.sha512 (string_of_list_ascii (replicate 112 "a"%char))
  = "c01d080efd492776a1c43bd23dd99d0a2e626d481e16782e75d54c2503b5dc32bd05f0f1ba33e568b88fd2d970929b719ecbb152f58f130a407c8830604b70ca".
Proof. vm_compute. reflexivity. Qed.

(** ** The status tables (C1) *)

Lemma eqb_decide (a b : string) : String.eqb a b = bool_decide (a = b).
Proof.
  destruct (String.eqb_spec a b) as [->|Hne].
  - by rewrite bool_decide_eq_true_2.
  - by rewrite bool_decide_eq_false_2.
Qed.

Lemma env_is_Some (s lit : string) : env_is (Some s) lit = bool_decide (s = lit).
Proof. apply eqb_decide. Qed.

Lemma is_str_VStr (s lit : string) : is_str (VStr s) lit = bool_decide (s = lit).
Proof. apply eqb_decide. Qed.

Lemma truthy_VStr (s : string) : truthy (VStr s) = bool_decide (s ≠ "").
Proof. simpl. by rewrite eqb_decide, bool_decide_not. Qed.

(** The table of the UPI adapter: completion words to [success], every
    other string to [failed]. *)
Lemma upi_callbackStatus (s : string) :
  UPIGateway.callbackStatus (Some s)
  = if decide (s ∈ ["success"; "completed"; "paid"]) then success else failed.
Proof.
  unfold UPIGateway.callbackStatus. rewrite !env_is_Some.
  case_decide as H.
  - set_unfold. destruct H as [->|[->|[->|[]]]]; reflexivity.
  - rewrite !bool_decide_eq_false_2; [done|..]; intros ->; apply H; set_solver.
Qed.

(** The table of the hosted-checkout adapter: ["success"] to [success],
    ["failure"] to [failed], every other string to [pending]. *)
Lemma easebuzz_callbackStatus (s : string) :
  EasebuzzGateway.callbackStatus (Some s)
  = if decide (s = "success") then success
    else if decide (s = "failure") then failed else pending.
Proof.
  unfold EasebuzzGateway.callbackStatus. rewrite !env_is_Some.
  repeat case_bool_decide; repeat case_decide; subst; done.
Qed.

(** The table of the poll and retrieval paths is the full one. *)
Lemma mapGatewayStatus_table (s : string) :
  mapGatewayStatus (VStr s) = spec_statusTable s.
Proof.
  unfold mapGatewayStatus, spec_statusTable. rewrite !is_str_VStr.
  case_decide as H1.
  { set_unfold. destruct H1 as [->|[->|[->|[]]]]; reflexivity. }
  rewrite (bool_decide_eq_false_2 (s = "success")) by (intros ->; apply H1; set_solver).
  rewrite (bool_decide_eq_false_2 (s = "completed")) by (intros ->; apply H1; set_solver).
  rewrite (bool_decide_eq_false_2 (s = "paid")) by (intros ->; apply H1; set_solver).
  simpl. case_decide as H2.
  { set_unfold. destruct H2 as [->|[->|[]]]; reflexivity. }
  rewrite (bool_decide_eq_false_2 (s = "failed")) by (intros ->; apply H2; set_solver).
  rewrite (bool_decide_eq_false_2 (s = "failure")) by (intros ->; apply H2; set_solver).
  simpl. case_decide as H3.
  { set_unfold. destruct H3 as [->|[->|[]]]; reflexivity. }
  rewrite (bool_decide_eq_false_2 (s = "cancelled")) by (intros ->; apply H3; set_solver).
  rewrite (bool_decide_eq_false_2 (s = "canceled")) by (intros ->; apply H3; set_solver).
  reflexivity.
Qed.

Lemma easebuzz_handleCallback_cases gw env cb :
  EasebuzzGateway.handleCallback gw env cb = proceeds cb
  ∨ EasebuzzGateway.handleCallback gw env cb = CallbackFail "Invalid hash verification"
  ∨ EasebuzzGateway.handleCallback gw env cb
    = CallbackFail "Hash is required for callback verification".
Proof.
  unfold EasebuzzGateway.handleCallback, proceeds.
  repeat case_match; auto.
Qed.

(** *** Assignments to a document, path by path *)

Lemma status_set_status_if_changed s x :
  Transaction.status (Transaction.set_status_if_changed s x) = s.
Proof.
  unfold Transaction.set_status_if_changed. case_decide as H; [done|]. exact H.
Qed.

Lemma status_set_gatewayTransactionId_if i x :
  Transaction.status (Transaction.set_gatewayTransactionId_if i x) = Transaction.status x.
Proof. unfold Transaction.set_gatewayTransactionId_if. by case_match. Qed.

Lemma status_set_gatewayTransactionId_val v x :
  Transaction.status (Transaction.set_gatewayTransactionId_val v x) = Transaction.status x.
Proof. unfold Transaction.set_gatewayTransactionId_val. by case_match. Qed.


Lemma paymentResponse_set_gatewayTransactionId_if i x :
  Transaction.paymentResponse (Transaction.set_gatewayTransactionId_if i x)
  = Transaction.paymentResponse x.
Proof. unfold Transaction.set_gatewayTransactionId_if. by case_match. Qed.


Lemma transactionId_set_gatewayTransactionId_if i x :
  Transaction.transactionId (Transaction.set_gatewayTransactionId_if i x)
  = Transaction.transactionId x.
Proof. unfold Transaction.set_gatewayTransactionId_if. by case_match. Qed.

Lemma js_or_truthy a b : truthy a = true → js_or a b = a.
Proof. unfold js_or. by intros ->. Qed.

Lemma get_VStr_truthy v k s : get v k = VStr s → truthy v = true.
Proof. by destruct v. Qed.

(** The status the poll path stores when the gateway reports the
    non-empty status string [s]. *)
Lemma applyStatusResponse_status sr now x s :
  sr_success sr = true →
  get (PaymentService.transactionDetailsOf sr) "status" = VStr s →
  s ≠ "" →
  ∃ x', PaymentService.applyStatusResponse sr now x = Some x'
        ∧ Transaction.status x' = mapGatewayStatus (VStr s).
Proof.
  intros Hok Hs Hne.
  unfold PaymentService.applyStatusResponse, PaymentService.gatewayStatusOf.
  rewrite Hok, Hs.
  assert (Ht : truthy (VStr s) = true) by (rewrite truthy_VStr; by apply bool_decide_eq_true_2).
  rewrite !(js_or_truthy (VStr s)) by done. rewrite Ht.
  rewrite (get_VStr_truthy _ _ _ Hs), orb_true_r.
  eexists; split; [reflexivity|]. simpl.
  by rewrite status_set_gatewayTransactionId_val, status_set_status_if_changed.
Qed.

(** C1, counterexample.  A UPI callback whose status is ["cancelled"] is
    given [failed], and a hosted-checkout callback whose status is
    ["completed"] is given [pending], where the table of the claim gives
    [cancelled] and [success]. *)
Lemma status_table_counterexample :
  UPIGateway.handleCallback (list_to_map [("order_id", "TXN1"); ("status", "cancelled")])
  = CallbackOk (Some "TXN1") failed (list_to_map [("order_id", "TXN1"); ("status", "cancelled")])
  ∧ spec_statusTable "cancelled" = cancelled
  ∧ EasebuzzGateway.handleCallback gw_fixture env_unset
      (list_to_map [("txnid", "TXN1"); ("status", "completed")])
    = CallbackOk (Some "TXN1") pending (list_to_map [("txnid", "TXN1"); ("status", "completed")])
  ∧ spec_statusTable "completed" = success
  ∧ ¬ status_table_claim.
Proof.
  split; [vm_compute; reflexivity|]. split; [vm_compute; reflexivity|].
  split; [vm_compute; reflexivity|]. split; [vm_compute; reflexivity|].
  intros Hclaim.
  destruct (Hclaim gw_fixture env_unset
              (list_to_map [("order_id", "TXN1"); ("status", "cancelled")]) "cancelled")
    as [Hupi _]; [vm_compute; reflexivity|].
  assert (Hst : failed = spec_statusTable "cancelled")
    by (apply (Hupi (Some "TXN1") failed
                 (list_to_map [("order_id", "TXN1"); ("status", "cancelled")]));
        vm_compute; reflexivity).
  vm_compute in Hst. discriminate.
Qed.

(** C1, as amended.  On a callback whose status is the string [s]: the UPI
    adapter returns [success] when [s] is "success", "completed" or "paid"
    and [failed] for every other string; the hosted-checkout adapter, when
    it lets the callback through, returns [success] for "success", [failed]
    for "failure" and [pending] for every other string, and it lets the
    callback through when it carries no hash and the environment is not the
    strict one; the poll path stores the status of the full table
    (completion, failure and cancellation words, else [pending]) for every
    non-empty [s] the gateway reports. *)
Theorem status_mapping_per_path (cb : Form) (s : string) (Hs : cb !! "status" = Some s) :
  UPIGateway.handleCallback cb
  = CallbackOk (or_s (cb !! "client_txn_id") (cb !! "order_id"))
      (if decide (s ∈ ["success"; "completed"; "paid"]) then success else failed) cb
  ∧ (∀ gw env,
       (∃ e, EasebuzzGateway.handleCallback gw env cb = CallbackFail e)
       ∨ EasebuzzGateway.handleCallback gw env cb
         = CallbackOk (cb !! "txnid")
             (if decide (s = "success") then success
              else if decide (s = "failure") then failed else pending) cb)
  ∧ (∀ gw, truthy_s (cb !! "hash") = false →
       EasebuzzGateway.handleCallback gw env_unset cb
       = CallbackOk (cb !! "txnid")
           (if decide (s = "success") then success
            else if decide (s = "failure") then failed else pending) cb)
  ∧ (∀ sr now x,
       sr_success sr = true →
       get (PaymentService.transactionDetailsOf sr) "status" = VStr s →
       s ≠ "" →
       ∃ x', PaymentService.applyStatusResponse sr now x = Some x'
             ∧ Transaction.status x' = spec_statusTable s).
Proof.
  split; [|split; [|split]].
  - unfold UPIGateway.handleCallback. by rewrite Hs, upi_callbackStatus.
  - intros gw env. rewrite <- easebuzz_callbackStatus, <- Hs.
    destruct (easebuzz_handleCallback_cases gw env cb) as [H|[H|H]]; eauto.
  - intros gw Hh. rewrite <- easebuzz_callbackStatus, <- Hs.
    unfold EasebuzzGateway.handleCallback. by rewrite Hh.
  - intros sr now x Hok Hget Hne.
    destruct (applyStatusResponse_status sr now x s Hok Hget Hne) as (x' & Hx & Hst).
    exists x'. by rewrite <- mapGatewayStatus_table.
Qed.

(** The amended tables at the status ["cancelled"]: [failed] from the UPI
    adapter, [pending] from the hosted-checkout adapter, [cancelled] from
    the poll. *)
Lemma status_mapping_per_path_witness :
  UPIGateway.handleCallback cb_cancelled = CallbackOk (Some "TXN1") failed cb_cancelled
  ∧ EasebuzzGateway.handleCallback gw_fixture env_unset cb_cancelled
    = CallbackOk None pending cb_cancelled
  ∧ ∃ x', PaymentService.applyStatusResponse sr_cancelled "2024-01-15T10:08:00.000Z" tx_fixture
          = Some x'
          ∧ Transaction.status x' = cancelled.
Proof.
  destruct (status_mapping_per_path cb_cancelled "cancelled" ltac:(vm_compute; reflexivity))
    as (Hupi & _ & Heb & Hpoll).
  split; [exact Hupi|]. split.
  - apply (Heb gw_fixture). vm_compute; reflexivity.
  - apply (Hpoll sr_cancelled "2024-01-15T10:08:00.000Z" tx_fixture).
    + reflexivity.
    + vm_compute; reflexivity.
    + discriminate.
Defined.

(** ** Hash verification and the deployment mode (C7) *)

Lemma verifies_no_hash gw cb : truthy_s (cb !! "hash") = false → verifies gw cb = false.
Proof.
  unfold verifies, EasebuzzGateway.verifyHash. intros H.
  destruct (cb !! "hash"); [by rewrite H|done].
Qed.

(** C7, counterexample.  With neither [NODE_ENV] nor [EASEBUZZ_ENV] set, a
    callback with a wrong hash is rejected and a callback without a hash is
    let through: whichever mode that environment is counted as, one half of
    the claim fails there. *)
Lemma permissive_mode_counterexample :
  EasebuzzGateway.handleCallback gw_fixture env_unset cb_bad_hash
  = CallbackFail "Invalid hash verification"
  ∧ EasebuzzGateway.handleCallback gw_fixture env_unset cb_no_hash = proceeds cb_no_hash
  ∧ ¬ ∃ production, permissive_mode_claim production.
Proof.
  assert (Hbad : EasebuzzGateway.handleCallback gw_fixture env_unset cb_bad_hash
                 = CallbackFail "Invalid hash verification") by (vm_compute; reflexivity).
  assert (Hno : EasebuzzGateway.handleCallback gw_fixture env_unset cb_no_hash
                = proceeds cb_no_hash) by (vm_compute; reflexivity).
  split; [done|]. split; [done|].
  intros [production Hclaim].
  destruct (production env_unset) eqn:Hp.
  - destruct (Hclaim gw_fixture env_unset cb_no_hash) as [_ H]; [by vm_compute|].
    specialize (H Hp). rewrite Hno in H. discriminate.
  - destruct (Hclaim gw_fixture env_unset cb_bad_hash) as [H _]; [by vm_compute|].
    specialize (H Hp). rewrite Hbad in H. discriminate.
Qed.

(** C7, as amended.  A callback is rejected exactly when it carries no
    hash while [NODE_ENV] is "production" and [EASEBUZZ_ENV] is "prod", or
    carries a hash that does not verify while neither [NODE_ENV] is
    "development" nor [EASEBUZZ_ENV] is "test"; in every other case it is
    let through with its normalized status. *)
Theorem hash_policy (gw : EasebuzzGateway.instance) (env : ProcessEnv) (cb : Form) :
  let strict := NODE_ENV env = Some "production" ∧ EASEBUZZ_ENV env = Some "prod" in
  let lenient := NODE_ENV env = Some "development" ∨ EASEBUZZ_ENV env = Some "test" in
  let rejected :=
    (truthy_s (cb !! "hash") = false ∧ strict)
    ∨ (truthy_s (cb !! "hash") = true ∧ verifies gw cb = false ∧ ¬ lenient) in
  (rejected → cb_success (EasebuzzGateway.handleCallback gw env cb) = false)
  ∧ (¬ rejected → EasebuzzGateway.handleCallback gw env cb = proceeds cb).
Proof.
  assert (Hnode : ∀ v lit, env_is v lit = bool_decide (v = Some lit)).
  { intros [v|] lit.
    - simpl. rewrite eqb_decide. apply bool_decide_ext. naive_solver.
    - symmetry. apply bool_decide_eq_false_2. discriminate. }
  cbv zeta. unfold EasebuzzGateway.handleCallback, proceeds, verifies.
  rewrite !Hnode.
  destruct (truthy_s (cb !! "hash")) eqn:Hh.
  - destruct (EasebuzzGateway.verifyHash _ _ _) eqn:Hv.
    { split; [|done]. intros [[? _]|(_ & ? & _)]; discriminate. }
    destruct (decide (NODE_ENV env = Some "development")) as [Hd|Hd].
    { rewrite (bool_decide_eq_true_2 _ Hd). simpl. split; [|done].
      intros [[? _]|(_ & _ & Hn)]; [discriminate|]. destruct Hn. by left. }
    rewrite (bool_decide_eq_false_2 _ Hd). simpl.
    destruct (decide (EASEBUZZ_ENV env = Some "test")) as [Ht|Ht].
    { rewrite (bool_decide_eq_true_2 _ Ht). split; [|done].
      intros [[? _]|(_ & _ & Hn)]; [discriminate|]. destruct Hn. by right. }
    rewrite (bool_decide_eq_false_2 _ Ht). split; [done|].
    intros Hn. destruct Hn. right. split; [done|]. split; [done|]. by intros [?|?].
  - destruct (decide (NODE_ENV env = Some "production")) as [Hp|Hp].
    + rewrite (bool_decide_eq_true_2 _ Hp). simpl.
      destruct (decide (EASEBUZZ_ENV env = Some "prod")) as [He|He].
      * rewrite (bool_decide_eq_true_2 _ He). split; [done|].
        intros Hn. destruct Hn. by left.
      * rewrite (bool_decide_eq_false_2 _ He). split; [|done].
        intros [(_ & _ & ?)|[? _]]; [done|discriminate].
    + rewrite (bool_decide_eq_false_2 _ Hp). simpl. split; [|done].
      intros [(_ & ? & _)|[? _]]; [done|discriminate].
Qed.

(** The policy at work: in the strict environment a callback without a
    hash is rejected; with no variable set a wrong hash is rejected too,
    and a missing one is let through. *)
Lemma hash_policy_witness :
  cb_success (EasebuzzGateway.handleCallback gw_fixture env_prod cb_no_hash) = false
  ∧ cb_success (EasebuzzGateway.handleCallback gw_fixture env_unset cb_bad_hash) = false
  ∧ EasebuzzGateway.handleCallback gw_fixture env_unset cb_no_hash = proceeds cb_no_hash.
Proof.
  split; [|split].
  - apply (proj1 (hash_policy gw_fixture env_prod cb_no_hash)).
    left. split; [reflexivity|]. split; reflexivity.
  - apply (proj1 (hash_policy gw_fixture env_unset cb_bad_hash)).
    right. split; [reflexivity|]. split; [vm_compute; reflexivity|].
    intros [H|H]; discriminate H.
  - apply (proj2 (hash_policy gw_fixture env_unset cb_no_hash)).
    intros [[_ [H _]]|[H _]]; discriminate H.
Defined.

(** ** Reconciliation of the stored document (C2, C3, C10) *)

Lemma responseKeys_entry x k : k ∈ Transaction.responseKeys x ↔ is_Some (responseEntry x k).
Proof.
  unfold Transaction.responseKeys, responseEntry.
  destruct (Transaction.paymentResponse x) as [m|]; simpl.
  - apply elem_of_dom.
  - split; [set_solver|]. by intros [? ?].
Qed.

Lemma findOne_lookup P `{∀ x, Decision (P x)} (db : Store) i x :
  findOne P db = Some (i, x) → db !! i = Some x ∧ P x.
Proof. unfold findOne. rewrite list_find_Some. by intros (? & ? & _). Qed.

Lemma save_lookup (db : Store) i x y : db !! i = Some x → save i y db !! i = Some y.
Proof.
  intros H. unfold save. apply list_lookup_insert_eq. by apply lookup_lt_Some in H.
Qed.

(** *** Assigning to a path of type [Map] *)

Lemma validKeys_spec {A} (o : gmap string A) :
  validKeys o ↔ ∀ k, is_Some (o !! k) → validKey k = true.
Proof.
  split.
  - intros Ho k [v Hv]. exact (Ho k v Hv).
  - intros Ho k v Hv. apply Ho. by eexists.
Qed.

Lemma validKeys_insert {A} k (v : A) (o : gmap string A) :
  validKeys (<[k := v]> o) ↔ validKey k = true ∧ validKeys o.
Proof.
  rewrite !validKeys_spec. split.
  - intros H. split.
    + apply H. rewrite lookup_insert_eq. by eexists.
    + intros k' Hk'. apply H. rewrite lookup_insert_is_Some.
      destruct (decide (k = k')); [by left|by right].
  - intros [Hk Ho] k' Hk'. apply lookup_insert_is_Some in Hk' as [<-|[_ Hk']]; [done|].
    by apply Ho.
Qed.

Lemma validKeys_union {A} (a b : gmap string A) :
  validKeys (a ∪ b) ↔ validKeys a ∧ validKeys b.
Proof.
  rewrite !validKeys_spec. split.
  - intros H. split; intros k Hk; apply H; rewrite lookup_union_is_Some; [by left|by right].
  - intros [Ha Hb] k Hk. apply lookup_union_is_Some in Hk as [Hk|Hk]; [by apply Ha|by apply Hb].
Qed.

Lemma validKeys_obj_of_form (f : Form) : validKeys (obj_of_form f) ↔ validKeys f.
Proof. unfold validKeys, obj_of_form. by rewrite map_Forall_fmap. Qed.

Lemma validKeys_empty {A} : validKeys (∅ : gmap string A).
Proof. apply map_Forall_empty. Qed.

Lemma assignResponse_valid o x :
  validKeys o →
  assignResponse o x = Returned (Transaction.set_paymentResponse (Some (MkMap o)) x).
Proof. intros Ho. unfold assignResponse, castMap. by rewrite decide_True. Qed.

Lemma assignResponse_invalid o x k :
  is_Some (o !! k) → validKey k = false →
  assignResponse o x = Thrown (validationError "paymentResponse").
Proof.
  intros Hk Hbad. unfold assignResponse, castMap. rewrite decide_False; [done|].
  intros Ho. rewrite validKeys_spec in Ho. apply Ho in Hk. congruence.
Qed.

Lemma assignResponse_inv o x x' :
  assignResponse o x = Returned x' →
  validKeys o ∧ x' = Transaction.set_paymentResponse (Some (MkMap o)) x.
Proof.
  unfold assignResponse, castMap. case_decide; [|discriminate].
  by intros [= <-].
Qed.

(** *** The redirect paths *)

(** The object a redirect handler assigns holds [$__parent] as soon as the
    document holds a map. *)
Lemma spreadMap_parent path m : is_Some (spreadMap path (Some m) !! "$__parent").
Proof. by eexists. Qed.

Lemma spreadMap_None path : spreadMap path None = ∅.
Proof. done. Qed.

(** A document that holds a [paymentResponse] is not written by the
    hosted-checkout and failure redirects: the cast of the spread map is
    refused. *)
Lemma redirectMerge_stored query now x :
  is_Some (Transaction.paymentResponse x) →
  Routes.redirectMerge query now x = Thrown (validationError "paymentResponse").
Proof.
  intros [m Hm]. unfold Routes.redirectMerge. rewrite Hm.
  rewrite (assignResponse_invalid _ _ "$__parent"); [done| |done].
  unfold with_prop, spread. rewrite lookup_insert_ne by done.
  rewrite lookup_union. destruct (obj_of_form query !! "$__parent"); by eexists.
Qed.

(** A document that holds none is written, with the query and the time
    of the redirect, when the query casts. *)
Lemma redirectMerge_fresh query now x :
  Transaction.paymentResponse x = None →
  validKeys query →
  Routes.redirectMerge query now x
  = Returned (Transaction.set_updatedAt now
                (Transaction.set_paymentResponse
                   (Some (MkMap (<["redirect_date" := VStr now]> (obj_of_form query)))) x)).
Proof.
  intros Hm Hq. unfold Routes.redirectMerge. rewrite Hm, spreadMap_None.
  unfold with_prop, spread. rewrite (right_id_L ∅ (∪)).
  rewrite assignResponse_valid; [done|].
  apply validKeys_insert. split; [done|]. by apply validKeys_obj_of_form.
Qed.

Lemma redirectMerge_inv query now x x' :
  Routes.redirectMerge query now x = Returned x' →
  Transaction.paymentResponse x = None
  ∧ validKeys query
  ∧ x' = Transaction.set_updatedAt now
           (Transaction.set_paymentResponse
              (Some (MkMap (<["redirect_date" := VStr now]> (obj_of_form query)))) x).
Proof.
  intros H. destruct (Transaction.paymentResponse x) as [m|] eqn:Hm.
  { rewrite redirectMerge_stored in H by (by rewrite Hm). discriminate. }
  split; [done|]. unfold Routes.redirectMerge in H. rewrite Hm, spreadMap_None in H.
  unfold with_prop, spread in H. rewrite (right_id_L ∅ (∪)) in H.
  destruct (assignResponse _ x) as [y|] eqn:Ha; [|discriminate].
  apply assignResponse_inv in Ha as [Hv ->]. injection H as <-.
  split; [|done]. apply validKeys_obj_of_form. by apply validKeys_insert in Hv as [_ ?].
Qed.

(** The UPI redirect merges fixed names only: a document that holds no
    [paymentResponse] is always written, one that holds a map never. *)
Lemma upiRedirectMerge_stored c t s now x :
  is_Some (Transaction.paymentResponse x) →
  Routes.upiRedirectMerge c t s now x = Thrown (validationError "paymentResponse").
Proof.
  intros [m Hm]. unfold Routes.upiRedirectMerge.
  rewrite paymentResponse_set_gatewayTransactionId_if, Hm.
  by rewrite (assignResponse_invalid _ _ "$__parent").
Qed.

Lemma upiRedirectMerge_fresh c t s now x :
  Transaction.paymentResponse x = None →
  Routes.upiRedirectMerge c t s now x
  = Returned
      (Transaction.set_updatedAt now
         (Transaction.set_paymentResponse
            (Some (MkMap (list_to_map
               [("redirect_date", VStr now); ("status", VStr s);
                ("txn_id", Routes.prop_of t); ("client_txn_id", Routes.prop_of c)])))
            (Transaction.set_gatewayTransactionId_if t x))).
Proof.
  intros Hm. unfold Routes.upiRedirectMerge.
  rewrite paymentResponse_set_gatewayTransactionId_if, Hm, spreadMap_None.
  rewrite assignResponse_valid; [done|].
  unfold with_prop. rewrite !validKeys_insert. repeat split. apply validKeys_empty.
Qed.

Lemma upiRedirectMerge_inv c t s now x x' :
  Routes.upiRedirectMerge c t s now x = Returned x' →
  Transaction.paymentResponse x = None
  ∧ Transaction.status x' = Transaction.status x
  ∧ tagged "redirect_date" now x'.
Proof.
  intros H. destruct (Transaction.paymentResponse x) as [m|] eqn:Hm.
  { rewrite upiRedirectMerge_stored in H by (by rewrite Hm). discriminate. }
  rewrite upiRedirectMerge_fresh in H by done. injection H as <-.
  split; [done|]. split; [apply status_set_gatewayTransactionId_if|done].
Qed.

(** What [/failure] leaves in the collection, and what it answers. *)
Lemma appFailure_found query now db i x :
  Routes.failureLookup query db = Some (i, x) →
  Routes.appFailure query now db
  = if decide (Transaction.status x ≠ failed)
    then Routes.saved i
           (Routes.redirectMerge query now
              (Transaction.set_gatewayTransactionId_if
                 (or_s (query !! "txn_id") (query !! "txnid"))
                 (Transaction.set_status failed x)))
           Routes.paymentFailed "Failed to process payment failure" db
    else (Routes.paymentFailed, db).
Proof. intros H. unfold Routes.appFailure. rewrite H. by case_decide. Qed.

Lemma failureLookup_lookup query db i x :
  Routes.failureLookup query db = Some (i, x) → db !! i = Some x.
Proof.
  unfold Routes.failureLookup. intros H.
  repeat case_match; try done; by apply findOne_lookup in H as [? _].
Qed.

(** C10, at the failing input and around it.  For a transaction the
    [/failure] handler finds: when its stored status is already [failed],
    the handler answers and leaves the collection as it is.  When it is
    not, the handler sets [failed], whatever the query says about the
    status, only for a document that holds no [paymentResponse] yet; for
    a document that holds one — as every document a creation stores does —
    the write is rejected: the handler answers 500 and the stored status
    stays what it was. *)
Theorem failure_redirect (query : Form) (now : Date) (db : Store) (i : nat)
    (x : Transaction.t) (Hfound : Routes.failureLookup query db = Some (i, x)) :
  (Transaction.status x = failed →
     Routes.appFailure query now db = (Routes.paymentFailed, db))
  ∧ (Transaction.status x ≠ failed → is_Some (Transaction.paymentResponse x) →
     Routes.res_code (Routes.appFailure query now db).1 = 500%nat
     ∧ (Routes.appFailure query now db).2 = db
     ∧ db !! i = Some x)
  ∧ (Transaction.status x ≠ failed → Transaction.paymentResponse x = None →
     validKeys query →
     ∀ s, ∃ x',
       Routes.appFailure (<["status" := s]> query) now db
       = (Routes.paymentFailed, save i x' db)
       ∧ Transaction.status x' = failed).
Proof.
  split; [|split].
  - intros Heq. rewrite (appFailure_found _ _ _ _ _ Hfound).
    by rewrite decide_False by (by intros ?).
  - intros Hne Hm. rewrite (appFailure_found _ _ _ _ _ Hfound), decide_True by done.
    rewrite redirectMerge_stored
      by (by rewrite paymentResponse_set_gatewayTransactionId_if).
    split; [done|]. split; [done|]. by eapply failureLookup_lookup.
  - intros Hne Hm Hq s.
    assert (Hfound' : Routes.failureLookup (<["status" := s]> query) db = Some (i, x)).
    { unfold Routes.failureLookup in *. by rewrite !lookup_insert_ne. }
    rewrite (appFailure_found _ _ _ _ _ Hfound'), decide_True by done.
    rewrite redirectMerge_fresh.
    + eexists. split; [reflexivity|].
      cbn [Transaction.status Transaction.set_updatedAt Transaction.set_paymentResponse].
      by rewrite status_set_gatewayTransactionId_if.
    + by rewrite paymentResponse_set_gatewayTransactionId_if.
    + apply validKeys_insert. by split.
Qed.

Ltac valid_keys :=
  match goal with
  | |- validKeys ?o => exact (bool_decide_unpack (validKeys o) I)
  end.

(** The pending fixture is refused; a second redirect of a failed
    transaction writes nothing; the same transaction stored without a
    [paymentResponse] is failed by a redirect that reports success. *)
Lemma failure_redirect_witness :
  (Routes.res_code
     (Routes.appFailure query_txn1 "2024-01-15T10:06:00.000Z" [tx_fixture]).1 = 500%nat
   ∧ (Routes.appFailure query_txn1 "2024-01-15T10:06:00.000Z" [tx_fixture]).2 = [tx_fixture]
   ∧ [tx_fixture] !! 0%nat = Some tx_fixture)
  ∧ Routes.appFailure query_txn1 "2024-01-15T10:07:00.000Z"
      [Transaction.set_status failed tx_fixture]
    = (Routes.paymentFailed, [Transaction.set_status failed tx_fixture])
  ∧ ∃ x',
      Routes.appFailure (<["status" := "success"]> query_txn1) "2024-01-15T10:06:00.000Z"
        [tx_bare]
      = (Routes.paymentFailed, save 0 x' [tx_bare])
      ∧ Transaction.status x' = failed.
Proof.
  split; [|split].
  - apply (proj1 (proj2 (failure_redirect query_txn1 "2024-01-15T10:06:00.000Z" [tx_fixture]
                           0 tx_fixture ltac:(reflexivity))));
      [discriminate|by eexists].
  - apply (proj1 (failure_redirect query_txn1 "2024-01-15T10:07:00.000Z"
                    [Transaction.set_status failed tx_fixture]
                    0 (Transaction.set_status failed tx_fixture) ltac:(reflexivity))).
    reflexivity.
  - apply (proj2 (proj2 (failure_redirect query_txn1 "2024-01-15T10:06:00.000Z" [tx_bare]
                           0 tx_bare ltac:(reflexivity))));
      [discriminate|reflexivity|valid_keys].
Defined.

(** *** The webhook path *)

Lemma findCallbackTransaction_lookup db tid cb i x :
  PaymentService.findCallbackTransaction db tid cb = Some (i, x) → db !! i = Some x.
Proof.
  unfold PaymentService.findCallbackTransaction. intros Hf.
  destruct (findOne (λ y, Transaction.transactionId y = tid) db) as [r|] eqn:H1.
  - injection Hf as ->. by apply findOne_lookup in H1 as [? _].
  - destruct (truthy_s (PaymentService.callbackTxnId cb)); [|discriminate].
    by apply findOne_lookup in Hf as [? _].
Qed.

(** The merged object casts exactly when the names of the callback and
    the keys the document holds do. *)
Lemma callbackResponse_valid cb data now x :
  validKeys (PaymentService.callbackResponse cb data now x)
  ↔ validKeys data ∧ validKeys (storedResponse x).
Proof.
  unfold PaymentService.callbackResponse, with_prop, spread, storedResponse.
  rewrite !validKeys_insert, validKeys_union, validKeys_obj_of_form. naive_solver.
Qed.

Lemma applyCallback_spec cb tid st data now x x' :
  PaymentService.applyCallback cb tid st data now x = Returned x'
  ↔ validKeys data ∧ validKeys (storedResponse x)
    ∧ x' = callbackDocument cb tid st data now x.
Proof.
  unfold PaymentService.applyCallback, callbackDocument.
  set (y := Transaction.set_gatewayTransactionId_if _ (Transaction.set_status st x)).
  assert (Hy : PaymentService.callbackResponse cb data now y
               = PaymentService.callbackResponse cb data now x).
  { unfold PaymentService.callbackResponse. subst y.
    by rewrite paymentResponse_set_gatewayTransactionId_if. }
  rewrite Hy. split.
  - intros H. destruct (assignResponse _ y) as [z|] eqn:Ha; [|discriminate].
    apply assignResponse_inv in Ha as [Hv ->]. injection H as <-.
    by apply callbackResponse_valid in Hv as [? ?].
  - intros (Hd & Hs & ->). rewrite assignResponse_valid; [done|].
    by apply callbackResponse_valid.
Qed.

Lemma applyCallback_valid cb tid st data now x :
  validKeys data → validKeys (storedResponse x) →
  PaymentService.applyCallback cb tid st data now x
  = Returned (callbackDocument cb tid st data now x).
Proof. intros. by apply applyCallback_spec. Qed.

Lemma handleCallback_inv svc env gatewayName cb now db db' out :
  PaymentService.handleCallback svc env gatewayName cb now db = Returned (db', out) →
  ∃ g tid st data i x,
    PaymentService.getGateway svc gatewayName = Returned g
    ∧ PaymentService.adapterCallback g env cb = CallbackOk tid st data
    ∧ PaymentService.findCallbackTransaction db tid cb = Some (i, x)
    ∧ validKeys data ∧ validKeys (storedResponse x)
    ∧ db' = save i (callbackDocument cb tid st data now x) db
    ∧ PaymentService.co_index out = i
    ∧ PaymentService.co_transaction out = callbackDocument cb tid st data now x.
Proof.
  unfold PaymentService.handleCallback. intros H.
  destruct (PaymentService.getGateway svc gatewayName) as [g|e] eqn:Hg; [|discriminate].
  simpl in H.
  destruct (PaymentService.adapterCallback g env cb) as [tid st data|e] eqn:Hcb;
    [|discriminate].
  destruct (PaymentService.findCallbackTransaction db tid cb) as [[i x]|] eqn:Hf;
    [|discriminate].
  destruct (PaymentService.applyCallback cb tid st data now x) as [x'|] eqn:Ha;
    [|discriminate].
  apply applyCallback_spec in Ha as (Hd & Hs & ->).
  injection H as <- <-. by exists g, tid, st, data, i, x.
Qed.

(** What [handleCallback] does with a callback the adapter lets through
    for a document it finds, when the names cast. *)
Lemma handleCallback_found svc env gatewayName cb now db g tid st data i x :
  PaymentService.getGateway svc gatewayName = Returned g →
  PaymentService.adapterCallback g env cb = CallbackOk tid st data →
  PaymentService.findCallbackTransaction db tid cb = Some (i, x) →
  validKeys data → validKeys (storedResponse x) →
  PaymentService.handleCallback svc env gatewayName cb now db
  = Returned (save i (callbackDocument cb tid st data now x) db,
              {| PaymentService.co_index := i;
                 PaymentService.co_transaction := callbackDocument cb tid st data now x;
                 PaymentService.co_statusChanged :=
                   bool_decide (Transaction.status x
                                ≠ Transaction.status (callbackDocument cb tid st data now x)) |}).
Proof.
  intros Hg Hcb Hf Hd Hs. unfold PaymentService.handleCallback.
  rewrite Hg. cbn [mbind Outcome_bind]. rewrite Hcb, Hf.
  by rewrite applyCallback_valid.
Qed.

Lemma callbackDocument_status cb tid st data now x :
  Transaction.status (callbackDocument cb tid st data now x) = st.
Proof.
  unfold callbackDocument. simpl. by rewrite status_set_gatewayTransactionId_if.
Qed.

Lemma callbackDocument_entries cb tid st data now x :
  Transaction.paymentResponse (callbackDocument cb tid st data now x)
  = Some (MkMap (<["callback_data" := VObj (obj_of_form cb)]>
                   (<["callback_received_at" := VStr now]>
                      (obj_of_form data ∪ storedResponse x)))).
Proof. done. Qed.

Lemma callbackDocument_tagged cb tid st data now x :
  tagged "callback_received_at" now (callbackDocument cb tid st data now x)
  ∧ responseEntry (callbackDocument cb tid st data now x) "callback_data"
    = Some (VObj (obj_of_form cb)).
Proof.
  unfold tagged, responseEntry. rewrite callbackDocument_entries. simpl.
  split; [by rewrite lookup_insert_ne, lookup_insert_eq|by rewrite lookup_insert_eq].
Qed.

Lemma callbackDocument_transactionId cb tid st data now x :
  Transaction.transactionId (callbackDocument cb tid st data now x)
  = Transaction.transactionId x.
Proof.
  unfold callbackDocument. simpl. by rewrite transactionId_set_gatewayTransactionId_if.
Qed.

Lemma callbackDocument_gatewayTransactionId cb tid st data now x :
  truthy_s (PaymentService.callbackTxnId cb) = true →
  Transaction.gatewayTransactionId (callbackDocument cb tid st data now x)
  = PaymentService.callbackTxnId cb.
Proof.
  intros Hg. unfold callbackDocument.
  assert (Hor : or_s (PaymentService.callbackTxnId cb) tid = PaymentService.callbackTxnId cb)
    by (unfold or_s at 1; by rewrite Hg).
  rewrite Hor. unfold Transaction.set_gatewayTransactionId_if. by rewrite Hg.
Qed.

(** *** Keys of [paymentResponse] across an update (C2) *)





(** *** What every reconciliation path preserves *)

(** A relation between a document and the one a path stores in its place
    that every update respects holds, place by place, between the
    collection before and after each path. *)
Section Preserved.
Variable R : Transaction.t → Transaction.t → Prop.
Hypothesis R_refl : ∀ x, R x x.
Hypothesis R_trans : ∀ x y z, R x y → R y z → R x z.
Hypothesis R_status : ∀ s x, R x (Transaction.set_status s x).
Hypothesis R_identifier : ∀ g x, R x (Transaction.set_gatewayTransactionId_if g x).
Hypothesis R_redirect :
  ∀ query now x x', Routes.redirectMerge query now x = Returned x' → R x x'.
Hypothesis R_upiRedirect :
  ∀ c t s now x x', Routes.upiRedirectMerge c t s now x = Returned x' → R x x'.
Hypothesis R_callback : ∀ cb tid st data now x, R x (callbackDocument cb tid st data now x).
Hypothesis R_poll :
  ∀ sr now x x', PaymentService.applyStatusResponse sr now x = Some x' → R x x'.
Hypothesis R_retrieved : ∀ td now x, R x (Routes.applyRetrieved td now x).

Lemma preserved_refl (db : Store) : Forall2 R db db.
Proof. apply Forall_Forall2_diag, Forall_forall. intros. apply R_refl. Qed.

Lemma preserved_save (db : Store) i x x' :
  db !! i = Some x → R x x' → Forall2 R db (save i x' db).
Proof.
  intros Hi Hs. unfold save.
  rewrite <- (list_insert_id db i x Hi) at 1.
  apply Forall2_insert; [apply preserved_refl|done].
Qed.

Lemma preserved_saved (db : Store) i x update reply fallback :
  db !! i = Some x →
  (∀ x', update = Returned x' → R x x') →
  Forall2 R db (Routes.saved i update reply fallback db).2.
Proof.
  intros Hi Hu. unfold Routes.saved. destruct update as [x'|e]; simpl.
  - apply (preserved_save _ _ _ _ Hi). by apply Hu.
  - apply preserved_refl.
Qed.

Lemma preserved_appSuccess svc env query now db :
  Forall2 R db (Routes.appSuccess svc env query now db).2.
Proof.
  unfold Routes.appSuccess. cbv zeta.
  destruct (truthy_s (query !! "txnid")).
  - destruct (findOne _ db) as [[i x]|] eqn:Hf; [|apply preserved_refl].
    apply findOne_lookup in Hf as [Hf _].
    destruct (Routes.redirectHashCheck svc env query x); [apply preserved_refl|].
    case_decide; [|apply preserved_refl].
    apply (preserved_saved _ _ _ _ _ _ Hf). intros x' Hx'.
    eapply R_trans; [apply R_status|]. by eapply R_redirect.
  - destruct (truthy_s (query !! "client_txn_id")); [|apply preserved_refl].
    destruct (findOne _ db) as [[i x]|] eqn:Hf; [|apply preserved_refl].
    apply findOne_lookup in Hf as [Hf _]. case_decide; [|apply preserved_refl].
    apply (preserved_saved _ _ _ _ _ _ Hf). intros x' Hx'.
    eapply R_trans; [apply R_status|]. by eapply R_upiRedirect.
Qed.

Lemma preserved_appFailure query now db :
  Forall2 R db (Routes.appFailure query now db).2.
Proof.
  unfold Routes.appFailure.
  destruct (Routes.failureLookup query db) as [[i x]|] eqn:Hf; [|apply preserved_refl].
  apply failureLookup_lookup in Hf.
  case_decide; [|apply preserved_refl].
  apply (preserved_saved _ _ _ _ _ _ Hf). intros x' Hx'.
  eapply R_trans; [apply R_status|]. eapply R_trans; [apply R_identifier|].
  by eapply R_redirect.
Qed.

Lemma preserved_paymentsSuccess query now db :
  Forall2 R db (Routes.paymentsSuccess query now db).2.
Proof.
  unfold Routes.paymentsSuccess.
  destruct (negb (truthy_s (query !! "client_txn_id"))); [apply preserved_refl|].
  destruct (findOne _ db) as [[i x]|] eqn:Hf; [|apply preserved_refl].
  apply findOne_lookup in Hf as [Hf _]. case_decide; [|apply preserved_refl].
  apply (preserved_saved _ _ _ _ _ _ Hf). intros x' Hx'.
  eapply R_trans; [apply R_status|]. by eapply R_upiRedirect.
Qed.

Lemma preserved_handleCallback svc env name body now db db' out :
  PaymentService.handleCallback svc env name body now db = Returned (db', out) →
  Forall2 R db db'.
Proof.
  intros H.
  apply handleCallback_inv in H
    as (g & tid & st & data & i & x & _ & _ & Hf & _ & _ & -> & _).
  apply findCallbackTransaction_lookup in Hf.
  apply (preserved_save _ _ _ _ Hf), R_callback.
Qed.

Lemma preserved_webhook name svc env body now db :
  Forall2 R db (Routes.webhook name svc env body now db).2.
Proof.
  unfold Routes.webhook.
  destruct (PaymentService.handleCallback svc env name body now db) as [[db' out]|e] eqn:H;
    [|apply preserved_refl].
  by apply preserved_handleCallback in H.
Qed.

Lemma preserved_checkPaymentStatus JSON_stringify svc env up transactionId txn_date
    now db db' x :
  PaymentService.checkPaymentStatus JSON_stringify svc env up transactionId txn_date now db
  = Returned (db', x) →
  Forall2 R db db'.
Proof.
  unfold PaymentService.checkPaymentStatus.
  destruct (findOne _ db) as [[i y]|] eqn:Hf; [|discriminate].
  apply findOne_lookup in Hf as [Hf _].
  destruct (PaymentService.getGateway svc (Transaction.gateway y)) as [g|]; [|discriminate].
  cbn [mbind Outcome_bind].
  assert (∀ sr,
    match PaymentService.applyStatusResponse sr now y with
    | Some transaction => mret (save i transaction db, transaction)
    | None => mret (db, y)
    end = Returned (db', x) → Forall2 R db db') as Hgo.
  { intros sr. destruct (PaymentService.applyStatusResponse sr now y) as [y'|] eqn:Ha.
    - intros [= <- <-]. apply (preserved_save _ _ _ _ Hf). by eapply R_poll.
    - intros [= <- <-]. apply preserved_refl. }
  destruct g as [g|g].
  - destruct (EasebuzzGateway.checkPaymentStatus _ _ _ _ _) as [sr|];
      cbn [mbind Outcome_bind]; [apply Hgo|discriminate].
  - destruct (UPIGateway.checkPaymentStatus _ _ _ _ _) as [sr|];
      cbn [mbind Outcome_bind]; [apply Hgo|discriminate].
Qed.

Lemma preserved_retrieveTransaction JSON_stringify svc env up txnid now db :
  Forall2 R db (Routes.retrieveTransaction JSON_stringify svc env up txnid now db).2.
Proof.
  unfold Routes.retrieveTransaction. cbv zeta.
  destruct (PaymentService.getGateway svc "easebuzz") as [g|]; [|apply preserved_refl].
  cbn [mbind Outcome_bind].
  destruct g as [g|g]; [|apply preserved_refl].
  destruct (EasebuzzGateway.retrieveTransactionDetails _ _ _ _ _) as [result|];
    cbn [mbind Outcome_bind]; [|apply preserved_refl].
  destruct (negb (sr_success result)); [apply preserved_refl|].
  destruct (findOne _ db) as [[i x]|] eqn:Hf.
  - apply findOne_lookup in Hf as [Hf _]. cbn [mret Outcome_ret snd].
    apply (preserved_save _ _ _ _ Hf), R_retrieved.
  - match goal with |- context [@findOne ?P ?D db] =>
      destruct (@findOne P D db) as [[i x]|] eqn:Hf2 end; [|apply preserved_refl].
    apply findOne_lookup in Hf2 as [Hf2 _]. cbn [mret Outcome_ret snd].
    apply (preserved_save _ _ _ _ Hf2), R_retrieved.
Qed.

End Preserved.








(** *** The update policy, path by path (C3) *)














(** ** Replaying a webhook (C4) *)

Lemma list_find_insert_same {A} (P : A → Prop) `{∀ a, Decision (P a)} (l : list A) i a b :
  list_find P l = Some (i, a) → P b → list_find P (<[i := b]> l) = Some (i, b).
Proof.
  intros Hf Hb. apply list_find_Some in Hf as (Hi & Ha & Hbefore).
  apply list_find_insert_Some. right. left.
  split; [done|]. split; [done|]. split; [by eapply lookup_lt_Some|]. by split.
Qed.

Lemma list_find_insert_none {A} (P : A → Prop) `{∀ a, Decision (P a)} (l : list A) i b :
  list_find P l = None → ¬ P b → list_find P (<[i := b]> l) = None.
Proof.
  rewrite !list_find_None. intros Hl Hb.
  destruct (decide (i < length l)) as [Hi|Hi].
  - by apply Forall_insert.
  - by rewrite list_insert_ge by lia.
Qed.

(** The document a webhook has just updated is the one the same webhook
    resolves to again. *)
Lemma findCallbackTransaction_again db tid cb st data now i x :
  PaymentService.findCallbackTransaction db tid cb = Some (i, x) →
  PaymentService.findCallbackTransaction
    (save i (callbackDocument cb tid st data now x) db) tid cb
  = Some (i, callbackDocument cb tid st data now x).
Proof.
  unfold PaymentService.findCallbackTransaction, findOne, save. intros Hf.
  destruct (list_find (λ y, Transaction.transactionId y = tid) db) as [r|] eqn:H1.
  - injection Hf as ->.
    erewrite list_find_insert_same; [done|done|].
    rewrite callbackDocument_transactionId. by apply list_find_Some in H1 as (_ & ? & _).
  - destruct (truthy_s (PaymentService.callbackTxnId cb)) eqn:Hg; [|discriminate].
    rewrite list_find_insert_none; [|done|].
    + erewrite list_find_insert_same; [done|done|].
      right. by apply callbackDocument_gatewayTransactionId.
    + rewrite callbackDocument_transactionId.
      apply list_find_Some in Hf as (Hi & _ & _).
      apply list_find_None in H1. rewrite Forall_forall in H1.
      apply H1. by eapply list_elem_of_lookup_2.
Qed.

Lemma storedResponse_callbackDocument cb tid st data now x :
  storedResponse (callbackDocument cb tid st data now x)
  = <["callback_data" := VObj (obj_of_form cb)]>
      (<["callback_received_at" := VStr now]> (obj_of_form data ∪ storedResponse x)).
Proof. done. Qed.

(** A second merge of the same webhook changes, in [paymentResponse], the
    time stamp only. *)
Lemma callbackDocument_again_entries cb tid st data t1 t2 x :
  let x1 := callbackDocument cb tid st data t1 x in
  Transaction.paymentResponse (callbackDocument cb tid st data t2 x1)
  = Some (MkMap (<["callback_received_at" := VStr t2]> (storedResponse x1))).
Proof.
  cbv zeta. rewrite callbackDocument_entries, !storedResponse_callbackDocument.
  f_equal. f_equal. apply map_eq. intros k.
  destruct (decide (k = "callback_received_at")) as [->|Hk1].
  { by rewrite lookup_insert_ne, !lookup_insert_eq. }
  rewrite (lookup_insert_ne _ "callback_received_at" k) by done.
  destruct (decide (k = "callback_data")) as [->|Hk2].
  { by rewrite !lookup_insert_eq. }
  rewrite !(lookup_insert_ne _ "callback_data" k) by done.
  rewrite !(lookup_insert_ne _ "callback_received_at" k) by done.
  rewrite !lookup_union.
  rewrite !(lookup_insert_ne _ "callback_data" k) by done.
  rewrite !(lookup_insert_ne _ "callback_received_at" k) by done.
  rewrite lookup_union.
  by destruct (obj_of_form data !! k), (storedResponse x !! k).
Qed.

(** So that it adds no key. *)
Lemma callbackDocument_again_keys cb tid st data t1 t2 x :
  let x1 := callbackDocument cb tid st data t1 x in
  Transaction.responseKeys (callbackDocument cb tid st data t2 x1)
  = Transaction.responseKeys x1.
Proof.
  cbv zeta. unfold Transaction.responseKeys.
  rewrite callbackDocument_again_entries, callbackDocument_entries.
  cbn [from_option entries]. rewrite storedResponse_callbackDocument.
  rewrite !dom_insert_L. set_solver.
Qed.

(** C4, counterexample.  The webhook of the fixture, processed and
    replayed a minute later: the second processing keeps the status, and
    [paymentResponse] holds the very keys it held after the first, the
    time stamp of the first call replaced by that of the second.  No
    entry has been appended. *)
Lemma replay_appends_counterexample :
  (∃ db1 o1 db2 o2,
     PaymentService.handleCallback svc_fixture env_unset "easebuzz" cb_webhook
       "2024-01-15T10:05:00.000Z" [tx_fixture] = Returned (db1, o1)
     ∧ PaymentService.handleCallback svc_fixture env_unset "easebuzz" cb_webhook
         "2024-01-15T10:06:00.000Z" db1 = Returned (db2, o2)
     ∧ Transaction.responseKeys (PaymentService.co_transaction o2)
       = Transaction.responseKeys (PaymentService.co_transaction o1)
     ∧ responseEntry (PaymentService.co_transaction o1) "callback_received_at"
       = Some (VStr "2024-01-15T10:05:00.000Z")
     ∧ responseEntry (PaymentService.co_transaction o2) "callback_received_at"
       = Some (VStr "2024-01-15T10:06:00.000Z"))
  ∧ ¬ replay_appends_claim.
Proof.
  pose (x1 := callbackDocument cb_webhook (Some "TXN1") success cb_webhook
                "2024-01-15T10:05:00.000Z" tx_fixture).
  pose (x2 := callbackDocument cb_webhook (Some "TXN1") success cb_webhook
                "2024-01-15T10:06:00.000Z" x1).
  pose (o1 := {| PaymentService.co_index := 0; PaymentService.co_transaction := x1;
                 PaymentService.co_statusChanged := true |}).
  pose (o2 := {| PaymentService.co_index := 0; PaymentService.co_transaction := x2;
                 PaymentService.co_statusChanged := false |}).
  assert (H1 : PaymentService.handleCallback svc_fixture env_unset "easebuzz" cb_webhook
                 "2024-01-15T10:05:00.000Z" [tx_fixture] = Returned ([x1], o1))
    by (vm_compute; reflexivity).
  assert (H2 : PaymentService.handleCallback svc_fixture env_unset "easebuzz" cb_webhook
                 "2024-01-15T10:06:00.000Z" [x1] = Returned ([x2], o2))
    by (vm_compute; reflexivity).
  assert (Hk : Transaction.responseKeys x2 = Transaction.responseKeys x1)
    by apply callbackDocument_again_keys.
  split.
  - exists [x1], o1, [x2], o2. split; [exact H1|]. split; [exact H2|].
    split; [exact Hk|]. split; vm_compute; reflexivity.
  - intros Hclaim.
    destruct (Hclaim _ _ _ _ _ _ _ _ _ _ _ H1 H2) as (_ & k & Hout & Hin).
    apply Hout. change (k ∈ Transaction.responseKeys x1). rewrite <- Hk. exact Hin.
Qed.

(** C4, as amended.  When a webhook has been processed, processing the
    identical payload again succeeds, resolves to the same document and
    stores the same status (the status is reported as unchanged); it still
    writes [paymentResponse], but appends nothing: the keys are those the
    first processing left, [callback_data] is the payload and
    [callback_received_at] carries the time stamp of the second call in the
    place of the first, which is the only entry that changes. *)
Theorem webhook_replay (svc : PaymentService.t) (env : ProcessEnv) (gatewayName : string)
    (cb : Form) (t1 t2 : Date) (db db1 : Store) (o1 : PaymentService.CallbackOutcome)
    (Hfirst : PaymentService.handleCallback svc env gatewayName cb t1 db = Returned (db1, o1)) :
  ∃ db2 o2,
    PaymentService.handleCallback svc env gatewayName cb t2 db1 = Returned (db2, o2)
    ∧ PaymentService.co_index o2 = PaymentService.co_index o1
    ∧ db2 !! PaymentService.co_index o1 = Some (PaymentService.co_transaction o2)
    ∧ Transaction.status (PaymentService.co_transaction o2)
      = Transaction.status (PaymentService.co_transaction o1)
    ∧ PaymentService.co_statusChanged o2 = false
    ∧ tagged "callback_received_at" t2 (PaymentService.co_transaction o2)
    ∧ responseEntry (PaymentService.co_transaction o2) "callback_data"
      = Some (VObj (obj_of_form cb))
    ∧ Transaction.responseKeys (PaymentService.co_transaction o2)
      = Transaction.responseKeys (PaymentService.co_transaction o1)
    ∧ Transaction.paymentResponse (PaymentService.co_transaction o2)
      = Some (MkMap (<["callback_received_at" := VStr t2]>
                       (storedResponse (PaymentService.co_transaction o1)))).
Proof.
  apply handleCallback_inv in Hfirst
    as (g & tid & st & data & i & x & Hg & Hcb & Hf & Hd & Hs & -> & Hi & Ho).
  pose proof (findCallbackTransaction_again db tid cb st data t1 i x Hf) as Hf2.
  set (x1 := callbackDocument cb tid st data t1 x) in *.
  set (x2 := callbackDocument cb tid st data t2 x1).
  pose proof (findCallbackTransaction_lookup db tid cb i x Hf) as Hlen.
  assert (Hs1 : validKeys (storedResponse x1)).
  { subst x1. rewrite storedResponse_callbackDocument.
    by apply (callbackResponse_valid cb data t1 x). }
  exists (save i x2 (save i x1 db)),
    {| PaymentService.co_index := i; PaymentService.co_transaction := x2;
       PaymentService.co_statusChanged := false |}.
  split.
  { rewrite (handleCallback_found _ _ _ _ _ _ _ _ _ _ _ _ Hg Hcb Hf2 Hd Hs1).
    fold x2. do 3 f_equal. apply bool_decide_eq_false_2.
    subst x1 x2. rewrite !callbackDocument_status. by intros ?. }
  cbn [PaymentService.co_index PaymentService.co_transaction PaymentService.co_statusChanged].
  rewrite Hi, Ho. split; [done|]. split.
  { eapply save_lookup. by eapply save_lookup. }
  split; [subst x1 x2; by rewrite !callbackDocument_status|]. split; [done|].
  split; [apply callbackDocument_tagged|]. split; [apply callbackDocument_tagged|].
  split; [apply callbackDocument_again_keys|]. apply callbackDocument_again_entries.
Qed.

(** The webhook of the fixture, processed and replayed a minute later. *)
Lemma webhook_replay_witness :
  ∃ db1 o1 db2 o2,
    PaymentService.handleCallback svc_fixture env_unset "easebuzz" cb_webhook
      "2024-01-15T10:05:00.000Z" [tx_fixture] = Returned (db1, o1)
    ∧ PaymentService.handleCallback svc_fixture env_unset "easebuzz" cb_webhook
        "2024-01-15T10:06:00.000Z" db1 = Returned (db2, o2)
    ∧ Transaction.status (PaymentService.co_transaction o2)
      = Transaction.status (PaymentService.co_transaction o1)
    ∧ tagged "callback_received_at" "2024-01-15T10:06:00.000Z"
        (PaymentService.co_transaction o2)
    ∧ Transaction.responseKeys (PaymentService.co_transaction o2)
      = Transaction.responseKeys (PaymentService.co_transaction o1).
Proof.
  destruct (PaymentService.handleCallback svc_fixture env_unset "easebuzz" cb_webhook
              "2024-01-15T10:05:00.000Z" [tx_fixture]) as [[db1 o1]|e] eqn:H1;
    [|vm_compute in H1; discriminate].
  destruct (webhook_replay svc_fixture env_unset "easebuzz" cb_webhook
              "2024-01-15T10:05:00.000Z" "2024-01-15T10:06:00.000Z"
              [tx_fixture] db1 o1 H1)
    as (db2 & o2 & H2 & _ & _ & Hst & _ & Htag & _ & Hkeys & _).
  exists db1, o1, db2, o2.
  split; [reflexivity|]. split; [exact H2|]. split; [exact Hst|].
  split; [exact Htag|exact Hkeys].
Defined.

(** ** The registry *)

Lemma getGateway_easebuzz svc gw :
  PaymentService.easebuzz svc = Some gw →
  PaymentService.getGateway svc "easebuzz" = Returned (PaymentService.Easebuzz gw).
Proof. intros H. unfold PaymentService.getGateway. simpl. by rewrite H. Qed.

(** ** Failures at the adapter boundary (C5) *)

Lemma resolve_catch_trimmedTxnId txnid error errorResponse errorMessage :
  resolve (EasebuzzGateway.catchScope txnid error errorResponse errorMessage) "trimmedTxnId"
  = Thrown {| err_name := "ReferenceError";
              err_message := "trimmedTxnId is not defined";
              err_response := None |}.
Proof. reflexivity. Qed.

Lemma resolve_catch_errorMessage txnid error errorResponse errorMessage :
  resolve (EasebuzzGateway.catchScope txnid error errorResponse errorMessage) "errorMessage"
  = Returned errorMessage.
Proof. reflexivity. Qed.

Lemma resolve_catch_errorResponse txnid error errorResponse errorMessage :
  resolve (EasebuzzGateway.catchScope txnid error errorResponse errorMessage) "errorResponse"
  = Returned errorResponse.
Proof. reflexivity. Qed.

Lemma includes_method_cases v p :
  (∃ b, EasebuzzGateway.includes_method v p = Returned b)
  ∨ EasebuzzGateway.includes_method v p
    = typeError "errorMessage.includes is not a function".
Proof. destruct v; simpl; eauto. Qed.

(** [retrieveTransactionDetails] returns only when the upstream has
    answered, and then with [success: true].  Whatever exception reaches
    its [catch] block, the block does not return: building the result reads
    [trimmedTxnId], which is not in scope there. *)
Lemma retrieve_outcome JSON_stringify gw env up txnid :
  (∃ r url body d,
     EasebuzzGateway.retrieveTransactionDetails JSON_stringify gw env up txnid = Returned r
     ∧ sr_success r = true ∧ up url body = Resolved d)
  ∨ escapes (EasebuzzGateway.retrieveTransactionDetails JSON_stringify gw env up txnid).
Proof.
  unfold EasebuzzGateway.retrieveTransactionDetails, try_catch.
  match goal with
  | |- context [match ?b with Returned _ => _ | Thrown _ => _ end] => destruct b as [r|error] eqn:Hb
  end.
  - left.
    destruct (negb (truthy txnid)); [discriminate|].
    destruct (EasebuzzGateway.trim_method "txnid" txnid) as [t|]; [|discriminate].
    cbn [mbind Outcome_bind] in Hb.
    destruct (String.eqb _ "" || String.eqb _ ""); [discriminate|].
    unfold post in Hb.
    match type of Hb with
    | context [up ?url ?body] => destruct (up url body) as [data|] eqn:Hu; [|discriminate];
                                 exists r, url, body, data
    end.
    cbn [mbind Outcome_bind] in Hb.
    destruct (negb (truthy _)); [discriminate|]. by injection Hb as <-.
  - right. clear Hb.
    match goal with
    | |- escapes (mbind _ ?m) => destruct m as [errorMessage|e] eqn:Hm
    end.
    + cbn [mbind Outcome_bind].
      rewrite resolve_catch_errorMessage. cbn [mbind Outcome_bind].
      rewrite resolve_catch_errorResponse. cbn [mbind Outcome_bind].
      rewrite resolve_catch_trimmedTxnId. cbn [mbind Outcome_bind].
      eexists. split; [done|]. by left.
    + cbn [mbind Outcome_bind]. exists e. split; [done|]. right.
      match type of Hm with
      | (if ?c then _ else _) = _ => destruct c; [|discriminate]
      end.
      match type of Hm with
      | context [EasebuzzGateway.includes_method ?v "Invalid key"] =>
        destruct (includes_method_cases v "Invalid key") as [[a Ha]|Ha];
          rewrite Ha in Hm; cbn [mbind Outcome_bind] in Hm;
          [destruct a; cbn [mbind Outcome_bind mret Outcome_ret] in Hm; [discriminate|];
           destruct (includes_method_cases v "cannot find associated transaction")
             as [[b Hb]|Hb];
           rewrite Hb in Hm; cbn [mbind Outcome_bind mret Outcome_ret] in Hm;
           [discriminate|]|]
      end; unfold typeError in Hm; by injection Hm as <-.
Qed.

(** C5, at the failing operation.  When the upstream rejects the request
    of [retrieveTransactionDetails] — a time-out, a status outside 2xx,
    whatever the error — the operation does not return a structured
    failure: a [ReferenceError] (or a [TypeError], when the upstream error
    field is not a string) leaves the adapter. *)
Theorem retrieve_failure_escapes (JSON_stringify : jsval → string)
    (gw : EasebuzzGateway.instance) (env : ProcessEnv) (txnid : jsval) (e : JsError) :
  escapes (EasebuzzGateway.retrieveTransactionDetails JSON_stringify gw env
             (λ _ _, Rejected e) txnid).
Proof.
  destruct (retrieve_outcome JSON_stringify gw env (λ _ _, Rejected e) txnid)
    as [(r & url & body & d & _ & _ & Hu)|H]; [discriminate Hu|done].
Qed.

(** The same on the fixture, for a time-out. *)
Example retrieve_timeout :
  EasebuzzGateway.retrieveTransactionDetails (λ _, "") gw_fixture env_unset
    (λ _ _, Rejected timeout_error) (VStr "TXN1")
  = Thrown {| err_name := "ReferenceError";
              err_message := "trimmedTxnId is not defined";
              err_response := None |}.
Proof. vm_compute. reflexivity. Qed.

(** The sibling operations do return a result for every failure: the
    [catch] block of [checkPaymentStatus], in both adapters, reads nothing
    but the caught error. *)
Lemma easebuzz_checkPaymentStatus_returns gw env up transactionId transactionData :
  ∃ r, EasebuzzGateway.checkPaymentStatus gw env up transactionId transactionData
       = Returned r.
Proof.
  unfold EasebuzzGateway.checkPaymentStatus, try_catch.
  match goal with
  | |- context [match ?b with Returned _ => _ | Thrown _ => _ end] => destruct b
  end; eauto.
Qed.

Lemma upi_checkPaymentStatus_returns JSON_stringify gw up transactionId txn_date :
  ∃ r, UPIGateway.checkPaymentStatus JSON_stringify gw up transactionId txn_date
       = Returned r.
Proof.
  unfold UPIGateway.checkPaymentStatus, try_catch.
  match goal with
  | |- context [match ?b with Returned _ => _ | Thrown _ => _ end] => destruct b
  end; eauto.
Qed.

(** ** The phone number of a status check (C8) *)

(** C8, counterexample.  The digits of ["+91 98765-43210"] are the twelve
    digits [919876543210], the country code included, not [9876543210]; the
    status check of a transaction created with that phone number is stopped
    by the validation, even though the upstream would answer. *)
Lemma phone_example_counterexample :
  EasebuzzGateway.phoneDigits (VStr "+91 98765-43210") = "919876543210"
  ∧ EasebuzzGateway.phoneDigits (VStr "+91 98765-43210") ≠ "9876543210"
  ∧ EasebuzzGateway.contactPhone (Some tx_fixture) = VStr "+91 98765-43210"
  ∧ EasebuzzGateway.checkPaymentStatus gw_fixture env_unset up_paid "TXN1" (Some tx_fixture)
    = Returned phoneRejected.
Proof.
  split; [vm_compute; reflexivity|]. split; [vm_compute; discriminate|].
  split; vm_compute; reflexivity.
Qed.

Lemma length_eqb_10 (s : string) :
  (String.length s =? 10)%nat = bool_decide (String.length s = 10%nat).
Proof.
  destruct (Nat.eqb_spec (String.length s) 10).
  - by rewrite bool_decide_eq_true_2.
  - by rewrite bool_decide_eq_false_2.
Qed.

(** C8, as amended.  The status check of the hosted-checkout adapter fails
    with a structured result whenever the digits of the stored phone number
    are not exactly 10, and goes on to the upstream when they are: it
    returns what an answering upstream reports.  The digits of
    ["+91 98765-43210"] are [919876543210], which is twelve digits and so
    rejected; ["98765-43210"] is reduced to [9876543210] and accepted. *)
Theorem phone_validation (gw : EasebuzzGateway.instance) (env : ProcessEnv) (up : Upstream)
    (transactionId : string) (x : Transaction.t) :
  let phone := EasebuzzGateway.contactPhone (Some x) in
  (String.length (EasebuzzGateway.phoneDigits phone) ≠ 10%nat →
     ∃ r, EasebuzzGateway.checkPaymentStatus gw env up transactionId (Some x) = Returned r
          ∧ sr_success r = false)
  ∧ (String.length (EasebuzzGateway.phoneDigits phone) ≠ 10%nat →
     truthy (EasebuzzGateway.contactEmail (Some x)) = true → truthy phone = true →
     EasebuzzGateway.checkPaymentStatus gw env up transactionId (Some x)
     = Returned phoneRejected)
  ∧ (String.length (EasebuzzGateway.phoneDigits phone) = 10%nat →
     ∀ e d,
       EasebuzzGateway.contactEmail (Some x) = VStr e → e ≠ "" →
       (∀ url body, up url body = Resolved d) →
       truthy (EasebuzzGateway.detailsOfStatus d) = true →
       EasebuzzGateway.checkPaymentStatus gw env up transactionId (Some x)
       = Returned {| sr_success := true;
                     sr_data := EasebuzzGateway.detailsOfStatus d;
                     sr_transactionDetails := EasebuzzGateway.detailsOfStatus d;
                     sr_error := VUndef; sr_errorDetails := VUndef |})
  ∧ EasebuzzGateway.phoneDigits (VStr "+91 98765-43210") = "919876543210"
  ∧ EasebuzzGateway.phoneDigits (VStr "98765-43210") = "9876543210".
Proof.
  cbv zeta.
  assert (Hrej : String.length (EasebuzzGateway.phoneDigits
                                  (EasebuzzGateway.contactPhone (Some x))) ≠ 10%nat →
                 truthy (EasebuzzGateway.contactEmail (Some x)) = true →
                 truthy (EasebuzzGateway.contactPhone (Some x)) = true →
                 EasebuzzGateway.checkPaymentStatus gw env up transactionId (Some x)
                 = Returned phoneRejected).
  { intros Hlen He Hp. unfold EasebuzzGateway.checkPaymentStatus.
    rewrite He, Hp. cbn [negb orb]. rewrite length_eqb_10.
    by rewrite bool_decide_eq_false_2. }
  split; [|split; [done|split; [|split; vm_compute; reflexivity]]].
  - intros Hlen.
    destruct (truthy (EasebuzzGateway.contactEmail (Some x))) eqn:He;
      [destruct (truthy (EasebuzzGateway.contactPhone (Some x))) eqn:Hp|].
    + exists phoneRejected. split; [by apply Hrej|done].
    + unfold EasebuzzGateway.checkPaymentStatus. rewrite He, Hp. cbn. eauto.
    + unfold EasebuzzGateway.checkPaymentStatus. rewrite He. cbn. eauto.
  - intros Hlen e d He Hne Hup Hd.
    assert (Hp : truthy (EasebuzzGateway.contactPhone (Some x)) = true).
    { destruct (truthy (EasebuzzGateway.contactPhone (Some x))) eqn:Hp; [done|].
      exfalso. revert Hlen Hp. unfold EasebuzzGateway.contactPhone, js_or.
      case_match eqn:Ht; [by rewrite Ht|]. by intros Hlen _. }
    unfold EasebuzzGateway.checkPaymentStatus.
    rewrite Hp, He.
    assert (Ht : truthy (VStr e) = true) by (rewrite truthy_VStr; by apply bool_decide_eq_true_2).
    rewrite Ht. cbn [negb orb]. rewrite length_eqb_10, bool_decide_eq_true_2 by done.
    cbn [negb EasebuzzGateway.trim_method mbind Outcome_bind try_catch].
    unfold post. rewrite Hup. cbn [mbind Outcome_bind mret Outcome_ret try_catch].
    rewrite Hd. reflexivity.
Qed.

(** The two phone numbers at work: the one with the country code is
    rejected, the one without it reaches the upstream. *)
Lemma phone_validation_witness :
  EasebuzzGateway.checkPaymentStatus gw_fixture env_unset up_paid "TXN1" (Some tx_fixture)
  = Returned phoneRejected
  ∧ EasebuzzGateway.checkPaymentStatus gw_fixture env_unset up_paid "TXN1" (Some tx_local)
    = Returned {| sr_success := true;
                  sr_data := EasebuzzGateway.detailsOfStatus details_paid;
                  sr_transactionDetails := EasebuzzGateway.detailsOfStatus details_paid;
                  sr_error := VUndef; sr_errorDetails := VUndef |}.
Proof.
  split.
  - apply (proj1 (proj2 (phone_validation gw_fixture env_unset up_paid "TXN1" tx_fixture))).
    + vm_compute. discriminate.
    + vm_compute; reflexivity.
    + vm_compute; reflexivity.
  - apply (proj1 (proj2 (proj2 (phone_validation gw_fixture env_unset up_paid "TXN1" tx_local)))
             ltac:(vm_compute; reflexivity) "a@b.co" details_paid).
    + vm_compute; reflexivity.
    + discriminate.
    + reflexivity.
    + vm_compute; reflexivity.
Defined.

(** ** Verification of the reverse hash (C6) *)

Lemma mutate_ge i c s : (String.length s ≤ i)%nat → mutate i c s = s.
Proof.
  revert i. induction s as [|a s IH]; intros i Hi; [by destruct i|].
  destruct i as [|i]; simpl in *; [lia|]. rewrite IH; [done|lia].
Qed.

Lemma mutate_nonempty i c s : s ≠ "" → mutate i c s ≠ "".
Proof. destruct s, i; simpl; congruence. Qed.

Lemma toLowerCase_mutate i c s :
  toLowerCase (mutate i c s) = mutate i (lower_char c) (toLowerCase s).
Proof.
  revert i. induction s as [|a s IH]; intros i; [by destruct i|].
  destruct i as [|i]; simpl; [done|]. by rewrite IH.
Qed.

Lemma get_toLowerCase i s : String.get i (toLowerCase s) = lower_char <$> String.get i s.
Proof.
  revert i. induction s as [|a s IH]; intros i; [done|].
  destruct i as [|i]; simpl; [done|]. apply IH.
Qed.

Lemma mutate_same_iff i c s a :
  String.get i s = Some a → s = mutate i c s ↔ c = a.
Proof.
  revert i. induction s as [|b s IH]; intros i Hi; [done|].
  destruct i as [|i]; simpl in *.
  - injection Hi as ->. split; [by intros [= ->]|by intros ->].
  - rewrite <- (IH i Hi). split; [by intros [= ?]|by intros <-].
Qed.

Lemma eqb_mutate i c s a :
  String.get i s = Some a → String.eqb s (mutate i c s) = bool_decide (c = a).
Proof.
  intros Hi. rewrite eqb_decide. apply bool_decide_ext. by apply mutate_same_iff.
Qed.

(** Verification reads the hashed fields and the hash, nothing else. *)
Lemma responseData_ext cb cb' :
  (∀ k, k ∈ EasebuzzGateway.hashedFields → cb !! k = cb' !! k) →
  EasebuzzGateway.responseData cb = EasebuzzGateway.responseData cb'.
Proof.
  intros H. unfold EasebuzzGateway.responseData. f_equal.
  apply list_fmap_ext. intros i k Hk. unfold field.
  by rewrite (H k) by (by eapply list_elem_of_lookup_2).
Qed.

Lemma verifies_ext gw cb cb' :
  (∀ k, k ∈ EasebuzzGateway.hashedFields → cb !! k = cb' !! k) →
  cb !! "hash" = cb' !! "hash" →
  verifies gw cb = verifies gw cb'.
Proof.
  intros Hf Hh. unfold verifies. by rewrite (responseData_ext cb cb' Hf), Hh.
Qed.

Lemma mutateField_lookup_ne k k' i c (cb : Form) :
  k ≠ k' → mutateField k i c cb !! k' = cb !! k'.
Proof. intros H. unfold mutateField. by rewrite lookup_alter_ne. Qed.

Lemma mutateField_insert k i c (cb : Form) v :
  cb !! k = Some v → mutateField k i c cb = <[k := mutate i c v]> cb.
Proof.
  intros H. unfold mutateField. apply map_eq. intros k'.
  destruct (decide (k = k')) as [<-|Hne].
  - by rewrite lookup_alter_eq, lookup_insert_eq, H.
  - by rewrite lookup_alter_ne, lookup_insert_ne.
Qed.

Lemma mutateField_absent k i c (cb : Form) : cb !! k = None → mutateField k i c cb = cb.
Proof.
  intros H. unfold mutateField. apply map_eq. intros k'.
  destruct (decide (k = k')) as [<-|Hne].
  - by rewrite lookup_alter_eq, H.
  - by rewrite lookup_alter_ne.
Qed.

Lemma all_ascii_complete c : c ∈ all_ascii.
Proof.
  unfold all_ascii. apply list_elem_of_fmap. exists (nat_of_ascii c).
  split; [by rewrite ascii_nat_embedding|].
  apply elem_of_seq. pose proof (nat_ascii_bounded c). lia.
Qed.

Lemma digest_fixture_correct :
  Sha512.sha512 (EasebuzzGateway.reverseHashString gw_fixture
                   (EasebuzzGateway.responseData cb_signed)) = digest_fixture.
Proof. vm_compute. reflexivity. Qed.

Lemma reverseHashString_fixture :
  EasebuzzGateway.reverseHashString gw_fixture (EasebuzzGateway.responseData cb_signed)
  = "SALT1|success|||||||||||a@b.co|||100.00|TXN1|KEY1".
Proof. vm_compute. reflexivity. Qed.

Lemma verifies_fixture : verifies gw_fixture cb_signed = true.
Proof. vm_compute. reflexivity. Qed.

(** C6, counterexample.  Writing the first character of the received
    digest in upper case is a single-character mutation of the fixture, and
    the mutated payload still verifies, the comparison being
    case-insensitive. *)
Lemma mutation_counterexample :
  single_character_mutation cb_signed (mutateField "hash" 0 "E" cb_signed)
  ∧ verifies gw_fixture (mutateField "hash" 0 "E" cb_signed) = true
  ∧ ¬ mutation_claim.
Proof.
  assert (Hmut : single_character_mutation cb_signed (mutateField "hash" 0 "E" cb_signed)).
  { exists "hash", 0%nat, "E"%char. split; [done|]. intros Heq.
    assert (H : mutateField "hash" 0 "E" cb_signed !! "hash" = cb_signed !! "hash")
      by (by rewrite Heq).
    vm_compute in H. discriminate. }
  assert (Hver : verifies gw_fixture (mutateField "hash" 0 "E" cb_signed) = true)
    by (vm_compute; reflexivity).
  split; [done|]. split; [done|]. intros [_ Hclaim].
  specialize (Hclaim _ Hmut). rewrite Hver in Hclaim. discriminate.
Qed.

Lemma hashed_mutations_rejected_true : hashed_mutations_rejected = true.
Proof. vm_cast_no_check (eq_refl true). Qed.

Lemma hashed_mutation_rejected k i c :
  k ∈ EasebuzzGateway.hashedFields →
  mutateField k i c cb_signed ≠ cb_signed →
  verifies gw_fixture (mutateField k i c cb_signed) = false.
Proof.
  intros Hk Hne.
  pose proof hashed_mutations_rejected_true as Hall.
  unfold hashed_mutations_rejected in Hall.
  rewrite forallb_forall in Hall. specialize (Hall k).
  rewrite <- list_elem_of_In in Hall. specialize (Hall Hk).
  destruct (cb_signed !! k) as [v|] eqn:Hv.
  - rewrite (mutateField_insert _ _ _ _ _ Hv) in *.
    destruct (decide (i < String.length v)%nat) as [Hi|Hi].
    + rewrite forallb_forall in Hall. specialize (Hall i).
      rewrite <- list_elem_of_In, elem_of_seq in Hall.
      specialize (Hall ltac:(lia)).
      rewrite forallb_forall in Hall. specialize (Hall c).
      rewrite <- list_elem_of_In in Hall. specialize (Hall (all_ascii_complete c)).
      apply orb_true_iff in Hall as [Heq|Hrej].
      * exfalso. apply Hne. apply String.eqb_eq in Heq. rewrite <- Heq.
        by apply insert_id.
      * by apply negb_true_iff in Hrej.
    + exfalso. apply Hne. rewrite mutate_ge by lia. by apply insert_id.
  - exfalso. apply Hne. by apply mutateField_absent.
Qed.

Lemma hash_not_hashed : "hash" ∉ EasebuzzGateway.hashedFields.
Proof. unfold EasebuzzGateway.hashedFields. set_solver. Qed.

Lemma digest_mutation i c a :
  String.get i digest_fixture = Some a →
  verifies gw_fixture (mutateField "hash" i c cb_signed)
  = bool_decide (lower_char c = lower_char a).
Proof.
  intros Ha.
  assert (Hh : cb_signed !! "hash" = Some digest_fixture) by done.
  rewrite (mutateField_insert _ _ _ _ _ Hh). unfold verifies.
  rewrite (responseData_ext _ cb_signed).
  - rewrite lookup_insert_eq. unfold EasebuzzGateway.verifyHash.
    assert (Ht : truthy_s (Some (mutate i c digest_fixture)) = true).
    { simpl. rewrite eqb_decide, bool_decide_eq_false_2; [done|].
      by apply mutate_nonempty. }
    rewrite Ht. cbn [negb]. rewrite digest_fixture_correct, toLowerCase_mutate.
    apply eqb_mutate. by rewrite get_toLowerCase, Ha.
  - intros k Hk. apply lookup_insert_ne. intros <-. by apply hash_not_hashed.
Qed.

Lemma other_field_mutation k i c :
  k ∉ "hash" :: EasebuzzGateway.hashedFields →
  verifies gw_fixture (mutateField k i c cb_signed) = true.
Proof.
  intros Hk. rewrite <- verifies_fixture. apply verifies_ext.
  - intros k' Hk'. apply mutateField_lookup_ne. intros <-. apply Hk. by right.
  - apply mutateField_lookup_ne. intros ->. apply Hk. by left.
Qed.

(** What [verifyHash] computes: with a non-empty received digest, the
    case-insensitive comparison of that digest with the SHA-512 digest of
    the salt, the status, [udf10] down to [udf1], the e-mail, the first
    name, the product information, the amount, the transaction identifier
    and the key, joined by ['|'], a field the response lacks counting as
    the empty string. *)
Lemma verifyHash_spec gw response h :
  EasebuzzGateway.verifyHash gw response (Some h)
  = bool_decide
      (h ≠ ""
       ∧ toLowerCase
           (Sha512.sha512
              (String.concat "|"
                 ([trim (EasebuzzGateway.salt gw)]
                  ++ ((λ k, default "" (response !! k)) <$>
                        ["status"; "udf10"; "udf9"; "udf8"; "udf7"; "udf6"; "udf5"; "udf4";
                         "udf3"; "udf2"; "udf1"; "email"; "firstname"; "productinfo";
                         "amount"; "txnid"])
                  ++ [trim (EasebuzzGateway.key gw)])))
         = toLowerCase h).
Proof.
  destruct h as [|a h'].
  - symmetry. apply bool_decide_eq_false_2. by intros [? _].
  - unfold EasebuzzGateway.verifyHash. cbn [truthy_s String.eqb negb].
    rewrite eqb_decide. apply bool_decide_ext.
    unfold EasebuzzGateway.reverseHashString, pipe, field.
    cbn [fmap list_fmap app]. split; [by intros ->|by intros [_ ->]].
Qed.

(** C6, as amended.  [verifyHash] compares, without regard to letter case,
    the received digest with the SHA-512 digest of the reverse-order string
    (salt first, the fields in descending order, key last, joined by ['|'],
    absent fields as empty strings).  On the known-good fixture it returns
    true.  Replacing one character of one of the hashed fields of the
    fixture by any other character makes it return false.  Replacing one
    character of the received digest makes it return false unless the
    replacement differs from the original by letter case only, in which
    case it still returns true.  Replacing a character of a field that is
    neither hashed nor the digest leaves the result true. *)
Theorem verifyHash_fixture :
  (∀ gw response h,
     EasebuzzGateway.verifyHash gw response (Some h)
     = bool_decide
         (h ≠ ""
          ∧ toLowerCase
              (Sha512.sha512
                 (String.concat "|"
                    ([trim (EasebuzzGateway.salt gw)]
                     ++ ((λ k, default "" (response !! k)) <$>
                           ["status"; "udf10"; "udf9"; "udf8"; "udf7"; "udf6"; "udf5";
                            "udf4"; "udf3"; "udf2"; "udf1"; "email"; "firstname";
                            "productinfo"; "amount"; "txnid"])
                     ++ [trim (EasebuzzGateway.key gw)])))
            = toLowerCase h))
  ∧ verifies gw_fixture cb_signed = true
  ∧ (∀ k i c,
       k ∈ EasebuzzGateway.hashedFields →
       mutateField k i c cb_signed ≠ cb_signed →
       verifies gw_fixture (mutateField k i c cb_signed) = false)
  ∧ (∀ i c a,
       String.get i digest_fixture = Some a →
       verifies gw_fixture (mutateField "hash" i c cb_signed)
       = bool_decide (lower_char c = lower_char a))
  ∧ (∀ k i c,
       k ∉ "hash" :: EasebuzzGateway.hashedFields →
       verifies gw_fixture (mutateField k i c cb_signed) = true).
Proof.
  split; [exact verifyHash_spec|]. split; [exact verifies_fixture|].
  split; [exact hashed_mutation_rejected|]. split; [exact digest_mutation|].
  exact other_field_mutation.
Qed.

(** Three mutations of the fixture: the status with its first letter in
    upper case is rejected; the digest with its first digit replaced by
    another digit is rejected; the phone number, which is not hashed, may
    change. *)
Lemma verifyHash_fixture_witness :
  verifies gw_fixture (mutateField "status" 0 "S" cb_signed) = false
  ∧ verifies gw_fixture (mutateField "hash" 0 "0" cb_signed) = false
  ∧ verifies gw_fixture (mutateField "phone" 0 "8" cb_signed) = true.
Proof.
  destruct verifyHash_fixture as (_ & _ & Hfield & Hdigest & Hother).
  split; [|split].
  - apply Hfield.
    + unfold EasebuzzGateway.hashedFields. set_solver.
    + intros Heq.
      assert (H : mutateField "status" 0 "S" cb_signed !! "status" = cb_signed !! "status")
        by (by rewrite Heq).
      vm_compute in H. discriminate.
  - rewrite (Hdigest 0%nat "0"%char "e"%char) by reflexivity. reflexivity.
  - apply Hother. unfold EasebuzzGateway.hashedFields. set_solver.
Defined.

Lemma initializeGateway_supported svc ekqr name config :
  toLowerCase name = "easebuzz" ∨ toLowerCase name = "upigateway" →
  ∃ svc',
    PaymentService.initializeGateway svc ekqr name config = Returned svc'
    ∧ ∀ name', toLowerCase name' = toLowerCase name →
        PaymentService.getGateway svc' name'
        = Returned (if String.eqb (toLowerCase name) "easebuzz"
                    then PaymentService.Easebuzz (EasebuzzGateway.new config)
                    else PaymentService.Upi (UPIGateway.new config ekqr)).
Proof.
  intros [H|H]; unfold PaymentService.initializeGateway; rewrite H; simpl;
    eexists; (split; [reflexivity|]); intros name' Hn; unfold PaymentService.getGateway; rewrite Hn; reflexivity.
Qed.

(** X1. Registering a gateway and asking for it back: for a supported
    name, in any letter case, [PaymentService.initializeGateway] returns, and
    [PaymentService.getGateway] then returns the adapter built from the configuration
    under every spelling of that name; any other name is refused with
    [Unsupported gateway: name]. *)
Theorem registry_round_trip (svc : PaymentService.t) (ekqr : option string) (name : string)
    (config : EasebuzzGateway.config) :
  (toLowerCase name = "easebuzz" ∨ toLowerCase name = "upigateway" →
   ∃ svc',
     PaymentService.initializeGateway svc ekqr name config = Returned svc'
     ∧ ∀ name', toLowerCase name' = toLowerCase name →
         PaymentService.getGateway svc' name'
         = Returned (if String.eqb (toLowerCase name) "easebuzz"
                     then PaymentService.Easebuzz (EasebuzzGateway.new config)
                     else PaymentService.Upi (UPIGateway.new config ekqr)))
  ∧ (toLowerCase name ≠ "easebuzz" → toLowerCase name ≠ "upigateway" →
     PaymentService.initializeGateway svc ekqr name config
     = throw ("Unsupported gateway: " ++ name)).
Proof.
  split; [apply initializeGateway_supported|].
  intros H1 H2. unfold PaymentService.initializeGateway.
  rewrite !eqb_decide, !bool_decide_eq_false_2 by done. reflexivity.
Qed.

Lemma trimEnd_head c s :
  is_space c = false → ∃ t, trimEnd (String c s) = String c t.
Proof.
  intros Hc. simpl. destruct (trimEnd s); rewrite ?Hc; eauto.
Qed.

Lemma trimStart_head s :
  trimStart s = "" ∨ ∃ c t, trimStart s = String c t ∧ is_space c = false.
Proof.
  induction s as [|c s IH]; simpl; [by left|].
  destruct (is_space c) eqn:Hc; [done|]. right. eauto.
Qed.

Lemma trimEnd_idemp s : trimEnd (trimEnd s) = trimEnd s.
Proof.
  induction s as [|c s IH]; simpl; [done|].
  destruct (trimEnd s) as [|d t] eqn:Ht.
  - destruct (is_space c) eqn:Hc; simpl; [done|]. by rewrite Hc.
  - simpl in *. rewrite IH. done.
Qed.

Lemma trim_idemp s : trim (trim s) = trim s.
Proof.
  unfold trim. destruct (trimStart_head s) as [->|(c & t & -> & Hc)]; [done|].
  destruct (trimEnd_head c t Hc) as [u Hu]. rewrite Hu.
  simpl trimStart. rewrite Hc. rewrite <- Hu. apply trimEnd_idemp.
Qed.

Lemma default_or_s_empty s : default "" (or_s (Some s) (Some "")) = s.
Proof.
  unfold or_s, truthy_s. destruct (String.eqb_spec s ""); simpl; congruence.
Qed.

Lemma new_trimmed k s b :
  EasebuzzGateway.new
    {| EasebuzzGateway.cfg_key := Some (trim k); EasebuzzGateway.cfg_salt := Some (trim s);
       EasebuzzGateway.cfg_baseUrl := Some b |}
  = {| EasebuzzGateway.key := trim k; EasebuzzGateway.salt := trim s;
       EasebuzzGateway.baseUrl :=
         if String.eqb b "" then "https://testpay.easebuzz.in" else b |}.
Proof.
  unfold EasebuzzGateway.new. simpl. rewrite !default_or_s_empty, !trim_idemp.
  f_equal. unfold or_s, truthy_s. destruct (String.eqb b ""); reflexivity.
Qed.

Lemma paymentService_easebuzz env vars :
  ∃ svc,
    PaymentService.paymentService env vars = Returned svc
    ∧ PaymentService.easebuzz svc =
        (if truthy_s (PaymentService.EASEBUZZ_KEY vars) && truthy_s (PaymentService.EASEBUZZ_SALT vars) then
           Some {| EasebuzzGateway.key := trim (default "" (PaymentService.EASEBUZZ_KEY vars));
                   EasebuzzGateway.salt := trim (default "" (PaymentService.EASEBUZZ_SALT vars));
                   EasebuzzGateway.baseUrl :=
                     if truthy_s (PaymentService.EASEBUZZ_BASE_URL vars)
                     then default "" (PaymentService.EASEBUZZ_BASE_URL vars)
                     else if env_is (EASEBUZZ_ENV env) "prod"
                             || env_is (EASEBUZZ_ENV env) "production"
                     then "https://pay.easebuzz.in"
                     else "https://testpay.easebuzz.in" |}
         else None)
    ∧ (is_Some (PaymentService.upigateway svc) ↔ truthy_s (PaymentService.EKQR_KEY vars) = true).
Proof.
  unfold PaymentService.paymentService.
  destruct (truthy_s (PaymentService.EASEBUZZ_KEY vars) && truthy_s (PaymentService.EASEBUZZ_SALT vars)) eqn:Hks.
  - unfold PaymentService.initializeGateway at 1. simpl toLowerCase. simpl String.eqb.
    cbn [mbind Outcome_bind mret Outcome_ret].
    assert (Hnew : ∀ b, b ≠ "" →
      EasebuzzGateway.new
        {| EasebuzzGateway.cfg_key := Some (trim (default "" (PaymentService.EASEBUZZ_KEY vars)));
           EasebuzzGateway.cfg_salt := Some (trim (default "" (PaymentService.EASEBUZZ_SALT vars)));
           EasebuzzGateway.cfg_baseUrl := Some b |}
      = {| EasebuzzGateway.key := trim (default "" (PaymentService.EASEBUZZ_KEY vars));
           EasebuzzGateway.salt := trim (default "" (PaymentService.EASEBUZZ_SALT vars));
           EasebuzzGateway.baseUrl := b |}).
    { intros b Hb. rewrite new_trimmed. f_equal.
      destruct (String.eqb_spec b ""); congruence. }
    destruct (truthy_s (PaymentService.EKQR_KEY vars)) eqn:Hu.
    + eexists. split; [reflexivity|]. simpl. split; [|split; eauto].
      destruct (PaymentService.EASEBUZZ_BASE_URL vars) as [b|] eqn:Hb; simpl.
      * destruct (String.eqb_spec b ""); simpl.
        -- subst b. destruct (env_is _ _ || env_is _ _); by rewrite Hnew.
        -- by rewrite Hnew.
      * destruct (env_is _ _ || env_is _ _); by rewrite Hnew.
    + eexists. split; [reflexivity|]. simpl. split; [|split; [intros [? [=]]|done]].
      destruct (PaymentService.EASEBUZZ_BASE_URL vars) as [b|] eqn:Hb; simpl.
      * destruct (String.eqb_spec b ""); simpl.
        -- subst b. destruct (env_is _ _ || env_is _ _); by rewrite Hnew.
        -- by rewrite Hnew.
      * destruct (env_is _ _ || env_is _ _); by rewrite Hnew.
  - cbn [mbind Outcome_bind mret Outcome_ret].
    destruct (truthy_s (PaymentService.EKQR_KEY vars)) eqn:Hu.
    + eexists. split; [reflexivity|]. simpl. split; [done|]. split; eauto.
    + eexists. split; [reflexivity|]. simpl. split; [done|]. split; [intros [? [=]]|done].
Qed.

(** X2. What the module registers when it is loaded: the hosted-checkout
    gateway exactly when [PaymentService.EASEBUZZ_KEY] and [PaymentService.EASEBUZZ_SALT] are both
    non-empty, its key and salt trimmed, its address the explicit
    [PaymentService.EASEBUZZ_BASE_URL], else the live host for [EASEBUZZ_ENV] equal to
    [prod] or [production] and the test host otherwise; the UPI gateway
    exactly when [PaymentService.EKQR_KEY] is non-empty.  The initialisation never
    throws. *)
Theorem bootstrap_registers (env : ProcessEnv) (vars : PaymentService.Credentials) :
  ∃ svc,
    PaymentService.paymentService env vars = Returned svc
    ∧ PaymentService.easebuzz svc =
        (if truthy_s (PaymentService.EASEBUZZ_KEY vars) && truthy_s (PaymentService.EASEBUZZ_SALT vars) then
           Some {| EasebuzzGateway.key := trim (default "" (PaymentService.EASEBUZZ_KEY vars));
                   EasebuzzGateway.salt := trim (default "" (PaymentService.EASEBUZZ_SALT vars));
                   EasebuzzGateway.baseUrl :=
                     if truthy_s (PaymentService.EASEBUZZ_BASE_URL vars)
                     then default "" (PaymentService.EASEBUZZ_BASE_URL vars)
                     else if env_is (EASEBUZZ_ENV env) "prod"
                             || env_is (EASEBUZZ_ENV env) "production"
                     then "https://pay.easebuzz.in"
                     else "https://testpay.easebuzz.in" |}
         else None)
    ∧ (is_Some (PaymentService.upigateway svc) ↔ truthy_s (PaymentService.EKQR_KEY vars) = true).
Proof. apply paymentService_easebuzz. Qed.

(** X3. With [EASEBUZZ_ENV=production] and no explicit address, the
    gateway is registered on the live host, and its [handleCallback]
    lets every callback that carries no hash through, whatever
    [NODE_ENV] is: the strict mode asks for [EASEBUZZ_ENV] equal to
    [prod]. *)
Theorem live_host_unsigned_callbacks (env : ProcessEnv) (vars : PaymentService.Credentials) (cb : Form) :
  EASEBUZZ_ENV env = Some "production" →
  truthy_s (PaymentService.EASEBUZZ_KEY vars) = true →
  truthy_s (PaymentService.EASEBUZZ_SALT vars) = true →
  truthy_s (PaymentService.EASEBUZZ_BASE_URL vars) = false →
  truthy_s (cb !! "hash") = false →
  ∃ svc g,
    PaymentService.paymentService env vars = Returned svc
    ∧ PaymentService.easebuzz svc = Some g
    ∧ EasebuzzGateway.baseUrl g = "https://pay.easebuzz.in"
    ∧ EasebuzzGateway.handleCallback g env cb
      = CallbackOk (cb !! "txnid") (EasebuzzGateway.callbackStatus (cb !! "status")) cb.
Proof.
  intros He Hk Hs Hb Hh.
  destruct (paymentService_easebuzz env vars) as (svc & Hsvc & Heb & _).
  rewrite Hk, Hs, Hb, He in Heb. simpl in Heb.
  eexists svc, _. split; [done|]. split; [exact Heb|]. split; [done|].
  unfold EasebuzzGateway.handleCallback. rewrite Hh, He. simpl.
  by rewrite andb_false_r.
Qed.

Lemma live_host_unsigned_callbacks_witness :
  ∃ svc g,
    PaymentService.paymentService env_production vars_fixture = Returned svc
    ∧ PaymentService.easebuzz svc = Some g
    ∧ EasebuzzGateway.baseUrl g = "https://pay.easebuzz.in"
    ∧ EasebuzzGateway.handleCallback g env_production cb_no_hash
      = CallbackOk (cb_no_hash !! "txnid")
          (EasebuzzGateway.callbackStatus (cb_no_hash !! "status")) cb_no_hash.
Proof.
  apply (live_host_unsigned_callbacks env_production vars_fixture cb_no_hash);
    vm_compute; reflexivity.
Defined.


Lemma trim_empty_eqb s :
  trim s = "" → String.eqb s "" || String.eqb (trim s) "" = true.
Proof. intros ->. by rewrite orb_true_r. Qed.

Lemma trim_nonempty_eqb s :
  trim s ≠ "" → String.eqb s "" || String.eqb (trim s) "" = false.
Proof.
  intros H. destruct (String.eqb_spec s ""); [by subst|].
  destruct (String.eqb_spec (trim s) ""); done.
Qed.

(** X4. The validation of [createPayment] of the hosted-checkout adapter:
    a missing amount, an empty key, an empty salt, a missing e-mail
    address and a missing success address are refused in this order, each
    with its message as [error] and [msg], whatever the upstream would
    answer: no request is made. *)
Theorem easebuzz_createPayment_validates
    (URL_set : string → list (string * string) → option string)
    (toFixed2_of : jsval → string) (JSON_stringify : jsval → string)
    (gw : EasebuzzGateway.instance) (up : Upstream) (clock suffix : string)
    (paymentData : Obj) :
  let p := get (VObj paymentData) in
  let result :=
    EasebuzzGateway.createPayment URL_set toFixed2_of JSON_stringify gw up clock suffix
      paymentData in
  (truthy (p "amount") = false → result = refused "Missing required field: amount")
  ∧ (truthy (p "amount") = true → trim (EasebuzzGateway.key gw) = "" →
     result = refused "Easebuzz key is not configured")
  ∧ (truthy (p "amount") = true → trim (EasebuzzGateway.key gw) ≠ "" →
     trim (EasebuzzGateway.salt gw) = "" →
     result = refused "Easebuzz salt is not configured")
  ∧ (truthy (p "amount") = true → trim (EasebuzzGateway.key gw) ≠ "" →
     trim (EasebuzzGateway.salt gw) ≠ "" → truthy (p "email") = false →
     result = refused "Email is required for Easebuzz payment")
  ∧ (truthy (p "amount") = true → trim (EasebuzzGateway.key gw) ≠ "" →
     trim (EasebuzzGateway.salt gw) ≠ "" → truthy (p "email") = true →
     truthy (p "surl") = false → truthy (p "successUrl") = false →
     truthy (p "returnUrl") = false → truthy (p "redirect_url") = false →
     result
     = refused "Success URL (surl/redirect_url/successUrl/returnUrl) is required for Easebuzz payment").
Proof.
  intros p result. subst p result. unfold EasebuzzGateway.createPayment, refused.
  cbv beta zeta.
  repeat match goal with
  | |- context [default VUndef (paymentData !! ?k)] =>
    change (default VUndef (paymentData !! k)) with (get (VObj paymentData) k)
  end.
  repeat split.
  - intros ->. reflexivity.
  - intros -> Hk. rewrite (trim_empty_eqb _ Hk). reflexivity.
  - intros -> Hk Hs. rewrite (trim_nonempty_eqb _ Hk), (trim_empty_eqb _ Hs). reflexivity.
  - intros -> Hk Hs ->. rewrite (trim_nonempty_eqb _ Hk), (trim_nonempty_eqb _ Hs). reflexivity.
  - intros -> Hk Hs -> H1 H2 H3 H4.
    rewrite (trim_nonempty_eqb _ Hk), (trim_nonempty_eqb _ Hs).
    unfold js_or. rewrite H1, H2, H3, H4. reflexivity.
Qed.

Lemma generateHash_ext (a b : Form) k s :
  (∀ f, f ∈ ["txnid"; "amount"; "productinfo"; "firstname"; "email"; "udf1"; "udf2";
             "udf3"; "udf4"; "udf5"; "udf6"; "udf7"; "udf8"; "udf9"; "udf10"] →
        a !! f = b !! f) →
  EasebuzzGateway.generateHash a k s = EasebuzzGateway.generateHash b k s.
Proof.
  intros H. unfold EasebuzzGateway.generateHash, EasebuzzGateway.hole, field.
  rewrite !H by (repeat first [apply list_elem_of_here | apply list_elem_of_further]).
  reflexivity.
Qed.

Lemma paymentForm_signed params k s :
  let form := EasebuzzGateway.paymentForm params k s in
  form !! "key" = Some (default k (toString <$> params !! "key"))
  ∧ form !! "hash" = Some (EasebuzzGateway.generateHash form k s).
Proof.
  intros form. subst form. unfold EasebuzzGateway.paymentForm. split.
  - rewrite lookup_insert_ne by done. rewrite lookup_union, lookup_fmap.
    destruct (params !! "key"); simpl; [done|]. by rewrite lookup_singleton.
  - rewrite lookup_insert. f_equal. apply generateHash_ext.
    intros f Hf.
    assert (f ≠ "hash" ∧ f ≠ "key") as [H1 H2].
    { repeat (apply elem_of_cons in Hf as [->|Hf]); [by split..|]. by apply elem_of_nil in Hf. }
    rewrite lookup_insert_ne by done.
    rewrite lookup_union, lookup_singleton_ne by done.
    by destruct ((toString <$> params) !! f).
Qed.

Lemma throwVal_thrown {A} (v : jsval) : ∃ e, @throwVal A v = Thrown e.
Proof. destruct v; simpl; eauto. Qed.

Ltac dead H :=
  exfalso;
  cbv [negb try_catch throw typeError mret mbind Outcome_ret Outcome_bind] in H;
  discriminate H.

Ltac run H := cbn [mbind Outcome_bind mret Outcome_ret try_catch] in H.

Ltac live H := simpl negb in H; cbv iota in H.

Lemma createPayment_inv URL_set toFixed2_of JSON_stringify gw up clock suffix
    (paymentData : Obj) r :
  EasebuzzGateway.createPayment URL_set toFixed2_of JSON_stringify gw up clock suffix
    paymentData = Returned (Created r) →
  let p := get (VObj paymentData) in
  let finalTxnId :=
    js_or (js_or (p "txnid") (p "transactionId")) (VStr (generatedId clock suffix)) in
  ∃ finalSurl finalFurl data,
    up (EasebuzzGateway.baseUrl gw ++ "/payment/initiateLink")
       (EasebuzzGateway.paymentForm
          (EasebuzzGateway.paymentParams toFixed2_of paymentData finalTxnId finalSurl finalFurl)
          (trim (EasebuzzGateway.key gw)) (trim (EasebuzzGateway.salt gw)))
    = Resolved data
    ∧ is_one (get data "status") = true
    ∧ truthy (p "amount") = true
    ∧ truthy (p "email") = true
    ∧ is_Some (URL_set finalSurl [])
    ∧ is_Some (URL_set finalFurl [])
    ∧ r = {| pc_data :=
               list_to_map
                 [("order_id", finalTxnId);
                  ("payment_url",
                   VStr (dropTrailingSlash (EasebuzzGateway.baseUrl gw) ++ "/pay/"
                         ++ toString (get data "data")));
                  ("client_txn_id", finalTxnId); ("payment_id", get data "data")];
             pc_msg := "Payment initiated successfully";
             pc_paymentLink :=
               VStr (dropTrailingSlash (EasebuzzGateway.baseUrl gw) ++ "/pay/"
                     ++ toString (get data "data"));
             pc_orderId := finalTxnId;
             pc_transactionId := finalTxnId;
             pc_gatewayTransactionId := get data "data";
             pc_rawResponse := data |}.
Proof.
  intros H p finalTxnId. unfold EasebuzzGateway.createPayment in H.
  cbv beta zeta in H.
  repeat match type of H with
  | context [default VUndef (paymentData !! ?k)] =>
    change (default VUndef (paymentData !! k)) with (p k) in H
  end.
  fold finalTxnId in H.
  destruct (truthy (p "amount")) eqn:Ha; [|dead H].
  live H.
  destruct (String.eqb (EasebuzzGateway.key gw) "" || String.eqb (trim (EasebuzzGateway.key gw)) "")
    eqn:Hk; [dead H|]. live H.
  destruct (String.eqb (EasebuzzGateway.salt gw) "" || String.eqb (trim (EasebuzzGateway.salt gw)) "")
    eqn:Hs; [dead H|]. live H.
  destruct (truthy (p "email")) eqn:He; [|dead H]. live H.
  set (successUrl := js_or (js_or (js_or (js_or (p "surl") _) _) _) _) in H.
  destruct (EasebuzzGateway.blank "finalSurl" successUrl) as [[|]|e1] eqn:Hb1;
    [dead H| |dead H].
  run H.
  set (finalSurl := EasebuzzGateway.withParams URL_set (toString successUrl) [_] _) in H.
  set (failureUrl := js_or (js_or (js_or (p "furl") _) _) _) in H.
  destruct (EasebuzzGateway.blank "finalFurl" failureUrl) as [noFurl|e2] eqn:Hb2;
    [|dead H].
  run H.
  set (finalFurl := if noFurl then _ else _) in H.
  destruct (bool_decide (is_Some (URL_set finalSurl []))) eqn:Hu1; [|dead H].
  destruct (bool_decide (is_Some (URL_set finalFurl []))) eqn:Hu2; [|dead H].
  live H. simpl orb in H. cbv iota in H.
  destruct (String.eqb (trim (EasebuzzGateway.key gw)) ""); [dead H|].
  destruct (String.eqb (trim (EasebuzzGateway.salt gw)) ""); [dead H|].
  unfold post in H.
  set (form := EasebuzzGateway.paymentForm _ _ _) in H.
  destruct (up _ form) as [data|e3] eqn:Hup.
  2:{ exfalso. run H.
      match type of H with context [throwVal ?v] =>
        destruct (throwVal_thrown (A:=jsval) v) as [e4 He4]; rewrite He4 in H end.
      dead H. }
  run H.
  destruct (truthy data && is_one (get data "status")) eqn:Hd.
  - apply andb_true_iff in Hd as [Hd1 Hd2]. run H.
    exists finalSurl, finalFurl, data. fold form.
    split; [exact Hup|]. split; [exact Hd2|]. split; [done|]. split; [done|].
    split; [by apply bool_decide_eq_true in Hu1|].
    split; [by apply bool_decide_eq_true in Hu2|].
    by injection H as <-.
  - exfalso. destruct (truthy data).
    + match type of H with context [throwVal ?v] =>
        destruct (throwVal_thrown (A:=CreateResult) v) as [e4 He4]; rewrite He4 in H end.
      dead H.
    + dead H.
Qed.

Lemma optional_lookup_ne k v (o : Obj) k' :
  k ≠ k' → EasebuzzGateway.optional k v o !! k' = o !! k'.
Proof.
  intros. unfold EasebuzzGateway.optional. destruct (truthy v); [|done].
  by rewrite lookup_insert_ne.
Qed.

Lemma defined_lookup_ne k v (o : Obj) k' :
  k ≠ k' → EasebuzzGateway.defined k v o !! k' = o !! k'.
Proof.
  intros. unfold EasebuzzGateway.defined. destruct v; by rewrite ?lookup_insert_ne.
Qed.

Lemma paymentParams_txnid toFixed2_of paymentData finalTxnId finalSurl finalFurl :
  EasebuzzGateway.paymentParams toFixed2_of paymentData finalTxnId finalSurl finalFurl
    !! "txnid" = Some finalTxnId.
Proof.
  unfold EasebuzzGateway.paymentParams.
  rewrite !optional_lookup_ne, defined_lookup_ne, !optional_lookup_ne by done.
  reflexivity.
Qed.

Lemma paymentParams_key toFixed2_of paymentData finalTxnId finalSurl finalFurl :
  EasebuzzGateway.paymentParams toFixed2_of paymentData finalTxnId finalSurl finalFurl
    !! "key" = None.
Proof.
  unfold EasebuzzGateway.paymentParams.
  rewrite !optional_lookup_ne, defined_lookup_ne, !optional_lookup_ne by done.
  reflexivity.
Qed.

Lemma is_one_eq v : is_one v = true → v = VNum 1.
Proof. destruct v; simpl; try done. intros ?%Z.eqb_eq. by subst. Qed.

(** X5. What a successful [createPayment] of the hosted-checkout adapter
    stands for: one form was posted to [payment/initiateLink] and answered
    with [status: 1]; the form carries the trimmed key, the reference of
    the payment and, as [hash], the digest of its own signed fields with
    the key and the salt; the result keeps the reference that was sent
    ([txnid], else [transactionId], else a generated one) as
    [transactionId] and [orderId], returns the identifier of the gateway
    apart as [gatewayTransactionId], and links to
    [baseUrl/pay/identifier], a trailing slash of [baseUrl] dropped. *)
Theorem easebuzz_createPayment_created
    (URL_set : string → list (string * string) → option string)
    (toFixed2_of : jsval → string) (JSON_stringify : jsval → string)
    (gw : EasebuzzGateway.instance) (up : Upstream) (clock suffix : string)
    (paymentData : Obj) (r : PaymentCreated) :
  EasebuzzGateway.createPayment URL_set toFixed2_of JSON_stringify gw up clock suffix
    paymentData = Returned (Created r) →
  ∃ form,
    up (EasebuzzGateway.baseUrl gw ++ "/payment/initiateLink") form
    = Resolved (pc_rawResponse r)
    ∧ form !! "key" = Some (trim (EasebuzzGateway.key gw))
    ∧ form !! "txnid" = Some (toString (pc_transactionId r))
    ∧ form !! "hash"
      = Some (EasebuzzGateway.generateHash form (trim (EasebuzzGateway.key gw))
                (trim (EasebuzzGateway.salt gw)))
    ∧ pc_transactionId r
      = js_or (js_or (get (VObj paymentData) "txnid") (get (VObj paymentData) "transactionId"))
              (VStr (generatedId clock suffix))
    ∧ pc_orderId r = pc_transactionId r
    ∧ get (pc_rawResponse r) "status" = VNum 1
    ∧ pc_gatewayTransactionId r = get (pc_rawResponse r) "data"
    ∧ pc_paymentLink r
      = VStr (dropTrailingSlash (EasebuzzGateway.baseUrl gw) ++ "/pay/"
              ++ toString (pc_gatewayTransactionId r)).
Proof.
  intros H. apply createPayment_inv in H.
  destruct H as (finalSurl & finalFurl & data & Hup & Hone & _ & _ & _ & _ & ->).
  eexists. split; [exact Hup|]. simpl.
  pose proof (paymentForm_signed
    (EasebuzzGateway.paymentParams toFixed2_of paymentData
       (js_or (js_or (get (VObj paymentData) "txnid") (get (VObj paymentData) "transactionId"))
              (VStr (generatedId clock suffix))) finalSurl finalFurl)
    (trim (EasebuzzGateway.key gw)) (trim (EasebuzzGateway.salt gw))) as [Hkey Hhash].
  rewrite paymentParams_key in Hkey.
  split; [exact Hkey|]. split.
  { unfold EasebuzzGateway.paymentForm. rewrite lookup_insert_ne by done.
    rewrite lookup_union, lookup_fmap, paymentParams_txnid. simpl.
    by rewrite lookup_singleton_ne. }
  split; [exact Hhash|]. split; [done|]. split; [done|].
  split; [by apply is_one_eq|]. done.
Qed.

Lemma easebuzz_createPayment_created_witness :
  ∃ form,
    up_created (EasebuzzGateway.baseUrl gw_fixture ++ "/payment/initiateLink") form
    = Resolved (pc_rawResponse created_fixture)
    ∧ form !! "key" = Some (trim (EasebuzzGateway.key gw_fixture))
    ∧ form !! "txnid" = Some (toString (pc_transactionId created_fixture))
    ∧ form !! "hash"
      = Some (EasebuzzGateway.generateHash form (trim (EasebuzzGateway.key gw_fixture))
                (trim (EasebuzzGateway.salt gw_fixture)))
    ∧ pc_transactionId created_fixture
      = js_or (js_or (get (VObj pay_request) "txnid") (get (VObj pay_request) "transactionId"))
              (VStr (generatedId "1705312800000" "K3J9X0Q2A"))
    ∧ pc_orderId created_fixture = pc_transactionId created_fixture
    ∧ get (pc_rawResponse created_fixture) "status" = VNum 1
    ∧ pc_gatewayTransactionId created_fixture = get (pc_rawResponse created_fixture) "data"
    ∧ pc_paymentLink created_fixture
      = VStr (dropTrailingSlash (EasebuzzGateway.baseUrl gw_fixture) ++ "/pay/"
              ++ toString (pc_gatewayTransactionId created_fixture)).
Proof.
  apply (easebuzz_createPayment_created url_fixture toFixed2_fixture json_fixture
           gw_fixture up_created "1705312800000" "K3J9X0Q2A" pay_request created_fixture).
  reflexivity.
Defined.

Ltac fold_props paymentData H :=
  repeat match type of H with
  | context [default VUndef (paymentData !! ?k)] =>
    change (default VUndef (paymentData !! k)) with (get (VObj paymentData) k) in H
  end.

(** X6. The validation of [createPayment] of the UPI adapter: a missing
    amount, a missing key and a missing e-mail address (under all of
    [customer_email], [customerEmail] and [email]) are refused in this
    order, with the message as [error] and, prefixed by
    [UPI payment failed: ], as [msg]; no request is made. *)
Theorem upi_createPayment_validates (JSON_stringify : jsval → string)
    (gw : UPIGateway.instance) (up : UpstreamJson) (clock suffix : string)
    (paymentData : Obj) :
  let p := get (VObj paymentData) in
  let result := UPIGateway.createPayment JSON_stringify gw up clock suffix paymentData in
  let refusal message :=
    Returned (NotCreated (VStr message) (VStr ("UPI payment failed: " ++ message))) in
  (truthy (p "amount") = false → result = refusal "Amount is required for UPI payment")
  ∧ (truthy (p "amount") = true → truthy_s (UPIGateway.key gw) = false →
     result = refusal "EKQR_KEY is not configured")
  ∧ (truthy (p "amount") = true → truthy_s (UPIGateway.key gw) = true →
     truthy (p "customer_email") = false → truthy (p "customerEmail") = false →
     truthy (p "email") = false →
     result = refusal "Email (customer_email/email) is required for UPI payment").
Proof.
  intros p result refusal. subst p result refusal.
  unfold UPIGateway.createPayment. cbv beta zeta.
  repeat match goal with
  | |- context [default VUndef (paymentData !! ?k)] =>
    change (default VUndef (paymentData !! k)) with (get (VObj paymentData) k)
  end.
  repeat split.
  - intros ->. reflexivity.
  - intros -> ->. reflexivity.
  - intros -> -> H1 H2 H3.
    assert (get (VObj (UPIGateway.createPayload
                         (trim (default "" (UPIGateway.key gw)))
                         (js_or (js_or (js_or (get (VObj paymentData) "client_txn_id")
                                              (get (VObj paymentData) "transactionId"))
                                       (get (VObj paymentData) "txnid"))
                                (VStr (generatedId clock suffix))) paymentData))
                "customer_email" = VStr "") as ->.
    { unfold UPIGateway.createPayload. cbv beta zeta.
      repeat match goal with
      | |- context [default VUndef (paymentData !! ?k)] =>
        change (default VUndef (paymentData !! k)) with (get (VObj paymentData) k)
      end.
      unfold js_or at 11 12 13. rewrite H1, H2, H3. reflexivity. }
    reflexivity.
Qed.

Lemma upi_createPayment_inv JSON_stringify gw up clock suffix (paymentData : Obj) r :
  UPIGateway.createPayment JSON_stringify gw up clock suffix paymentData
  = Returned (Created r) →
  let p := get (VObj paymentData) in
  let finalClientTxnId :=
    js_or (js_or (js_or (p "client_txn_id") (p "transactionId")) (p "txnid"))
          (VStr (generatedId clock suffix)) in
  let payload :=
    UPIGateway.createPayload (trim (default "" (UPIGateway.key gw))) finalClientTxnId
      paymentData in
  ∃ data,
    up (UPIGateway.baseUrl gw ++ "/create_order") payload = Resolved data
    ∧ truthy (p "amount") = true
    ∧ truthy_s (UPIGateway.key gw) = true
    ∧ truthy (get (VObj payload) "customer_email") = true
    ∧ truthy (get data "status") = true
    ∧ truthy (UPIGateway.paymentUrlOf data) = true
    ∧ r = {| pc_data :=
               list_to_map [("order_id", finalClientTxnId);
                            ("payment_url", UPIGateway.paymentUrlOf data);
                            ("client_txn_id", finalClientTxnId)];
             pc_msg := "Payment initiated successfully";
             pc_paymentLink := UPIGateway.paymentUrlOf data;
             pc_orderId := finalClientTxnId;
             pc_transactionId := finalClientTxnId;
             pc_gatewayTransactionId := VUndef;
             pc_rawResponse := data |}.
Proof.
  intros H p finalClientTxnId payload. unfold UPIGateway.createPayment in H.
  cbv beta zeta in H. fold_props paymentData H.
  fold p in H. fold finalClientTxnId in H. fold payload in H.
  destruct (truthy (p "amount")) eqn:Ha; [|dead H]. live H.
  destruct (truthy_s (UPIGateway.key gw)) eqn:Hk; [|dead H]. live H.
  change (default VUndef (payload !! "customer_email"))
    with (get (VObj payload) "customer_email") in H.
  destruct (truthy (get (VObj payload) "customer_email")) eqn:He; [|dead H]. live H.
  unfold postJson in H.
  destruct (up _ payload) as [data|e] eqn:Hup; [|dead H].
  run H.
  assert (Hgo : ∀ X : Outcome CreateResult,
    try_catch
      match data with
      | VUndef => typeError "Cannot read properties of undefined (reading 'status')"
      | VNull => typeError "Cannot read properties of null (reading 'status')"
      | _ => X
      end
      (λ error, Returned (NotCreated
         (VStr match err_response error with
               | Some (c, d) => "Status: " ++ pretty c ++ " - " ++ JSON_stringify d
               | None => err_message error
               end)
         (VStr ("UPI payment failed: " ++
                match err_response error with
                | Some (c, d) => "Status: " ++ pretty c ++ " - " ++ JSON_stringify d
                | None => err_message error
                end))))
    = Returned (Created r) →
    try_catch X
      (λ error, Returned (NotCreated
         (VStr match err_response error with
               | Some (c, d) => "Status: " ++ pretty c ++ " - " ++ JSON_stringify d
               | None => err_message error
               end)
         (VStr ("UPI payment failed: " ++
                match err_response error with
                | Some (c, d) => "Status: " ++ pretty c ++ " - " ++ JSON_stringify d
                | None => err_message error
                end))))
    = Returned (Created r)).
  { intros X HX. destruct data; try exact HX; dead HX. }
  apply Hgo in H. clear Hgo.
  destruct (truthy (get data "status")) eqn:Hs.
  2:{ exfalso. live H.
      match type of H with context [throwVal ?v] =>
        destruct (throwVal_thrown (A:=CreateResult) v) as [e4 He4]; rewrite He4 in H end.
      dead H. }
  live H.
  destruct (truthy (UPIGateway.paymentUrlOf data)) eqn:Hp; [|dead H]. live H.
  run H. exists data. repeat (split; [done|]). by injection H as <-.
Qed.

(** X7. What a successful [createPayment] of the UPI adapter stands for:
    one order was posted to [create_order] and answered with a truthy
    [status]; the order carries the trimmed key, a non-empty
    [customer_email] and, as [client_txn_id], the reference of the payment,
    which is [client_txn_id], else [transactionId], else [txnid] of the
    request, else a generated one; the result keeps that reference as
    [transactionId], [orderId], [data.order_id] and [data.client_txn_id],
    sets no [gatewayTransactionId], and links to the first address found
    under [data.payment_url], [payment_url], [data.upi_url], [upi_url] of
    the answer. *)
Theorem upi_createPayment_created (JSON_stringify : jsval → string)
    (gw : UPIGateway.instance) (up : UpstreamJson) (clock suffix : string)
    (paymentData : Obj) (r : PaymentCreated) :
  UPIGateway.createPayment JSON_stringify gw up clock suffix paymentData
  = Returned (Created r) →
  let p := get (VObj paymentData) in
  ∃ payload,
    up (UPIGateway.baseUrl gw ++ "/create_order") payload = Resolved (pc_rawResponse r)
    ∧ payload !! "key" = Some (VStr (trim (default "" (UPIGateway.key gw))))
    ∧ payload !! "client_txn_id" = Some (pc_transactionId r)
    ∧ truthy (get (VObj payload) "customer_email") = true
    ∧ pc_transactionId r
      = js_or (js_or (js_or (p "client_txn_id") (p "transactionId")) (p "txnid"))
              (VStr (generatedId clock suffix))
    ∧ pc_orderId r = pc_transactionId r
    ∧ pc_data r !! "order_id" = Some (pc_transactionId r)
    ∧ pc_data r !! "client_txn_id" = Some (pc_transactionId r)
    ∧ pc_gatewayTransactionId r = VUndef
    ∧ truthy (get (pc_rawResponse r) "status") = true
    ∧ pc_paymentLink r = UPIGateway.paymentUrlOf (pc_rawResponse r)
    ∧ truthy (pc_paymentLink r) = true.
Proof.
  intros H p. apply upi_createPayment_inv in H.
  destruct H as (data & Hup & _ & _ & He & Hs & Hp & ->).
  eexists. split; [exact Hup|]. simpl.
  split; [reflexivity|]. split; [reflexivity|]. split; [exact He|].
  repeat (split; [reflexivity|]). split; [exact Hs|]. split; [reflexivity|exact Hp].
Qed.

Lemma upi_createPayment_created_witness :
  ∃ payload,
    upJson_created (UPIGateway.baseUrl upi_fixture ++ "/create_order") payload
    = Resolved (pc_rawResponse upi_created_fixture)
    ∧ payload !! "key" = Some (VStr (trim (default "" (UPIGateway.key upi_fixture))))
    ∧ payload !! "client_txn_id" = Some (pc_transactionId upi_created_fixture)
    ∧ truthy (get (VObj payload) "customer_email") = true
    ∧ pc_transactionId upi_created_fixture
      = js_or (js_or (js_or (get (VObj upi_request) "client_txn_id")
                            (get (VObj upi_request) "transactionId"))
                     (get (VObj upi_request) "txnid"))
              (VStr (generatedId "1705312800000" "K3J9X0Q2A"))
    ∧ pc_orderId upi_created_fixture = pc_transactionId upi_created_fixture
    ∧ pc_data upi_created_fixture !! "order_id" = Some (pc_transactionId upi_created_fixture)
    ∧ pc_data upi_created_fixture !! "client_txn_id"
      = Some (pc_transactionId upi_created_fixture)
    ∧ pc_gatewayTransactionId upi_created_fixture = VUndef
    ∧ truthy (get (pc_rawResponse upi_created_fixture) "status") = true
    ∧ pc_paymentLink upi_created_fixture
      = UPIGateway.paymentUrlOf (pc_rawResponse upi_created_fixture)
    ∧ truthy (pc_paymentLink upi_created_fixture) = true.
Proof.
  apply (upi_createPayment_created json_fixture upi_fixture upJson_created
           "1705312800000" "K3J9X0Q2A" upi_request upi_created_fixture).
  reflexivity.
Defined.

Lemma is_digit_unreserved c : is_digit c = true → is_unreserved c = true.
Proof. intros H. unfold is_unreserved. rewrite H. by rewrite !orb_true_r. Qed.

Lemma is_hyphen_unreserved c : is_hyphen c = true → is_unreserved c = true.
Proof. unfold is_hyphen. intros ->%Ascii.eqb_eq. reflexivity. Qed.

(** A date the pattern accepts is left as it is by [encodeURIComponent]. *)
Lemma datePattern_encode s : datePattern s = true → encodeURIComponent s = s.
Proof.
  unfold datePattern. intros H.
  destruct s as [|d1 [|d2 [|h1 [|m1 [|m2 [|h2 [|y1 [|y2 [|y3 [|y4 [|? ?]]]]]]]]]]];
    cbn [list_ascii_of_string] in H; try discriminate H.
  do 9 (apply andb_true_iff in H as [H ?]).
  cbn [encodeURIComponent].
  repeat match goal with
  | D : is_digit ?c = true |- _ => rewrite (is_digit_unreserved c D); clear D
  | D : is_hyphen ?c = true |- _ => rewrite (is_hyphen_unreserved c D); clear D
  end.
  reflexivity.
Qed.

Lemma datePattern_length s : datePattern s = true → String.length s = 10%nat.
Proof.
  unfold datePattern. intros H.
  destruct s as [|d1 [|d2 [|h1 [|m1 [|m2 [|h2 [|y1 [|y2 [|y3 [|y4 [|? ?]]]]]]]]]]];
    cbn [list_ascii_of_string] in H; try discriminate H.
  reflexivity.
Qed.

Lemma byDate_inv JSON_stringify gw merchantEmailVar up transactionDate
    data transactions count pagination rawResponse :
  EasebuzzGateway.retrieveTransactionsByDate JSON_stringify gw merchantEmailVar up
    transactionDate = Returned (Report data transactions count pagination rawResponse) →
  ∃ date answer,
    transactionDate = VStr date
    ∧ datePattern (trim date) = true
    ∧ up "https://dashboard.easebuzz.in//transaction/v1/retrieve/date"
         (list_to_map
            [("merchant_key", trim (EasebuzzGateway.key gw));
             ("transaction_date", encodeURIComponent (trim date));
             ("merchant_email",
              toLowerCase (trim (default "" (or_s merchantEmailVar (Some "")))));
             ("hash",
              Sha512.sha512
                (pipe [trim (EasebuzzGateway.key gw);
                       toLowerCase (trim (default "" (or_s merchantEmailVar (Some ""))));
                       encodeURIComponent (trim date);
                       trim (EasebuzzGateway.salt gw)]))])
       = Resolved answer
    ∧ truthy data = true
    ∧ transactions = EasebuzzGateway.asArray data
    ∧ count = EasebuzzGateway.countOf data.
Proof.
  intros H. unfold EasebuzzGateway.retrieveTransactionsByDate in H.
  cbv beta zeta in H.
  destruct (truthy transactionDate) eqn:Ht; [|dead H]. live H.
  destruct (String.eqb (trim (default "" (or_s merchantEmailVar (Some "")))) "");
    [dead H|].
  destruct transactionDate as [| | | |date| |]; try dead H.
  unfold EasebuzzGateway.trim_method in H. run H.
  destruct (datePattern (trim date)) eqn:Hp; [|dead H]. live H.
  destruct (String.eqb (trim (EasebuzzGateway.key gw)) ""
            || String.eqb (trim (EasebuzzGateway.salt gw)) ""); [dead H|].
  unfold post in H.
  match type of H with context [up ?u ?f] => destruct (up u f) as [answer|e] eqn:Hup end;
    [|dead H].
  run H.
  match type of H with context [negb (truthy ?t)] =>
    destruct (truthy t) eqn:Hd; [|dead H] end.
  live H. run H. injection H as <- <- <- _ _.
  exists date, answer. split; [done|]. split; [done|]. split; [exact Hup|]. done.
Qed.

Lemma asArray_count t : ∃ l, EasebuzzGateway.asArray t = VArr l
                             ∧ EasebuzzGateway.countOf t = length l.
Proof. destruct t; simpl; eauto. Qed.

Lemma byDateRange_count JSON_stringify Date_time gw merchantEmailVar up startDate endDate
    data transactions count pagination rawResponse :
  EasebuzzGateway.retrieveTransactionsByDateRange JSON_stringify Date_time gw
    merchantEmailVar up startDate endDate
  = Returned (Report data transactions count pagination rawResponse) →
  ∃ l, transactions = VArr l ∧ count = length l.
Proof.
  intros H. unfold EasebuzzGateway.retrieveTransactionsByDateRange in H.
  cbv beta zeta in H.
  destruct (truthy startDate); [|dead H]. live H.
  destruct (truthy endDate); [|dead H]. live H.
  destruct (String.eqb (trim (default "" (or_s merchantEmailVar (Some "")))) "");
    [dead H|].
  destruct startDate as [| | | |s| |]; try dead H.
  destruct endDate as [| | | |e| |]; try dead H.
  unfold EasebuzzGateway.trim_method in H. run H.
  destruct (datePattern (trim s)); [|dead H]. live H.
  destruct (datePattern (trim e)); [|dead H]. live H.
  destruct (EasebuzzGateway.dateBefore Date_time _ _); [dead H|].
  destruct (String.eqb (trim (EasebuzzGateway.key gw)) ""
            || String.eqb (trim (EasebuzzGateway.salt gw)) ""); [dead H|].
  unfold postJson in H.
  match type of H with context [up ?u ?f] => destruct (up u f) as [answer|err] end;
    [|dead H].
  run H. injection H as _ <- <- _ _.
  match goal with |- context [isArray ?t] => destruct t as [| | | | |l|] end;
    simpl; eauto.
  - destruct b; simpl; eauto.
  - destruct (negb (n =? 0)%Z); simpl; eauto.
  - destruct (negb (String.eqb s0 "")); simpl; eauto.
Qed.

(** X8. Whenever a retrieval by date or by date range succeeds, the
    [transactions] it returns is an array and [count] is its length,
    whatever shape the answer of the dashboard had. *)
Theorem report_count (JSON_stringify : jsval → string) (Date_time : string → option Z)
    (gw : EasebuzzGateway.instance) (merchantEmailVar : option string)
    (data transactions : jsval) (count : nat) (pagination rawResponse : jsval) :
  (∀ up transactionDate,
     EasebuzzGateway.retrieveTransactionsByDate JSON_stringify gw merchantEmailVar up
       transactionDate = Returned (Report data transactions count pagination rawResponse) →
     ∃ l, transactions = VArr l ∧ count = length l)
  ∧ (∀ up startDate endDate,
       EasebuzzGateway.retrieveTransactionsByDateRange JSON_stringify Date_time gw
         merchantEmailVar up startDate endDate
       = Returned (Report data transactions count pagination rawResponse) →
       ∃ l, transactions = VArr l ∧ count = length l).
Proof.
  split.
  - intros up d H. apply byDate_inv in H as (? & ? & _ & _ & _ & _ & -> & ->).
    apply asArray_count.
  - intros up s e H. by apply byDateRange_count in H.
Qed.

(** X9. What a successful retrieval by date stands for: the date, once
    trimmed, has the form [dd-mm-yyyy]; one form was posted to the
    address the adapter builds for [transaction/v1/retrieve/date]; the
    form carries the trimmed date as it is (the encoding leaves such a
    date unchanged), the merchant address trimmed and in lower case, and
    the digest of [key|merchant_email|date|salt]. *)
Theorem retrieveTransactionsByDate_request (JSON_stringify : jsval → string)
    (gw : EasebuzzGateway.instance) (merchantEmailVar : option string) (up : Upstream)
    (transactionDate data transactions : jsval) (count : nat)
    (pagination rawResponse : jsval) :
  EasebuzzGateway.retrieveTransactionsByDate JSON_stringify gw merchantEmailVar up
    transactionDate = Returned (Report data transactions count pagination rawResponse) →
  ∃ date form answer,
    transactionDate = VStr date
    ∧ datePattern (trim date) = true
    ∧ up "https://dashboard.easebuzz.in//transaction/v1/retrieve/date" form
      = Resolved answer
    ∧ form !! "merchant_key" = Some (trim (EasebuzzGateway.key gw))
    ∧ form !! "transaction_date" = Some (trim date)
    ∧ form !! "merchant_email"
      = Some (toLowerCase (trim (default "" merchantEmailVar)))
    ∧ form !! "hash"
      = Some (Sha512.sha512
                (pipe [trim (EasebuzzGateway.key gw);
                       toLowerCase (trim (default "" merchantEmailVar));
                       trim date;
                       trim (EasebuzzGateway.salt gw)])).
Proof.
  intros H. apply byDate_inv in H as (date & answer & -> & Hp & Hup & _).
  rewrite (datePattern_encode _ Hp) in Hup.
  assert (default "" (or_s merchantEmailVar (Some "")) = default "" merchantEmailVar) as He.
  { destruct merchantEmailVar as [m|]; [|done]. apply default_or_s_empty. }
  rewrite He in Hup.
  eexists date, _, answer. split; [done|]. split; [done|]. split; [exact Hup|].
  repeat split.
Qed.

Lemma retrieveTransactionsByDate_request_witness :
  ∃ date form answer,
    day_fixture = VStr date
    ∧ datePattern (trim date) = true
    ∧ up_listing "https://dashboard.easebuzz.in//transaction/v1/retrieve/date" form
      = Resolved answer
    ∧ form !! "merchant_key" = Some (trim (EasebuzzGateway.key gw_fixture))
    ∧ form !! "transaction_date" = Some (trim date)
    ∧ form !! "merchant_email"
      = Some (toLowerCase (trim (default "" merchant_fixture)))
    ∧ form !! "hash"
      = Some (Sha512.sha512
                (pipe [trim (EasebuzzGateway.key gw_fixture);
                       toLowerCase (trim (default "" merchant_fixture));
                       trim date;
                       trim (EasebuzzGateway.salt gw_fixture)])).
Proof.
  apply (retrieveTransactionsByDate_request json_fixture gw_fixture merchant_fixture
           up_listing day_fixture
           (VArr [VObj {[ "txnid" := VStr "TXN1" ]}; VObj {[ "txnid" := VStr "TXN2" ]}])
           (VArr [VObj {[ "txnid" := VStr "TXN1" ]}; VObj {[ "txnid" := VStr "TXN2" ]}])
           2%nat VUndef VUndef).
  reflexivity.
Defined.

Lemma truthy_VStr_ne s : s ≠ "" → truthy (VStr s) = true.
Proof. intros H. simpl. by destruct (String.eqb_spec s ""). Qed.

Lemma eqb_ne (a b : string) : a ≠ b → String.eqb a b = false.
Proof. intros H. by destruct (String.eqb_spec a b). Qed.

(** X10. The dates of the two retrievals are validated before any request
    is made: with the merchant address configured, a date that, once
    trimmed, has not the form [dd-mm-yyyy] is refused with the message of
    its field; in a range the start is checked first, then the end, and
    a range whose end lies before its start is refused.  Each refusal is
    the same whatever the dashboard would answer. *)
Theorem report_dates_validated (JSON_stringify : jsval → string)
    (Date_time : string → option Z) (gw : EasebuzzGateway.instance)
    (merchantEmailVar : option string) (up : Upstream) (upJson : UpstreamJson)
    (startDate endDate : string) :
  trim (default "" merchantEmailVar) ≠ "" →
  startDate ≠ "" →
  endDate ≠ "" →
  let byDate :=
    EasebuzzGateway.retrieveTransactionsByDate JSON_stringify gw merchantEmailVar up
      (VStr startDate) in
  let byRange :=
    EasebuzzGateway.retrieveTransactionsByDateRange JSON_stringify Date_time gw
      merchantEmailVar upJson (VStr startDate) (VStr endDate) in
  (datePattern (trim startDate) = false →
   byDate = noReport "Transaction date must be in dd-mm-yyyy format (e.g., 15-01-2024)"
   ∧ byRange = noReport "Start date must be in dd-mm-yyyy format (e.g., 10-05-2024)")
  ∧ (datePattern (trim startDate) = true → datePattern (trim endDate) = false →
     byRange = noReport "End date must be in dd-mm-yyyy format (e.g., 23-08-2024)")
  ∧ (datePattern (trim startDate) = true → datePattern (trim endDate) = true →
     EasebuzzGateway.dateBefore Date_time (isoOfDate (trim endDate))
       (isoOfDate (trim startDate)) = true →
     byRange = noReport "End date must be greater than or equal to start date").
Proof.
  intros Hm Hs He byDate byRange. subst byDate byRange.
  assert (default "" (or_s merchantEmailVar (Some "")) = default "" merchantEmailVar) as Hd.
  { destruct merchantEmailVar as [m|]; [|done]. apply default_or_s_empty. }
  unfold EasebuzzGateway.retrieveTransactionsByDate,
    EasebuzzGateway.retrieveTransactionsByDateRange.
  cbv beta zeta.
  rewrite Hd, (eqb_ne _ _ Hm), !(truthy_VStr_ne _ Hs), (truthy_VStr_ne _ He).
  cbn [negb EasebuzzGateway.trim_method mbind Outcome_bind].
  split; [|split].
  - intros ->. split; reflexivity.
  - intros -> ->. reflexivity.
  - intros -> -> ->. reflexivity.
Qed.

Lemma report_dates_validated_witness :
  (datePattern (trim "2024-01-15") = false →
   EasebuzzGateway.retrieveTransactionsByDate json_fixture gw_fixture merchant_fixture
     up_listing (VStr "2024-01-15")
   = noReport "Transaction date must be in dd-mm-yyyy format (e.g., 15-01-2024)"
   ∧ EasebuzzGateway.retrieveTransactionsByDateRange json_fixture (λ _, None) gw_fixture
       merchant_fixture (λ _ _, Resolved VNull) (VStr "2024-01-15") (VStr "16-01-2024")
     = noReport "Start date must be in dd-mm-yyyy format (e.g., 10-05-2024)")
  ∧ (datePattern (trim "2024-01-15") = true → datePattern (trim "16-01-2024") = false →
     EasebuzzGateway.retrieveTransactionsByDateRange json_fixture (λ _, None) gw_fixture
       merchant_fixture (λ _ _, Resolved VNull) (VStr "2024-01-15") (VStr "16-01-2024")
     = noReport "End date must be in dd-mm-yyyy format (e.g., 23-08-2024)")
  ∧ (datePattern (trim "2024-01-15") = true → datePattern (trim "16-01-2024") = true →
     EasebuzzGateway.dateBefore (λ _, None) (isoOfDate (trim "16-01-2024"))
       (isoOfDate (trim "2024-01-15")) = true →
     EasebuzzGateway.retrieveTransactionsByDateRange json_fixture (λ _, None) gw_fixture
       merchant_fixture (λ _ _, Resolved VNull) (VStr "2024-01-15") (VStr "16-01-2024")
     = noReport "End date must be greater than or equal to start date").
Proof.
  apply (report_dates_validated json_fixture (λ _, None) gw_fixture merchant_fixture
           up_listing (λ _ _, Resolved VNull) "2024-01-15" "16-01-2024");
    vm_compute; congruence.
Defined.

Lemma try_catch_returns {A} (body : Outcome A) (handler : JsError → Outcome A) :
  (∀ e, ∃ r, handler e = Returned r) → ∃ r, try_catch body handler = Returned r.
Proof. intros H. destruct body as [a|e]; simpl; eauto. Qed.

Ltac alike H :=
  cbv [negb try_catch throw typeError mret mbind Outcome_ret Outcome_bind] in H;
  let H1 := fresh in let H2 := fresh in injection H as H1 H2; congruence.

Lemma createPayment_failure URL_set toFixed2_of JSON_stringify gw up clock suffix
    (paymentData : Obj) error msg :
  EasebuzzGateway.createPayment URL_set toFixed2_of JSON_stringify gw up clock suffix
    paymentData = Returned (NotCreated error msg) →
  error = msg.
Proof.
  intros H. unfold EasebuzzGateway.createPayment in H.
  cbv beta zeta in H. fold_props paymentData H.
  set (p := get (VObj paymentData)) in H.
  destruct (truthy (p "amount")); [|alike H]. live H.
  destruct (String.eqb (EasebuzzGateway.key gw) "" || String.eqb (trim (EasebuzzGateway.key gw)) "");
    [alike H|]. live H.
  destruct (String.eqb (EasebuzzGateway.salt gw) "" || String.eqb (trim (EasebuzzGateway.salt gw)) "");
    [alike H|]. live H.
  destruct (truthy (p "email")); [|alike H]. live H.
  destruct (EasebuzzGateway.blank "finalSurl" _) as [[|]|e1]; [alike H| |alike H].
  run H.
  destruct (EasebuzzGateway.blank "finalFurl" _) as [noFurl|e2]; [|alike H].
  run H.
  match type of H with context [negb ?a || negb ?b] =>
    destruct (negb a || negb b) end; [alike H|].
  destruct (String.eqb (trim (EasebuzzGateway.key gw)) ""); [alike H|].
  destruct (String.eqb (trim (EasebuzzGateway.salt gw)) ""); [alike H|].
  unfold post in H.
  match type of H with context [up ?u ?f] => destruct (up u f) as [data|e3] end.
  2:{ run H.
      match type of H with context [throwVal ?v] =>
        destruct (throwVal_thrown (A:=jsval) v) as [e4 He4]; rewrite He4 in H end.
      alike H. }
  run H.
  destruct (truthy data && is_one (get data "status")).
  - run H. discriminate H.
  - destruct (truthy data).
    + match type of H with context [throwVal ?v] =>
        destruct (throwVal_thrown (A:=CreateResult) v) as [e4 He4]; rewrite He4 in H end.
      alike H.
    + alike H.
Qed.

(** X11. Creating a payment and retrieving transactions by date never
    throw: on every input, whatever the gateway answers or however the
    request to it fails, [createPayment] of both adapters and the two
    retrievals by date return a result object; a failure of
    [createPayment] of the hosted-checkout adapter carries the same value
    as [error] and as [msg]. *)
Theorem adapters_return (URL_set : string → list (string * string) → option string)
    (toFixed2_of : jsval → string) (JSON_stringify : jsval → string)
    (Date_time : string → option Z)
    (easebuzz : EasebuzzGateway.instance) (upi : UPIGateway.instance)
    (up : Upstream) (upJson : UpstreamJson) (clock suffix : string) (paymentData : Obj)
    (merchantEmailVar : option string) (startDate endDate : jsval) :
  (∃ r, EasebuzzGateway.createPayment URL_set toFixed2_of JSON_stringify easebuzz up
          clock suffix paymentData = Returned r
        ∧ ∀ error msg, r = NotCreated error msg → error = msg)
  ∧ (∃ r, UPIGateway.createPayment JSON_stringify upi upJson clock suffix paymentData
          = Returned r)
  ∧ (∃ r, EasebuzzGateway.retrieveTransactionsByDate JSON_stringify easebuzz
            merchantEmailVar up startDate = Returned r)
  ∧ (∃ r, EasebuzzGateway.retrieveTransactionsByDateRange JSON_stringify Date_time
            easebuzz merchantEmailVar upJson startDate endDate = Returned r).
Proof.
  split; [|split; [|split]].
  - assert (∃ r, EasebuzzGateway.createPayment URL_set toFixed2_of JSON_stringify
                   easebuzz up clock suffix paymentData = Returned r) as [r Hr].
    { apply try_catch_returns. intros e. eexists. reflexivity. }
    exists r. split; [exact Hr|]. intros error msg ->.
    by apply createPayment_failure in Hr.
  - apply try_catch_returns. intros e. eexists. reflexivity.
  - apply try_catch_returns. intros e. eexists. reflexivity.
  - apply try_catch_returns. intros e. eexists. reflexivity.
Qed.

Lemma truthy_js_or a b : truthy (js_or a b) = truthy a || truthy b.
Proof. unfold js_or. by destruct (truthy a) eqn:E; rewrite ?E. Qed.

Lemma generatedId_truthy clock suffix : truthy (VStr (generatedId clock suffix)) = true.
Proof. reflexivity. Qed.

Lemma request_txnid tid paymentData :
  get (VObj (PaymentService.gatewayPaymentData tid paymentData)) "txnid" = VStr tid.
Proof. reflexivity. Qed.

Lemma request_client_txn_id tid paymentData :
  get (VObj (PaymentService.gatewayPaymentData tid paymentData)) "client_txn_id"
  = js_or (get (VObj paymentData) "client_txn_id") (VStr tid).
Proof. reflexivity. Qed.

Lemma initiatePayment_inv URL_set toFixed2_of JSON_stringify svc users methods up upJson
    clock suffix clock' suffix' userId (paymentData : Obj) i :
  PaymentService.initiatePayment URL_set toFixed2_of JSON_stringify svc users methods
    up upJson clock suffix clock' suffix' userId paymentData = Returned i →
  ∃ name g,
    PaymentService.in_gateway i = VStr name
    ∧ PaymentService.gatewayFor users methods userId paymentData = Returned (VStr name)
    ∧ PaymentService.getGateway svc name = Returned g
    ∧ PaymentService.in_transactionId i = generatedId clock suffix
    ∧ PaymentService.in_request i
      = PaymentService.gatewayPaymentData (generatedId clock suffix) paymentData
    ∧ match g with
      | PaymentService.Easebuzz g =>
        EasebuzzGateway.createPayment URL_set toFixed2_of JSON_stringify g up clock' suffix'
          (PaymentService.in_request i)
      | PaymentService.Upi g =>
        UPIGateway.createPayment JSON_stringify g upJson clock' suffix'
          (PaymentService.in_request i)
      end = Returned (Created (PaymentService.in_response i)).
Proof.
  intros H. unfold PaymentService.initiatePayment in H.
  destruct (PaymentService.gatewayFor users methods userId paymentData) as [gateway|e]
    eqn:Hg; [|discriminate H].
  run H.
  destruct gateway as [| | | |name| |]; try discriminate H.
  destruct (PaymentService.getGateway svc name) as [g|e] eqn:Hgw; [|discriminate H].
  run H.
  exists name, g.
  destruct g as [g|g].
  - destruct (EasebuzzGateway.createPayment _ _ _ _ _ _ _ _)
      as [[r|error msg]|e] eqn:Hc; run H.
    + injection H as <-. do 2 (split; [reflexivity|]). split; [exact Hgw|].
      do 2 (split; [reflexivity|]). exact Hc.
    + exfalso. destruct (throwVal_thrown (A:=PaymentService.Initiated)
                           (js_or (js_or error msg) (VStr "Payment creation failed")))
        as [e He]. rewrite He in H. discriminate H.
    + discriminate H.
  - destruct (UPIGateway.createPayment _ _ _ _ _ _)
      as [[r|error msg]|e] eqn:Hc; run H.
    + injection H as <-. do 2 (split; [reflexivity|]). split; [exact Hgw|].
      do 2 (split; [reflexivity|]). exact Hc.
    + exfalso. destruct (throwVal_thrown (A:=PaymentService.Initiated)
                           (js_or (js_or error msg) (VStr "Payment creation failed")))
        as [e He]. rewrite He in H. discriminate H.
    + discriminate H.
Qed.

Lemma getGateway_kind svc name g :
  PaymentService.getGateway svc name = Returned g →
  match g with
  | PaymentService.Easebuzz _ => toLowerCase name = "easebuzz"
  | PaymentService.Upi _ => toLowerCase name = "upigateway"
  end.
Proof.
  unfold PaymentService.getGateway.
  destruct (String.eqb_spec (toLowerCase name) "easebuzz") as [E|E].
  - destruct (PaymentService.easebuzz svc); simpl; [|discriminate]. by intros [= <-].
  - destruct (String.eqb_spec (toLowerCase name) "upigateway") as [U|U]; [|discriminate].
    destruct (PaymentService.upigateway svc); simpl; [|discriminate]. by intros [= <-].
Qed.

(** X12. The reference under which a payment is created.  Whenever
    [createPayment] of the orchestrator gets a payment created, the
    reference it generated is the one the hosted-checkout gateway was
    given, whatever [txnid] or [transactionId] the request carried; the
    UPI gateway was given the [client_txn_id] of the request when there is
    one, and the generated reference otherwise.  In both cases the
    adapter returns that reference as [transactionId] and [orderId]. *)
Theorem initiatePayment_reference
    (URL_set : string → list (string * string) → option string)
    (toFixed2_of : jsval → string) (JSON_stringify : jsval → string)
    (svc : PaymentService.t) (users : list PaymentService.User)
    (methods : list PaymentService.PaymentMethod) (up : Upstream) (upJson : UpstreamJson)
    (clock suffix clock' suffix' userId : string) (paymentData : Obj)
    (i : PaymentService.Initiated) :
  PaymentService.initiatePayment URL_set toFixed2_of JSON_stringify svc users methods
    up upJson clock suffix clock' suffix' userId paymentData = Returned i →
  let reference := pc_transactionId (PaymentService.in_response i) in
  ∃ name,
    PaymentService.in_gateway i = VStr name
    ∧ (toLowerCase name = "easebuzz" ∨ toLowerCase name = "upigateway")
    ∧ PaymentService.in_transactionId i = generatedId clock suffix
    ∧ (toLowerCase name = "easebuzz" →
       reference = VStr (PaymentService.in_transactionId i))
    ∧ (toLowerCase name = "upigateway" →
       reference = js_or (get (VObj paymentData) "client_txn_id")
                         (VStr (PaymentService.in_transactionId i)))
    ∧ pc_orderId (PaymentService.in_response i) = reference.
Proof.
  intros H reference. subst reference.
  apply initiatePayment_inv in H as (name & g & Hn & _ & Hg & Ht & Hr & Hc).
  exists name. split; [exact Hn|]. apply getGateway_kind in Hg.
  rewrite Hr in Hc. rewrite Ht. destruct g as [g|g].
  - apply createPayment_inv in Hc as (? & ? & ? & _ & _ & _ & _ & _ & _ & ->).
    rewrite request_txnid. cbn [pc_transactionId pc_orderId].
    split; [by left|]. split; [done|]. rewrite Hg. split; [|split]; done.
  - apply upi_createPayment_inv in Hc as (? & _ & _ & _ & _ & _ & _ & ->).
    rewrite request_client_txn_id. cbn [pc_transactionId pc_orderId].
    split; [by right|]. split; [done|]. rewrite Hg. split; [done|]. split; [|done].
    intros _.
    assert (truthy (js_or (get (VObj paymentData) "client_txn_id")
                          (VStr (generatedId clock suffix))) = true) as Hc.
    { by rewrite truthy_js_or, generatedId_truthy, orb_true_r. }
    rewrite (js_or_truthy _ _ Hc), (js_or_truthy _ _ Hc). by apply js_or_truthy.
Qed.

Lemma initiatePayment_reference_witness :
  ∃ name,
    PaymentService.in_gateway initiated_fixture = VStr name
    ∧ (toLowerCase name = "easebuzz" ∨ toLowerCase name = "upigateway")
    ∧ PaymentService.in_transactionId initiated_fixture
      = generatedId "1705312800000" "K3J9X0Q2A"
    ∧ (toLowerCase name = "easebuzz" →
       pc_transactionId (PaymentService.in_response initiated_fixture)
       = VStr (PaymentService.in_transactionId initiated_fixture))
    ∧ (toLowerCase name = "upigateway" →
       pc_transactionId (PaymentService.in_response initiated_fixture)
       = js_or (get (VObj pay_request) "client_txn_id")
               (VStr (PaymentService.in_transactionId initiated_fixture)))
    ∧ pc_orderId (PaymentService.in_response initiated_fixture)
      = pc_transactionId (PaymentService.in_response initiated_fixture).
Proof.
  apply (initiatePayment_reference url_fixture toFixed2_fixture json_fixture svc_fixture
           users_fixture methods_fixture up_created upJson_created
           "1705312800000" "K3J9X0Q2A" "1705312800001" "Z0000000A" "u1" pay_request
           initiated_fixture).
  reflexivity.
Defined.

Lemma truthy_ors l d : truthy (PaymentService.ors l d) = existsb truthy l || truthy d.
Proof.
  induction l as [|a l IH]; simpl; [done|].
  by rewrite truthy_js_or, IH, orb_assoc.
Qed.

(** X13. Contact details reach both adapters under any of their names.
    In the request the orchestrator hands to an adapter, the address the
    hosted-checkout adapter validates ([email]) and the one the UPI
    adapter validates ([customer_email] of its order) are present exactly
    when the caller gave an address as [email], [customerEmail] or
    [customer_email]; likewise the telephone number of the hosted-checkout
    form ([phone]) and of the UPI order ([customer_mobile]) for [phone],
    [customerPhone] and [customer_mobile]. *)
Theorem contact_aliases (transactionId trimmedKey : string) (reference : jsval)
    (paymentData : Obj) :
  let p := get (VObj paymentData) in
  let request := PaymentService.gatewayPaymentData transactionId paymentData in
  let order := UPIGateway.createPayload trimmedKey reference request in
  let anyEmail :=
    truthy (p "email") || truthy (p "customerEmail") || truthy (p "customer_email") in
  let anyPhone :=
    truthy (p "phone") || truthy (p "customerPhone") || truthy (p "customer_mobile") in
  truthy (get (VObj request) "email") = anyEmail
  ∧ truthy (get (VObj order) "customer_email") = anyEmail
  ∧ truthy (get (VObj request) "phone") = anyPhone
  ∧ truthy (get (VObj order) "customer_mobile") = anyPhone.
Proof.
  intros p request order anyEmail anyPhone.
  assert (Hreq : ∀ k v, PaymentService.gatewayPaymentData transactionId paymentData !! k
                        = Some v → get (VObj request) k = v).
  { intros k v H. subst request. cbn [get]. by rewrite H. }
  assert (He : get (VObj request) "email"
               = PaymentService.ors [p "email"; p "customerEmail"; p "customer_email"]
                   (VStr "")) by (apply Hreq; reflexivity).
  assert (Hce : get (VObj request) "customerEmail"
                = PaymentService.ors [p "customerEmail"; p "customer_email"; p "email"]
                    (VStr "")) by (apply Hreq; reflexivity).
  assert (Hc_e : get (VObj request) "customer_email"
                 = PaymentService.ors [p "customer_email"; p "customerEmail"; p "email"]
                     (VStr "")) by (apply Hreq; reflexivity).
  assert (Hp : get (VObj request) "phone"
               = PaymentService.ors [p "phone"; p "customerPhone"; p "customer_mobile"]
                   (VStr "")) by (apply Hreq; reflexivity).
  assert (Hcp : get (VObj request) "customerPhone"
                = PaymentService.ors [p "customerPhone"; p "customer_mobile"; p "phone"]
                    (VStr "")) by (apply Hreq; reflexivity).
  assert (Hcm : get (VObj request) "customer_mobile"
                = PaymentService.ors [p "customer_mobile"; p "customerPhone"; p "phone"]
                    (VStr "")) by (apply Hreq; reflexivity).
  assert (Hoe : get (VObj order) "customer_email"
                = js_or (js_or (js_or (get (VObj request) "customer_email")
                                      (get (VObj request) "customerEmail"))
                               (get (VObj request) "email"))
                        (VStr "")) by reflexivity.
  assert (Hom : get (VObj order) "customer_mobile"
                = js_or (js_or (js_or (get (VObj request) "customer_mobile")
                                      (get (VObj request) "customerPhone"))
                               (get (VObj request) "phone"))
                        (VStr "")) by reflexivity.
  rewrite Hoe, Hom, !truthy_js_or, He, Hce, Hc_e, Hp, Hcp, Hcm, !truthy_ors.
  subst anyEmail anyPhone. cbn [existsb truthy String.eqb negb].
  destruct (truthy (p "email")), (truthy (p "customerEmail")),
    (truthy (p "customer_email")), (truthy (p "phone")), (truthy (p "customerPhone")),
    (truthy (p "customer_mobile")); repeat split.
Qed.

Lemma sameIdentity_refl x : sameIdentity x x.
Proof. by repeat split. Qed.

Lemma sameIdentity_trans x y z : sameIdentity x y → sameIdentity y z → sameIdentity x z.
Proof.
  intros (?&?&?&?&?&?&?) (?&?&?&?&?&?&?). repeat split; congruence.
Qed.

Ltac identity :=
  repeat match goal with
  | |- context [decide ?P] => destruct (decide P)
  | |- context [if ?b then _ else _] => destruct b
  end; by repeat split.

Lemma sameIdentity_set_status s x : sameIdentity x (Transaction.set_status s x).
Proof. by repeat split. Qed.

Lemma sameIdentity_set_gatewayTransactionId_if i x :
  sameIdentity x (Transaction.set_gatewayTransactionId_if i x).
Proof. unfold Transaction.set_gatewayTransactionId_if. identity. Qed.

Lemma sameIdentity_redirectMerge query now x x' :
  Routes.redirectMerge query now x = Returned x' → sameIdentity x x'.
Proof. intros H. apply redirectMerge_inv in H as (_ & _ & ->). by repeat split. Qed.

Lemma sameIdentity_upiRedirectMerge c t s now x x' :
  Routes.upiRedirectMerge c t s now x = Returned x' → sameIdentity x x'.
Proof.
  intros H. pose proof H as H'. apply upiRedirectMerge_inv in H' as (Hm & _).
  rewrite upiRedirectMerge_fresh in H by done. injection H as <-.
  unfold Transaction.set_gatewayTransactionId_if. identity.
Qed.

Lemma sameIdentity_callbackDocument cb tid st data now x :
  sameIdentity x (callbackDocument cb tid st data now x).
Proof.
  unfold callbackDocument, Transaction.set_gatewayTransactionId_if. identity.
Qed.

Lemma sameIdentity_applyRetrieved td now x :
  sameIdentity x (Routes.applyRetrieved td now x).
Proof.
  unfold Routes.applyRetrieved, Transaction.set_status_if_changed. identity.
Qed.

Lemma sameIdentity_applyStatusResponse sr now x x' :
  PaymentService.applyStatusResponse sr now x = Some x' → sameIdentity x x'.
Proof.
  unfold PaymentService.applyStatusResponse.
  destruct (sr_success sr); [|discriminate].
  destruct (truthy (PaymentService.gatewayStatusOf sr)); [|discriminate].
  case_match; [|discriminate]. intros [= <-].
  unfold Transaction.set_gatewayTransactionId_val, Transaction.set_status_if_changed.
  identity.
Qed.

Ltac identity_rules :=
  first [ exact sameIdentity_refl | exact sameIdentity_trans | exact sameIdentity_set_status
        | exact sameIdentity_set_gatewayTransactionId_if | exact sameIdentity_redirectMerge
        | exact sameIdentity_upiRedirectMerge | exact sameIdentity_callbackDocument
        | exact sameIdentity_applyStatusResponse | exact sameIdentity_applyRetrieved ].

(** X14. No reconciliation adds, removes or re-identifies a payment.
    After a redirect to [/success] or [/failure] or to [/success] of the
    payments router, after a webhook of either gateway, after a status
    poll and after an explicit retrieval, the collection holds the same
    payments place by place: every document keeps its reference, gateway,
    amount, currency, owner, request and time of creation. *)
Theorem reconciliation_keeps_payments (JSON_stringify : jsval → string)
    (svc : PaymentService.t) (env : ProcessEnv) (up : Upstream) (name : string)
    (query body : Form) (txnid transactionId : string) (txn_date : option string)
    (now : Date) (db : Store) :
  samePayments db (Routes.appSuccess svc env query now db).2
  ∧ samePayments db (Routes.appFailure query now db).2
  ∧ samePayments db (Routes.paymentsSuccess query now db).2
  ∧ samePayments db (Routes.webhook name svc env body now db).2
  ∧ samePayments db (Routes.retrieveTransaction JSON_stringify svc env up txnid now db).2
  ∧ (∀ db' x,
       PaymentService.checkPaymentStatus JSON_stringify svc env up transactionId txn_date
         now db = Returned (db', x) →
       samePayments db db').
Proof.
  unfold samePayments.
  split; [apply preserved_appSuccess; identity_rules|].
  split; [apply preserved_appFailure; identity_rules|].
  split; [apply preserved_paymentsSuccess; identity_rules|].
  split; [apply preserved_webhook; identity_rules|].
  split; [apply preserved_retrieveTransaction; identity_rules|].
  intros db' x. apply preserved_checkPaymentStatus; identity_rules.
Qed.

Lemma handleCallback_refused svc g env body now db error :
  PaymentService.easebuzz svc = Some g →
  EasebuzzGateway.handleCallback g env body = CallbackFail error →
  PaymentService.handleCallback svc env "easebuzz" body now db = throw error.
Proof.
  intros Hg Hcb. unfold PaymentService.handleCallback.
  rewrite (getGateway_easebuzz _ _ Hg). cbn [mbind Outcome_bind].
  unfold PaymentService.adapterCallback. by rewrite Hcb.
Qed.

(** X15. In the strict mode ([NODE_ENV=production] and
    [EASEBUZZ_ENV=prod]) the webhook of the hosted-checkout gateway
    refuses every body whose hash is missing or does not verify: it
    answers 500 with the message of the adapter and the collection is
    left as it was. *)
Theorem webhook_strict_refusal (svc : PaymentService.t) (g : EasebuzzGateway.instance)
    (env : ProcessEnv) (body : Form) (now : Date) (db : Store) :
  PaymentService.easebuzz svc = Some g →
  NODE_ENV env = Some "production" →
  EASEBUZZ_ENV env = Some "prod" →
  verifies g body = false →
  Routes.easebuzzResponse svc env body now db
  = (webhookRefused (if truthy_s (body !! "hash") then "Invalid hash verification"
                     else "Hash is required for callback verification"), db).
Proof.
  intros Hg Hn He Hv. unfold Routes.easebuzzResponse, Routes.webhook.
  assert (EasebuzzGateway.handleCallback g env body
          = CallbackFail (if truthy_s (body !! "hash") then "Invalid hash verification"
                          else "Hash is required for callback verification")) as Hcb.
  { unfold EasebuzzGateway.handleCallback. unfold verifies in Hv. rewrite Hv, Hn, He.
    by destruct (truthy_s (body !! "hash")). }
  rewrite (handleCallback_refused _ _ _ _ _ _ _ Hg Hcb).
  by destruct (truthy_s (body !! "hash")).
Qed.

Lemma webhook_strict_refusal_witness :
  Routes.easebuzzResponse svc_fixture env_prod cb_bad_hash "2024-01-15T10:06:00.000Z"
    [tx_fixture]
  = (webhookRefused (if truthy_s (cb_bad_hash !! "hash") then "Invalid hash verification"
                     else "Hash is required for callback verification"), [tx_fixture]).
Proof.
  apply (webhook_strict_refusal svc_fixture gw_fixture env_prod cb_bad_hash
           "2024-01-15T10:06:00.000Z" [tx_fixture]); reflexivity.
Defined.

(** What the hosted-checkout webhook does with a body the adapter lets
    through for a document found by [txnid], when the names cast. *)
Lemma easebuzz_webhook_found svc g env body now db i x :
  PaymentService.easebuzz svc = Some g →
  cb_success (EasebuzzGateway.handleCallback g env body) = true →
  PaymentService.findCallbackTransaction db (body !! "txnid") body = Some (i, x) →
  validKeys body → validKeys (storedResponse x) →
  let x' := callbackDocument body (body !! "txnid")
              (EasebuzzGateway.callbackStatus (body !! "status")) body now x in
  PaymentService.handleCallback svc env "easebuzz" body now db
  = Returned (save i x' db,
              {| PaymentService.co_index := i; PaymentService.co_transaction := x';
                 PaymentService.co_statusChanged :=
                   bool_decide (Transaction.status x ≠ Transaction.status x') |}).
Proof.
  intros Hg Hok Hf Hb Hs. cbv zeta.
  apply (handleCallback_found _ _ _ _ _ _ (PaymentService.Easebuzz g));
    [by apply getGateway_easebuzz| |done..].
  cbn [PaymentService.adapterCallback].
  destruct (easebuzz_handleCallback_cases g env body) as [H|[H|H]];
    rewrite H in Hok; try discriminate Hok. exact H.
Qed.

(** X16. A webhook of the hosted-checkout gateway that the adapter lets
    through overwrites the stored status with the one it carries, whatever
    the stored status was and whichever gateway the transaction belongs
    to: when the names of its fields and the keys the document holds are
    keys a map takes, the document found by [txnid] is saved with
    [success] for the status [success], [failed] for [failure], and
    [pending] for every other status, a settled transaction included. *)
Theorem webhook_overrides_status (svc : PaymentService.t) (g : EasebuzzGateway.instance)
    (env : ProcessEnv) (body : Form) (now : Date) (db : Store) (i : nat)
    (x : Transaction.t) :
  PaymentService.easebuzz svc = Some g →
  cb_success (EasebuzzGateway.handleCallback g env body) = true →
  findOne (λ y, Transaction.transactionId y = body !! "txnid") db = Some (i, x) →
  validKeys body →
  validKeys (storedResponse x) →
  ∃ x',
    Routes.easebuzzResponse svc env body now db = (webhookProcessed, save i x' db)
    ∧ Transaction.status x' = EasebuzzGateway.callbackStatus (body !! "status")
    ∧ sameIdentity x x'.
Proof.
  intros Hg Hok Hf Hb Hs. unfold Routes.easebuzzResponse, Routes.webhook.
  rewrite (easebuzz_webhook_found _ _ _ _ now _ i x Hg Hok); [|by unfold
    PaymentService.findCallbackTransaction; rewrite Hf|done..].
  eexists. split; [reflexivity|]. split.
  - apply callbackDocument_status.
  - apply sameIdentity_callbackDocument.
Qed.

Lemma webhook_overrides_status_witness :
  ∃ x',
    Routes.easebuzzResponse svc_fixture env_unset cb_late "2024-01-15T10:06:00.000Z"
      [tx_fixture; tx_settled]
    = (webhookProcessed, save 1 x' [tx_fixture; tx_settled])
    ∧ Transaction.status x' = EasebuzzGateway.callbackStatus (cb_late !! "status")
    ∧ sameIdentity tx_settled x'.
Proof.
  apply (webhook_overrides_status svc_fixture gw_fixture env_unset cb_late
           "2024-01-15T10:06:00.000Z" [tx_fixture; tx_settled] 1 tx_settled);
    try valid_keys; reflexivity.
Defined.

(** X17. A redirect to [/success] that carries [txnid] and no hash is
    never verified: what it does is the same in every environment and
    whatever gateways are registered.  It leaves a transaction that has
    the status the query states ([success] when the query states none) as
    it is.  Otherwise it gives a document that holds no [paymentResponse]
    yet that status, when the names of the query are keys a map takes;
    for a document that holds a [paymentResponse] the write is rejected:
    the handler answers 500 and stores nothing. *)
Theorem success_redirect_unverified (svc : PaymentService.t) (env : ProcessEnv)
    (query : Form) (now : Date) (db : Store) (i : nat) (x : Transaction.t) :
  truthy_s (query !! "txnid") = true →
  truthy_s (query !! "hash") = false →
  findOne (λ y, Transaction.transactionId y = query !! "txnid") db = Some (i, x) →
  let newStatus := Routes.easebuzzRedirectStatus (Routes.paymentStatusOf (query !! "status")) in
  (∀ svc' env',
     Routes.appSuccess svc' env' query now db = Routes.appSuccess svc env query now db)
  ∧ (Transaction.status x = newStatus →
     Routes.appSuccess svc env query now db = (Routes.ok, db))
  ∧ (Transaction.status x ≠ newStatus → Transaction.paymentResponse x = None →
     validKeys query →
     ∃ x', Routes.appSuccess svc env query now db = (Routes.ok, save i x' db)
           ∧ Transaction.status x' = newStatus
           ∧ sameIdentity x x')
  ∧ (Transaction.status x ≠ newStatus → is_Some (Transaction.paymentResponse x) →
     Routes.res_code (Routes.appSuccess svc env query now db).1 = 500%nat
     ∧ (Routes.appSuccess svc env query now db).2 = db)
  ∧ (truthy_s (query !! "status") = false → newStatus = success).
Proof.
  intros Ht Hh Hf newStatus.
  assert (Hrun : ∀ svc env,
    Routes.appSuccess svc env query now db
    = if decide (Transaction.status x ≠ newStatus)
      then Routes.saved i (Routes.redirectMerge query now (Transaction.set_status newStatus x))
             Routes.ok "Failed to process payment success" db
      else (Routes.ok, db)).
  { intros svc0 env0. unfold Routes.appSuccess. cbv zeta. rewrite Ht, Hf.
    unfold Routes.redirectHashCheck. rewrite Hh. cbn [andb]. fold newStatus.
    by case_decide. }
  split; [|split; [|split; [|split]]].
  - intros svc' env'. by rewrite !Hrun.
  - intros Hs. rewrite Hrun. by rewrite decide_False by (by intros ?).
  - intros Hs Hm Hq. rewrite Hrun, decide_True by done.
    rewrite redirectMerge_fresh by done. eexists. split; [reflexivity|].
    split; [done|by repeat split].
  - intros Hs Hm. rewrite Hrun, decide_True by done.
    by rewrite redirectMerge_stored.
  - intros Hs. subst newStatus. unfold Routes.paymentStatusOf, or_s. by rewrite Hs.
Qed.

Lemma success_redirect_unverified_witness :
  Routes.appSuccess svc_fixture env_unset query_txn1 "2024-01-15T10:06:00.000Z" [tx_fixture]
  = Routes.appSuccess svc_fixture env_prod query_txn1 "2024-01-15T10:06:00.000Z" [tx_fixture]
  ∧ (Routes.res_code
       (Routes.appSuccess svc_fixture env_prod query_txn1 "2024-01-15T10:06:00.000Z"
          [tx_fixture]).1 = 500%nat
     ∧ (Routes.appSuccess svc_fixture env_prod query_txn1 "2024-01-15T10:06:00.000Z"
          [tx_fixture]).2 = [tx_fixture])
  ∧ ∃ x', Routes.appSuccess svc_fixture env_prod query_txn1 "2024-01-15T10:06:00.000Z"
            [tx_bare]
          = (Routes.ok, save 0 x' [tx_bare])
          ∧ Transaction.status x' = success
          ∧ sameIdentity tx_bare x'.
Proof.
  split; [|split].
  - apply (proj1 (success_redirect_unverified svc_fixture env_prod query_txn1
                    "2024-01-15T10:06:00.000Z" [tx_fixture] 0 tx_fixture
                    ltac:(reflexivity) ltac:(reflexivity) ltac:(reflexivity))).
  - apply (proj1 (proj2 (proj2 (proj2
             (success_redirect_unverified svc_fixture env_prod query_txn1
                "2024-01-15T10:06:00.000Z" [tx_fixture] 0 tx_fixture
                ltac:(reflexivity) ltac:(reflexivity) ltac:(reflexivity))))));
      [discriminate|by eexists].
  - apply (proj1 (proj2 (proj2
             (success_redirect_unverified svc_fixture env_prod query_txn1
                "2024-01-15T10:06:00.000Z" [tx_bare] 0 tx_bare
                ltac:(reflexivity) ltac:(reflexivity) ltac:(reflexivity)))));
      [discriminate|reflexivity|valid_keys].
Defined.

Lemma checkPaymentStatus_no_contact g env up transactionId x :
  truthy (EasebuzzGateway.contactEmail (Some x)) = false
  ∨ truthy (EasebuzzGateway.contactPhone (Some x)) = false
  ∨ String.length (EasebuzzGateway.phoneDigits (EasebuzzGateway.contactPhone (Some x)))
    ≠ 10%nat →
  ∃ sr, EasebuzzGateway.checkPaymentStatus g env up transactionId (Some x) = Returned sr
        ∧ sr_success sr = false.
Proof.
  intros H. unfold EasebuzzGateway.checkPaymentStatus. cbv zeta.
  destruct (truthy (EasebuzzGateway.contactEmail (Some x))) eqn:He;
    [|eexists; split; reflexivity].
  destruct (truthy (EasebuzzGateway.contactPhone (Some x))) eqn:Hp;
    [|eexists; split; reflexivity].
  destruct H as [H|[H|H]]; try discriminate H.
  cbn [negb orb].
  destruct (Nat.eqb_spec
              (String.length (EasebuzzGateway.phoneDigits
                                (EasebuzzGateway.contactPhone (Some x)))) 10); [done|].
  eexists; split; reflexivity.
Qed.

(** X18. A status poll of a hosted-checkout transaction that was stored
    without an e-mail address or without a telephone number, or with a
    number that has not ten digits, reports the stored transaction as it
    is: the poll returns normally, nothing is written, and the outcome is
    the same whatever the gateway would answer, since it is not asked. *)
Theorem poll_without_contact (JSON_stringify : jsval → string) (svc : PaymentService.t)
    (g : EasebuzzGateway.instance) (env : ProcessEnv) (up : Upstream)
    (transactionId : string) (txn_date : option string) (now : Date) (db : Store)
    (i : nat) (x : Transaction.t) :
  findOne (λ y, Transaction.transactionId y = Some transactionId) db = Some (i, x) →
  Transaction.gateway x = "easebuzz" →
  PaymentService.easebuzz svc = Some g →
  truthy (EasebuzzGateway.contactEmail (Some x)) = false
  ∨ truthy (EasebuzzGateway.contactPhone (Some x)) = false
  ∨ String.length (EasebuzzGateway.phoneDigits (EasebuzzGateway.contactPhone (Some x)))
    ≠ 10%nat →
  PaymentService.checkPaymentStatus JSON_stringify svc env up transactionId txn_date now db
  = Returned (db, x).
Proof.
  intros Hf Hgw Hg Hc. unfold PaymentService.checkPaymentStatus. rewrite Hf, Hgw.
  rewrite (getGateway_easebuzz _ _ Hg). cbn [mbind Outcome_bind String.eqb Ascii.eqb Bool.eqb].
  destruct (checkPaymentStatus_no_contact g env up transactionId x Hc) as (sr & Hsr & Hno).
  change (if "easebuzz" =? "easebuzz" then Some x else None)%string with (Some x).
  rewrite Hsr. cbn [mbind Outcome_bind].
  unfold PaymentService.applyStatusResponse. rewrite Hno. reflexivity.
Qed.

Lemma poll_without_contact_witness :
  PaymentService.checkPaymentStatus json_fixture svc_fixture env_unset up_paid "TXN1" None
    "2024-01-15T10:06:00.000Z" [tx_fixture]
  = Returned ([tx_fixture], tx_fixture).
Proof.
  apply (poll_without_contact json_fixture svc_fixture gw_fixture env_unset up_paid "TXN1"
           None "2024-01-15T10:06:00.000Z" [tx_fixture] 0 tx_fixture);
    try reflexivity.
  right. right. vm_compute. lia.
Defined.

(** X19. The two handlers of the UPI success redirect make the same
    update: for a query that carries [client_txn_id] and no [txnid],
    [/success] of the application and [/success] of the payments router
    leave the same collection and answer with the same status code,
    [success] flag and message.  (When no transaction is found, the body
    of the application also names the gateway.) *)
Theorem upi_success_redirects_agree (svc : PaymentService.t) (env : ProcessEnv)
    (query : Form) (now : Date) (db : Store) :
  truthy_s (query !! "txnid") = false →
  truthy_s (query !! "client_txn_id") = true →
  let app := Routes.appSuccess svc env query now db in
  let router := Routes.paymentsSuccess query now db in
  app.2 = router.2
  ∧ Routes.res_code app.1 = Routes.res_code router.1
  ∧ Routes.res_success app.1 = Routes.res_success router.1
  ∧ Routes.res_message app.1 = Routes.res_message router.1
  ∧ (is_Some (findOne (λ y, Transaction.transactionId y = query !! "client_txn_id") db)
     → Routes.res_gateway app.1 = None ∧ Routes.res_gateway router.1 = None).
Proof.
  intros Ht Hc. cbv zeta. unfold Routes.appSuccess, Routes.paymentsSuccess.
  cbv zeta. rewrite Ht, Hc. cbn [negb].
  destruct (findOne _ db) as [[i x]|];
    [|repeat split; first [done | intros [? ?]; discriminate]].
  case_decide; [|done].
  unfold Routes.saved. by destruct (Routes.upiRedirectMerge _ _ _ _ _).
Qed.

Lemma upi_success_redirects_agree_witness :
  (Routes.appSuccess svc_fixture env_prod query_upi1 "2024-01-15T10:06:00.000Z"
     [tx_bare; tx_settled]).2
  = (Routes.paymentsSuccess query_upi1 "2024-01-15T10:06:00.000Z" [tx_bare; tx_settled]).2
  ∧ Routes.res_code
      (Routes.appSuccess svc_fixture env_prod query_upi1 "2024-01-15T10:06:00.000Z"
         [tx_bare; tx_settled]).1
    = Routes.res_code
        (Routes.paymentsSuccess query_upi1 "2024-01-15T10:06:00.000Z"
           [tx_bare; tx_settled]).1.
Proof.
  destruct (upi_success_redirects_agree svc_fixture env_prod query_upi1
              "2024-01-15T10:06:00.000Z" [tx_bare; tx_settled]
              ltac:(reflexivity) ltac:(reflexivity)) as (Hs & Hc & _).
  split; [exact Hs|exact Hc].
Defined.

(** X20. The status check of the hosted-checkout adapter asks the first
    retrieval endpoint, and the second one, with the same form, only when
    the first request fails.  For a transaction with an e-mail address and
    a telephone number of ten digits, the form carries the trimmed
    reference, the digits of the number and the digest of
    [key|reference|salt]; an answer of either endpoint that holds details
    is returned as a success; when both requests fail the check fails and
    its error names both failures. *)
Theorem status_check_fallback (gw : EasebuzzGateway.instance) (env : ProcessEnv)
    (transactionId e : string) (x : Transaction.t) :
  EasebuzzGateway.contactEmail (Some x) = VStr e →
  e ≠ "" →
  truthy (EasebuzzGateway.contactPhone (Some x)) = true →
  String.length (EasebuzzGateway.phoneDigits (EasebuzzGateway.contactPhone (Some x)))
  = 10%nat →
  let v1 := "https://dashboard.easebuzz.in/transaction/v1/retrieve" in
  let v2 := "https://dashboard.easebuzz.in/transaction/v2.1/retrieve" in
  let found d :=
    Returned {| sr_success := true;
                sr_data := EasebuzzGateway.detailsOfStatus d;
                sr_transactionDetails := EasebuzzGateway.detailsOfStatus d;
                sr_error := VUndef; sr_errorDetails := VUndef |} in
  ∃ form : Form,
    form !! "txnid" = Some (trim transactionId)
    ∧ form !! "phone"
      = Some (EasebuzzGateway.phoneDigits (EasebuzzGateway.contactPhone (Some x)))
    ∧ form !! "email" = Some (toLowerCase (trim e))
    ∧ form !! "hash"
      = Some (Sha512.sha512 (pipe [trim (EasebuzzGateway.key gw); trim transactionId;
                                   trim (EasebuzzGateway.salt gw)]))
    ∧ ∀ up : Upstream,
        let result := EasebuzzGateway.checkPaymentStatus gw env up transactionId (Some x) in
        (∀ d, up v1 form = Resolved d → truthy (EasebuzzGateway.detailsOfStatus d) = true →
              result = found d)
        ∧ (∀ e1 d, up v1 form = Rejected e1 → up v2 form = Resolved d →
                   truthy (EasebuzzGateway.detailsOfStatus d) = true →
                   result = found d)
        ∧ (∀ e1 e2, up v1 form = Rejected e1 → up v2 form = Rejected e2 →
             result
             = Returned
                 {| sr_success := false; sr_data := VUndef; sr_transactionDetails := VNull;
                    sr_error :=
                      VStr ("Both v1 and v2.1 endpoints failed. v1: " ++ err_message e1
                            ++ ", v2.1: " ++ err_message e2);
                    sr_errorDetails := VUndef |}).
Proof.
  intros He Hne Hp Hlen v1 v2 found.
  assert (Ht : truthy (VStr e) = true) by (by apply truthy_VStr_ne).
  unfold EasebuzzGateway.checkPaymentStatus. cbv zeta.
  rewrite Hp, He, Ht. cbn [negb orb]. rewrite length_eqb_10, bool_decide_eq_true_2 by done.
  cbn [negb EasebuzzGateway.trim_method mbind Outcome_bind].
  assert (Hurl : ∀ tail, (EasebuzzGateway.dashboardUrl env ++ tail)%string
                         = ("https://dashboard.easebuzz.in" ++ tail)%string).
  { intros tail. unfold EasebuzzGateway.dashboardUrl. by case_match. }
  rewrite !Hurl.
  set (form := list_to_map
    [("key", trim (EasebuzzGateway.key gw)); ("txnid", trim transactionId);
     ("amount", if (Transaction.amount x =? 0)%Z then "0.00"
                else toFixed2 (Transaction.amount x));
     ("email", toLowerCase (trim e));
     ("phone", EasebuzzGateway.phoneDigits (EasebuzzGateway.contactPhone (Some x)));
     ("hash", Sha512.sha512 (pipe [trim (EasebuzzGateway.key gw); trim transactionId;
                                   trim (EasebuzzGateway.salt gw)]))] : Form).
  exists form.
  split; [reflexivity|]. split; [reflexivity|]. split; [reflexivity|].
  split; [reflexivity|].
  intros up. unfold post. cbv zeta.
  change ("https://dashboard.easebuzz.in" ++ "/transaction/v1/retrieve")%string with v1.
  change ("https://dashboard.easebuzz.in" ++ "/transaction/v2.1/retrieve")%string with v2.
  change (list_to_map _) with form.
  split; [|split].
  - intros d Hup Hd. rewrite Hup.
    cbn [mbind Outcome_bind mret Outcome_ret try_catch]. by rewrite Hd.
  - intros e1 d Hup1 Hup2 Hd. rewrite Hup1, Hup2.
    cbn [mbind Outcome_bind mret Outcome_ret try_catch]. by rewrite Hd.
  - intros e1 e2 Hup1 Hup2. rewrite Hup1, Hup2. reflexivity.
Qed.

Lemma status_check_fallback_witness :
  EasebuzzGateway.checkPaymentStatus gw_fixture env_unset up_v1_down "TXN1" (Some tx_local)
  = Returned {| sr_success := true;
                sr_data := EasebuzzGateway.detailsOfStatus details_paid;
                sr_transactionDetails := EasebuzzGateway.detailsOfStatus details_paid;
                sr_error := VUndef; sr_errorDetails := VUndef |}.
Proof.
  destruct (status_check_fallback gw_fixture env_unset "TXN1" "a@b.co" tx_local)
    as (form & _ & _ & _ & _ & H);
    [reflexivity | vm_compute; congruence | reflexivity | reflexivity |].
  destruct (H up_v1_down) as (_ & H2 & _).
  apply (H2 timeout_error details_paid); reflexivity.
Defined.

(** X21. The webhook of the UPI gateway is not authenticated: in every
    environment, a body that names a stored reference as [client_txn_id]
    is accepted, and, when the names of its fields and the keys the
    document holds are keys a map takes, the transaction is saved with
    [success] when the body reports [success], [completed] or [paid], and
    with [failed] for every other status, whatever its stored status
    was. *)
Theorem upi_webhook_unauthenticated (svc : PaymentService.t) (g : UPIGateway.instance)
    (env : ProcessEnv) (body : Form) (now : Date) (db : Store) (i : nat)
    (x : Transaction.t) :
  PaymentService.upigateway svc = Some g →
  truthy_s (body !! "client_txn_id") = true →
  findOne (λ y, Transaction.transactionId y = body !! "client_txn_id") db = Some (i, x) →
  validKeys body →
  validKeys (storedResponse x) →
  ∃ x',
    Routes.upigatewayResponse svc env body now db = (webhookProcessed, save i x' db)
    ∧ Transaction.status x' = UPIGateway.callbackStatus (body !! "status")
    ∧ Transaction.status x' ≠ pending
    ∧ sameIdentity x x'.
Proof.
  intros Hg Hc Hf Hb Hs. unfold Routes.upigatewayResponse, Routes.webhook.
  rewrite (handleCallback_found _ _ _ _ now db (PaymentService.Upi g)
             (body !! "client_txn_id") (UPIGateway.callbackStatus (body !! "status"))
             body i x); [| | | |done..].
  - eexists. split; [reflexivity|]. split; [|split].
    + apply callbackDocument_status.
    + rewrite callbackDocument_status. unfold UPIGateway.callbackStatus. by case_match.
    + apply sameIdentity_callbackDocument.
  - unfold PaymentService.getGateway. simpl toLowerCase. simpl String.eqb. by rewrite Hg.
  - cbn [PaymentService.adapterCallback]. unfold UPIGateway.handleCallback.
    unfold or_s. by rewrite Hc.
  - unfold PaymentService.findCallbackTransaction. by rewrite Hf.
Qed.

Lemma upi_webhook_unauthenticated_witness :
  ∃ x',
    Routes.upigatewayResponse svc_fixture env_prod cb_upi "2024-01-15T10:06:00.000Z"
      [tx_fixture; tx_settled]
    = (webhookProcessed, save 1 x' [tx_fixture; tx_settled])
    ∧ Transaction.status x' = UPIGateway.callbackStatus (cb_upi !! "status")
    ∧ Transaction.status x' ≠ pending
    ∧ sameIdentity tx_settled x'.
Proof.
  apply (upi_webhook_unauthenticated svc_fixture
           {| UPIGateway.key := Some "EKQR1"; UPIGateway.baseUrl := "https://api.ekqr.in/api" |}
           env_prod cb_upi "2024-01-15T10:06:00.000Z" [tx_fixture; tx_settled] 1 tx_settled);
    try valid_keys; reflexivity.
Defined.

Lemma callbackTxnId_txnid cb t :
  cb !! "txnid" = Some t → t ≠ "" → truthy_s (cb !! "gateway_transaction_id") = false →
  PaymentService.callbackTxnId cb = Some t.
Proof.
  intros Hk Hne Hg. unfold PaymentService.callbackTxnId. rewrite Hk.
  assert (Ht : truthy_s (Some t) = true) by (simpl; by rewrite (eqb_ne _ _ Hne)).
  unfold or_s at 3. rewrite Hg. unfold or_s at 2. rewrite Ht. unfold or_s. by rewrite Ht.
Qed.

Lemma handleCallback_accepted gw env cb :
  cb_success (EasebuzzGateway.handleCallback gw env cb) = true →
  EasebuzzGateway.handleCallback gw env cb = proceeds cb.
Proof.
  intros H. destruct (easebuzz_handleCallback_cases gw env cb) as [E|[E|E]]; [done|..];
    rewrite E in H; discriminate.
Qed.

(** ** The identifier minted by the gateway (C9) *)

Lemma truthy_s_Some p : p ≠ "" → truthy_s (Some p) = true.
Proof. intros Hp. simpl. by rewrite (eqb_ne _ _ Hp). Qed.

(** A callback keyed by [p] resolves to the one document that bears [p]
    as its gateway identifier: the lookup by reference misses, the lookup
    by either identifier finds it. *)
Lemma findCallbackTransaction_minted db i y p cb :
  db !! i = Some y →
  Transaction.gatewayTransactionId y = Some p →
  p ≠ "" →
  onlyAt i p db →
  cb !! "txnid" = Some p →
  truthy_s (cb !! "gateway_transaction_id") = false →
  findOne (λ z, Transaction.transactionId z = Some p) db = None
  ∧ PaymentService.findCallbackTransaction db (Some p) cb = Some (i, y).
Proof.
  intros Hi Hgid Hp Huniq Hk Hg.
  assert (Hmiss : findOne (λ z, Transaction.transactionId z = Some p) db = None).
  { unfold findOne. apply list_find_None, Forall_lookup. intros j z Hj.
    by apply (Huniq j z Hj). }
  split; [done|].
  unfold PaymentService.findCallbackTransaction.
  rewrite Hmiss, (callbackTxnId_txnid _ _ Hk Hp Hg), (truthy_s_Some _ Hp).
  unfold findOne. apply list_find_Some. split; [done|]. split; [by right|].
  intros j z Hj Hlt [H|H]; destruct (Huniq j z Hj) as [H1 H2].
  - by apply H1.
  - apply H2; [lia|done].
Qed.





(** X22. The identifier of the gateway is forgotten by the first webhook
    that is keyed by the reference.  For a stored transaction with
    reference [ref] and gateway identifier [p], no other document bearing
    [p]: a callback keyed by [p] resolves to it; once an accepted webhook
    keyed by [ref] has been processed (the names of its fields and the
    keys the document holds being keys a map takes), the document bears
    [ref] as its gateway identifier too, and the same callback keyed by
    [p] is refused with [Transaction not found for ID: p]. *)
Theorem webhook_forgets_gateway_id (svc : PaymentService.t) (gw : EasebuzzGateway.instance)
    (env : ProcessEnv) (db : Store) (i : nat) (x : Transaction.t) (ref p : string)
    (cb cb' : Form) (now now' : Date) :
  PaymentService.easebuzz svc = Some gw →
  findOne (λ y, Transaction.transactionId y = Some ref) db = Some (i, x) →
  Transaction.gatewayTransactionId x = Some p →
  p ≠ ref → ref ≠ "" → p ≠ "" →
  (∀ j y, db !! j = Some y →
          Transaction.transactionId y ≠ Some p
          ∧ (j ≠ i → Transaction.gatewayTransactionId y ≠ Some p)) →
  cb !! "txnid" = Some ref →
  truthy_s (cb !! "gateway_transaction_id") = false →
  cb_success (EasebuzzGateway.handleCallback gw env cb) = true →
  validKeys cb →
  validKeys (storedResponse x) →
  cb' !! "txnid" = Some p →
  truthy_s (cb' !! "gateway_transaction_id") = false →
  cb_success (EasebuzzGateway.handleCallback gw env cb') = true →
  PaymentService.findCallbackTransaction db (Some p) cb' = Some (i, x)
  ∧ ∃ db1 out,
      PaymentService.handleCallback svc env "easebuzz" cb now db = Returned (db1, out)
      ∧ db1 !! i = Some (PaymentService.co_transaction out)
      ∧ Transaction.transactionId (PaymentService.co_transaction out) = Some ref
      ∧ Transaction.gatewayTransactionId (PaymentService.co_transaction out) = Some ref
      ∧ PaymentService.handleCallback svc env "easebuzz" cb' now' db1
        = throw ("Transaction not found for ID: " ++ p).
Proof.
  intros Hsvc Hf Hgid Hdiff Hr Hp Huniq Hk Hg Hok Hcb Hs Hk' Hg' Hok'.
  pose proof (callbackTxnId_txnid _ _ Hk Hr Hg) as Hc.
  pose proof (callbackTxnId_txnid _ _ Hk' Hp Hg') as Hc'.
  pose proof (truthy_s_Some _ Hp) as Htp.
  pose proof (truthy_s_Some _ Hr) as Htr.
  pose proof Hf as Hfx. apply findOne_lookup in Hfx as [Hi Hid].
  split.
  { by apply (findCallbackTransaction_minted db i x p cb'). }
  set (x1 := callbackDocument cb (Some ref)
               (EasebuzzGateway.callbackStatus (cb !! "status")) cb now x).
  assert (Hx1 : Transaction.transactionId x1 = Some ref
                ∧ Transaction.gatewayTransactionId x1 = Some ref).
  { split.
    - subst x1. by rewrite callbackDocument_transactionId.
    - subst x1. rewrite callbackDocument_gatewayTransactionId; rewrite Hc; done. }
  destruct Hx1 as [Hx1t Hx1g].
  exists (save i x1 db),
    {| PaymentService.co_index := i; PaymentService.co_transaction := x1;
       PaymentService.co_statusChanged :=
         bool_decide (Transaction.status x ≠ Transaction.status x1) |}.
  split.
  { rewrite (easebuzz_webhook_found _ _ _ _ now _ i x Hsvc Hok); [|rewrite Hk| |].
    - by rewrite Hk.
    - unfold PaymentService.findCallbackTransaction. by rewrite Hf.
    - done.
    - done. }
  cbn [PaymentService.co_transaction].
  split; [by apply (save_lookup _ _ x)|]. split; [done|]. split; [done|].
  unfold PaymentService.handleCallback. rewrite (getGateway_easebuzz _ _ Hsvc).
  cbn [mbind Outcome_bind PaymentService.adapterCallback].
  rewrite (handleCallback_accepted _ _ _ Hok'). unfold proceeds. rewrite Hk'.
  assert (Hnone : ∀ j y, save i x1 db !! j = Some y →
                         Transaction.transactionId y ≠ Some p
                         ∧ Transaction.gatewayTransactionId y ≠ Some p).
  { intros j y Hj. unfold save in Hj.
    destruct (decide (j = i)) as [->|Hne].
    - rewrite list_lookup_insert_eq in Hj by (by eapply lookup_lt_Some).
      injection Hj as <-. rewrite Hx1t, Hx1g. split; intros [= ->]; done.
    - rewrite list_lookup_insert_ne in Hj by done.
      destruct (Huniq j y Hj) as [? H2]. split; [done|]. by apply H2. }
  unfold PaymentService.findCallbackTransaction.
  assert (findOne (λ y, Transaction.transactionId y = Some p) (save i x1 db) = None) as ->.
  { unfold findOne. apply list_find_None, Forall_lookup. intros j y Hj.
    by apply (Hnone j y Hj). }
  rewrite Hc', Htp.
  assert (findOne (λ y, Transaction.transactionId y = Some p
                        ∨ Transaction.gatewayTransactionId y = Some p) (save i x1 db)
          = None) as ->.
  { unfold findOne. apply list_find_None, Forall_lookup. intros j y Hj [H|H];
      destruct (Hnone j y Hj) as [H1 H2]; [by apply H1|by apply H2]. }
  reflexivity.
Qed.

Lemma webhook_forgets_gateway_id_witness :
  PaymentService.findCallbackTransaction [tx_created] (Some "PAY1") cb_minted
  = Some (0%nat, tx_created)
  ∧ ∃ db1 out,
      PaymentService.handleCallback svc_fixture env_unset "easebuzz" cb_webhook
        "2024-01-15T10:05:00.000Z" [tx_created] = Returned (db1, out)
      ∧ db1 !! 0%nat = Some (PaymentService.co_transaction out)
      ∧ Transaction.transactionId (PaymentService.co_transaction out) = Some "TXN1"
      ∧ Transaction.gatewayTransactionId (PaymentService.co_transaction out) = Some "TXN1"
      ∧ PaymentService.handleCallback svc_fixture env_unset "easebuzz" cb_minted
          "2024-01-15T10:06:00.000Z" db1
        = throw ("Transaction not found for ID: " ++ "PAY1").
Proof.
  apply (webhook_forgets_gateway_id svc_fixture gw_fixture env_unset [tx_created] 0
           tx_created "TXN1" "PAY1" cb_webhook cb_minted);
    try valid_keys; try reflexivity; try (vm_compute; congruence).
  intros [|j] y Hj; [|by destruct j].
  injection Hj as <-. split; [vm_compute; congruence|]. intros H. by destruct H.
Defined.


